(** * HackMate: room presence and membership coordinator

    A shallow embedding of the PL/pgSQL functions [join_room], [leave_room],
    [room_heartbeat], [cleanup_inactive_participants], [generate_join_code]
    and [regenerate_join_code] of the Supabase migrations, and of the
    [useRoles] / [useRoomRole] hooks, together with the store-level
    constraints the migrations declare on the two tables they touch.

    Conventions.
    - A [uuid] and a [text] value are strings, compared with [String.eqb]
      (PostgreSQL compares both byte for byte).
    - A [timestamptz] is the number of microseconds since the epoch; [now()]
      is the transaction timestamp and is passed to every call.
    - A table is the list of its rows.  [UPDATE ... WHERE c] rewrites every
      row that satisfies [c]; [SELECT ... INTO] reads the first such row.
    - A PL/pgSQL call either returns (a value and the ledger it leaves) or
      raises; a raised error rolls the whole call back. *)

From Stdlib Require Import ZArith List String Ascii Bool Lia QArith Qround Lqa.
Import ListNotations.
Local Open Scope string_scope.
Local Open Scope list_scope.
Local Open Scope Z_scope.

(** ** Values *)

Definition uuid := string.
Definition text := string.
Definition timestamptz := Z.

(** [interval '2 minutes'] in microseconds. *)
Definition two_minutes : Z := 120000000.

(** [CREATE TYPE app_role AS ENUM ('participant', 'organizer', 'judge')] *)
Module AppRole.
Inductive t := participant | organizer | judge.
Definition eqb (a b : t) : bool :=
  match a, b with
  | participant, participant | organizer, organizer | judge, judge => true
  | _, _ => false
  end.
End AppRole.

(** [CREATE TYPE room_role AS ENUM ('member', 'organizer', 'judge')] *)
Module RoomRole.
Inductive t := member | organizer | judge.
Definition eqb (a b : t) : bool :=
  match a, b with
  | member, member | organizer, organizer | judge, judge => true
  | _, _ => false
  end.
End RoomRole.

(** [jsonb_build_object]: the keys in the order they are given. *)
Inductive jsonb_value :=
| jbool (b : bool)
| jtext (s : text).

Definition jsonb := list (string * jsonb_value).

Fixpoint jsonb_get (k : string) (j : jsonb) : option jsonb_value :=
  match j with
  | [] => None
  | (k', v) :: j' => if (k' =? k)%string then Some v else jsonb_get k j'
  end.

(** ** Tables *)

(** [public.rooms].  The columns the coordinator reads or writes, and the
    content columns the hooks select with them. *)
Module rooms.
Record row := mk {
  id : uuid;
  name : text;
  theme : text;
  description : option text;
  created_at : timestamptz;
  created_by : uuid;
  max_participants : Z;
  current_user_count : Z;
  status : text;
  join_code : text;
  is_private : bool;
  updated_at : timestamptz
}.

Definition set_current_user_count (c : Z) (r : row) : row :=
  mk (id r) (name r) (theme r) (description r) (created_at r) (created_by r)
     (max_participants r) c (status r) (join_code r) (is_private r)
     (updated_at r).

Definition set_updated_at (ts : timestamptz) (r : row) : row :=
  mk (id r) (name r) (theme r) (description r) (created_at r) (created_by r)
     (max_participants r) (current_user_count r) (status r) (join_code r)
     (is_private r) ts.

Definition set_join_code (c : text) (r : row) : row :=
  mk (id r) (name r) (theme r) (description r) (created_at r) (created_by r)
     (max_participants r) (current_user_count r) (status r) c
     (is_private r) (updated_at r).

(** [CHECK (current_user_count >= 0 AND current_user_count <= 5)] *)
Definition check (r : row) : bool :=
  (0 <=? current_user_count r) && (current_user_count r <=? 5).
End rooms.

(** [public.room_participants].  The surrogate key [id] is left out: no
    function below reads it ([SELECT id INTO ...] only sets [FOUND]). *)
Module room_participants.
Record row := mk {
  room_id : uuid;
  user_id : uuid;
  joined_at : timestamptz;
  device_id : option text;
  is_active : bool;
  last_seen : timestamptz;
  room_role : RoomRole.t
}.

Definition set_is_active (b : bool) (p : row) : row :=
  mk (room_id p) (user_id p) (joined_at p) (device_id p) b (last_seen p)
     (room_role p).

Definition set_last_seen (ts : timestamptz) (p : row) : row :=
  mk (room_id p) (user_id p) (joined_at p) (device_id p) (is_active p) ts
     (room_role p).

(** The key of [UNIQUE (room_id, user_id)]. *)
Definition key (p : row) : uuid * uuid := (room_id p, user_id p).
End room_participants.

(** The membership ledger: both tables. *)
Record db := mkdb {
  t_rooms : list rooms.row;
  t_room_participants : list room_participants.row
}.

(** ** Statements and errors *)

Inductive sqlstate := check_violation | unique_violation.

Inductive outcome (A : Type) :=
| Returned (a : A)
| Raised (e : sqlstate).
Arguments Returned {A} a.
Arguments Raised {A} e.

Definition bind {A B} (c : outcome A) (k : A -> outcome B) : outcome B :=
  match c with
  | Returned a => k a
  | Raised e => Raised e
  end.

Notation "x <- c ;; k" := (bind c (fun x => k))
  (at level 61, c at next level, right associativity).

(** The ledger a call leaves behind: what it returned with, or the ledger
    it started from when it raised. *)
Definition commit {A} (s : db) (o : outcome (A * db)) : db :=
  match o with
  | Returned (_, s') => s'
  | Raised _ => s
  end.

(** [UPDATE rooms SET ... WHERE ...]: every row the condition selects is
    rewritten, and the store evaluates the CHECK constraint on each new row
    version; one failing row aborts the statement. *)
Definition UPDATE_rooms (cond : rooms.row -> bool) (upd : rooms.row -> rooms.row)
    (t : list rooms.row) : outcome (list rooms.row) :=
  if forallb (fun r => implb (cond r) (rooms.check (upd r))) t
  then Returned (map (fun r => if cond r then upd r else r) t)
  else Raised check_violation.

(** [INSERT INTO rooms]: the CHECK constraint is evaluated first, then the
    primary key on [id] and the unique index [idx_rooms_join_code].  The row
    carries its join code, as the one [createRoom] sends does, so the
    [set_room_join_code] trigger (which only fills in a NULL) changes
    nothing. *)
Definition INSERT_rooms (r : rooms.row) (t : list rooms.row)
    : outcome (list rooms.row) :=
  if negb (rooms.check r) then Raised check_violation
  else if existsb (fun q => String.eqb (rooms.id q) (rooms.id r)) t
  then Raised unique_violation
  else if existsb (fun q => String.eqb (rooms.join_code q) (rooms.join_code r)) t
  then Raised unique_violation
  else Returned (t ++ [r]).

(** [UPDATE room_participants SET ... WHERE ...].  None of the statements
    below writes a key column, so no constraint is re-evaluated. *)
Definition UPDATE_room_participants (cond : room_participants.row -> bool)
    (upd : room_participants.row -> room_participants.row)
    (t : list room_participants.row) : list room_participants.row :=
  map (fun p => if cond p then upd p else p) t.

(** [INSERT INTO room_participants], under
    [room_participants_room_user_unique]. *)
Definition INSERT_room_participants (p : room_participants.row)
    (t : list room_participants.row) : outcome (list room_participants.row) :=
  if existsb (fun q => String.eqb (room_participants.room_id q) (room_participants.room_id p)
                       && String.eqb (room_participants.user_id q) (room_participants.user_id p)) t
  then Raised unique_violation
  else Returned (t ++ [p]).

(** [SELECT COUNT( * ) FROM room_participants
     WHERE room_id = r AND is_active = true] *)
Definition COUNT_active (r : uuid) (t : list room_participants.row) : Z :=
  Z.of_nat (List.length
    (filter (fun p => String.eqb (room_participants.room_id p) r
                      && room_participants.is_active p) t)).

Definition COALESCE {A} (a b : option A) : option A :=
  match a with
  | Some _ => a
  | None => b
  end.

Definition GREATEST (a b : Z) : Z := Z.max a b.

(** ** The transactor *)

Definition room_is (p_room_id : uuid) (r : rooms.row) : bool :=
  String.eqb (rooms.id r) p_room_id.

Definition participant_is (p_room_id p_user_id : uuid)
    (p : room_participants.row) : bool :=
  String.eqb (room_participants.room_id p) p_room_id
  && String.eqb (room_participants.user_id p) p_user_id.

(** The objects the functions return. *)
Definition RoomNotFound : jsonb :=
  [("success", jbool false); ("error", jtext "Room not found")].
Definition InactiveRoom : jsonb :=
  [("success", jbool false); ("error", jtext "Room is not active")].
Definition InvalidJoinCode : jsonb :=
  [("success", jbool false); ("error", jtext "Invalid join code")].
Definition CapacityExceeded : jsonb :=
  [("success", jbool false);
   ("error", jtext "Room full (5/5 members). Try another room or wait.")].
Definition Rejoined : jsonb :=
  [("success", jbool true); ("message", jtext "Rejoined room");
   ("already_member", jbool true)].
Definition Joined : jsonb :=
  [("success", jbool true); ("message", jtext "Successfully joined room");
   ("already_member", jbool false)].
Definition NotAMember : jsonb :=
  [("success", jbool false); ("error", jtext "User not in room")].
Definition Left : jsonb :=
  [("success", jbool true); ("message", jtext "Successfully left room")].
Definition ParticipantNotFound : jsonb :=
  [("success", jbool false); ("error", jtext "Participant not found")].
Definition HeartbeatOk : jsonb := [("success", jbool true)].
Definition NotTheHost : jsonb :=
  [("success", jbool false);
   ("error", jtext "Only the host can regenerate the join code")].
Definition Regenerated (v_new_code : text) : jsonb :=
  [("success", jbool true); ("join_code", jtext v_new_code)].

(** The row [join_room] inserts; [joined_at] and [room_role] take their
    column defaults ([now()] and ['member']). *)
Definition new_participant (now : timestamptz) (p_room_id p_user_id : uuid)
    (p_device_id : option text) : room_participants.row :=
  room_participants.mk p_room_id p_user_id now p_device_id true now
    RoomRole.member.

(** The SET clause of the rejoin branch. *)
Definition reactivate (now : timestamptz) (p_device_id : option text)
    (p : room_participants.row) : room_participants.row :=
  room_participants.mk (room_participants.room_id p)
    (room_participants.user_id p) (room_participants.joined_at p)
    (COALESCE p_device_id (room_participants.device_id p)) true now
    (room_participants.room_role p).

(** [p_join_code IS NULL OR p_join_code != v_join_code] *)
Definition join_code_rejected (p_join_code : option text) (v_join_code : text)
    : bool :=
  match p_join_code with
  | None => true
  | Some c => negb (String.eqb c v_join_code)
  end.

(** [join_room(p_room_id, p_user_id, p_device_id, p_join_code)] *)
Definition join_room (now : timestamptz) (p_room_id p_user_id : uuid)
    (p_device_id p_join_code : option text) (s : db) : outcome (jsonb * db) :=
  match find (room_is p_room_id) (t_rooms s) with
  | None => Returned (RoomNotFound, s)
  | Some v =>
    if negb (String.eqb (rooms.status v) "active") then
      Returned (InactiveRoom, s)
    else if existsb (participant_is p_room_id p_user_id) (t_room_participants s)
    then
      let ps := UPDATE_room_participants (participant_is p_room_id p_user_id)
                  (reactivate now p_device_id) (t_room_participants s) in
      rs <- UPDATE_rooms (room_is p_room_id)
              (rooms.set_current_user_count (COUNT_active p_room_id ps))
              (t_rooms s) ;;
      Returned (Rejoined, mkdb rs ps)
    else if rooms.is_private v
            && negb (String.eqb (rooms.created_by v) p_user_id)
            && join_code_rejected p_join_code (rooms.join_code v) then
      Returned (InvalidJoinCode, s)
    else if rooms.max_participants v <=? rooms.current_user_count v then
      Returned (CapacityExceeded, s)
    else
      ps <- INSERT_room_participants
              (new_participant now p_room_id p_user_id p_device_id)
              (t_room_participants s) ;;
      rs <- UPDATE_rooms (room_is p_room_id)
              (fun r => rooms.set_updated_at now
                 (rooms.set_current_user_count (rooms.current_user_count r + 1) r))
              (t_rooms s) ;;
      Returned (Joined, mkdb rs ps)
  end.

(** [leave_room(p_room_id, p_user_id)] *)
Definition leave_room (now : timestamptz) (p_room_id p_user_id : uuid)
    (s : db) : outcome (jsonb * db) :=
  let v_participant_exists :=
    existsb (fun p => participant_is p_room_id p_user_id p
                      && room_participants.is_active p)
            (t_room_participants s) in
  if negb v_participant_exists then Returned (NotAMember, s)
  else
    let ps := UPDATE_room_participants (participant_is p_room_id p_user_id)
                (fun p => room_participants.set_last_seen now
                            (room_participants.set_is_active false p))
                (t_room_participants s) in
    rs <- UPDATE_rooms (room_is p_room_id)
            (fun r => rooms.set_updated_at now
               (rooms.set_current_user_count
                  (GREATEST 0 (rooms.current_user_count r - 1)) r))
            (t_rooms s) ;;
    Returned (Left, mkdb rs ps).

(** [room_heartbeat(p_room_id, p_user_id)] *)
Definition room_heartbeat (now : timestamptz) (p_room_id p_user_id : uuid)
    (s : db) : outcome (jsonb * db) :=
  let live p := participant_is p_room_id p_user_id p
                && room_participants.is_active p in
  let found := existsb live (t_room_participants s) in
  let ps := UPDATE_room_participants live (room_participants.set_last_seen now)
              (t_room_participants s) in
  if negb found then Returned (ParticipantNotFound, mkdb (t_rooms s) ps)
  else Returned (HeartbeatOk, mkdb (t_rooms s) ps).

(** [is_active = true AND last_seen < now() - interval '2 minutes'] *)
Definition stale (now : timestamptz) (p : room_participants.row) : bool :=
  room_participants.is_active p
  && (room_participants.last_seen p <? now - two_minutes).

(** [cleanup_inactive_participants()]: the periodic sweep. *)
Definition cleanup_inactive_participants (now : timestamptz) (s : db)
    : outcome (unit * db) :=
  let ps := UPDATE_room_participants (stale now)
              (room_participants.set_is_active false)
              (t_room_participants s) in
  rs <- UPDATE_rooms (fun _ => true)
          (fun r => rooms.set_current_user_count
                      (COUNT_active (rooms.id r) ps) r)
          (t_rooms s) ;;
  Returned (tt, mkdb rs ps).

(** ** Join codes *)

Definition LENGTH (s : text) : Z := Z.of_nat (String.length s).

(** [SUBSTR(s, start, count)]: the characters at the 1-based positions
    [start .. start + count - 1] that exist in [s]. *)
Definition SUBSTR (s : text) (start count : Z) : text :=
  let lo := Z.max start 1 in
  let hi := start + count in
  if hi <=? lo then ""
  else substring (Z.to_nat (lo - 1)) (Z.to_nat (hi - lo)) s.

Definition chars : text := "ABCDEFGHJKLMNPQRSTUVWXYZ23456789".

(** One round of the loop body.  [u] is the value [RANDOM()] yields there,
    a number with [0 <= u < 1]; the arithmetic is exact. *)
Definition pick (u : Q) : text :=
  SUBSTR chars (Qfloor (u * inject_Z (LENGTH chars) + 1)%Q) 1.

(** [generate_join_code()].  [RANDOM i] is what the [i]-th evaluation of
    [RANDOM()] yields during the call. *)
Definition generate_join_code (RANDOM : nat -> Q) : text :=
  fold_left (fun result i => (result ++ pick (RANDOM i))%string)
            (seq 1 6) "".

(** [regenerate_join_code(p_room_id, p_user_id)].  The partial unique index
    [idx_rooms_join_code] rejects the new key when another room holds it. *)
Definition regenerate_join_code (RANDOM : nat -> Q) (p_room_id p_user_id : uuid)
    (s : db) : outcome (jsonb * db) :=
  match find (room_is p_room_id) (t_rooms s) with
  | None => Returned (RoomNotFound, s)
  | Some v =>
    if negb (String.eqb (rooms.created_by v) p_user_id) then
      Returned (NotTheHost, s)
    else
      let v_new_code := generate_join_code RANDOM in
      if existsb (fun r => negb (room_is p_room_id r)
                           && String.eqb (rooms.join_code r) v_new_code)
                 (t_rooms s)
      then Raised unique_violation
      else
        rs <- UPDATE_rooms (room_is p_room_id) (rooms.set_join_code v_new_code)
                (t_rooms s) ;;
        Returned (Regenerated v_new_code, mkdb rs (t_room_participants s))
  end.

(** ** The role resolver *)

(** What [useRoomRole] returns, without the [loading] flag. *)
Record RoomRoleHook := mkHook {
  roomRole : option RoomRole.t;
  canEdit : bool;
  canComment : bool;
  canKick : bool;
  isReadOnly : bool;
  isOrganizerMode : bool;
  isJudgeMode : bool
}.

(** [roles.includes(role)] *)
Definition includes (role : AppRole.t) (roles : list AppRole.t) : bool :=
  existsb (AppRole.eqb role) roles.

(** [.maybeSingle()]: [(data, error)]; more than one row is an error. *)
Definition maybeSingle {A} (rows : list A) : option A * bool :=
  match rows with
  | [] => (None, false)
  | [x] => (Some x, false)
  | _ :: _ :: _ => (None, true)
  end.

(** The query and the branch of [fetchRoomRole]. *)
Definition fetchRoomRole (roomId userId : uuid)
    (isGlobalOrganizer isGlobalJudge : bool) (s : db) : option RoomRole.t :=
  let '(data, error) :=
    maybeSingle
      (map room_participants.room_role
         (filter (fun p => String.eqb (room_participants.room_id p) roomId
                           && String.eqb (room_participants.user_id p) userId
                           && Bool.eqb (room_participants.is_active p) true)
                 (t_room_participants s))) in
  match negb error, data with
  | true, Some room_role => Some room_role
  | _, _ =>
    if isGlobalOrganizer then Some RoomRole.organizer
    else if isGlobalJudge then Some RoomRole.judge
    else None
  end.

(** [roomRole === role] *)
Definition role_is (role : RoomRole.t) (roomRole : option RoomRole.t) : bool :=
  match roomRole with
  | Some r => RoomRole.eqb r role
  | None => false
  end.

(** [useRoomRole(roomId)] once the fetch of its effect has settled, for the
    signed-in [user] (if any) whose global role rows are [roles].  [!roomId]
    holds for a missing and for an empty string. *)
Definition useRoomRole (user roomId : option uuid) (roles : list AppRole.t)
    (s : db) : RoomRoleHook :=
  let isGlobalOrganizer := includes AppRole.organizer roles in
  let isGlobalJudge := includes AppRole.judge roles in
  let roomRole :=
    match user, roomId with
    | Some userId, Some room =>
        if String.eqb room "" then None
        else fetchRoomRole room userId isGlobalOrganizer isGlobalJudge s
    | _, _ => None
    end in
  mkHook roomRole
    (role_is RoomRole.member roomRole)
    (role_is RoomRole.organizer roomRole || role_is RoomRole.member roomRole)
    (role_is RoomRole.organizer roomRole)
    (role_is RoomRole.organizer roomRole || role_is RoomRole.judge roomRole)
    (role_is RoomRole.organizer roomRole)
    (role_is RoomRole.judge roomRole).

(** ** Sequences of operations *)

Inductive op :=
| Join (now : timestamptz) (room user : uuid) (device join_code : option text)
| Leave (now : timestamptz) (room user : uuid)
| Heartbeat (now : timestamptz) (room user : uuid)
| Sweep (now : timestamptz)
| RegenerateJoinCode (RANDOM : nat -> Q) (room user : uuid).

(** One call, committed or rolled back. *)
Definition step (s : db) (o : op) : db :=
  match o with
  | Join now room user device code =>
      commit s (join_room now room user device code s)
  | Leave now room user => commit s (leave_room now room user s)
  | Heartbeat now room user => commit s (room_heartbeat now room user s)
  | Sweep now => commit s (cleanup_inactive_participants now s)
  | RegenerateJoinCode RANDOM room user =>
      commit s (regenerate_join_code RANDOM room user s)
  end.

Definition run (ops : list op) (s : db) : db := fold_left step ops s.

(** ** Ledger predicates *)

(** The CHECK constraint holds on every room row. *)
Definition rooms_checked (s : db) : Prop :=
  Forall (fun r => rooms.check r = true) (t_rooms s).

(** The primary key of [rooms]. *)
Definition rooms_pkey (s : db) : Prop := NoDup (map rooms.id (t_rooms s)).

(** [room_participants_room_user_unique]. *)
Definition participants_unique (s : db) : Prop :=
  NoDup (map room_participants.key (t_room_participants s)).

(** The cached counter of every room is the number of its active rows. *)
Definition occupancy_exact (s : db) : Prop :=
  Forall (fun r => rooms.current_user_count r
                   = COUNT_active (rooms.id r) (t_room_participants s))
         (t_rooms s).

(** Rooms nobody has joined yet. *)
Definition all_rooms_empty (s : db) : Prop :=
  t_room_participants s = []
  /\ Forall (fun r => rooms.current_user_count r = 0) (t_rooms s).

Definition rows_of_room (room : uuid) (s : db) : list rooms.row :=
  filter (room_is room) (t_rooms s).

Definition participants_of_room (room : uuid) (s : db)
    : list room_participants.row :=
  filter (fun p => String.eqb (room_participants.room_id p) room)
         (t_room_participants s).

(** A room created the way [createRoom] does, with capacity [n]. *)
Definition fresh_room (room creator : uuid) (n : Z) (private : bool)
    (code : text) : rooms.row :=
  rooms.mk room "room" "theme" None 0 creator n 0 "active" code private 0.

(** The ledgers the coordinator maintains: the declared constraints hold and
    every cached counter is exact. *)
Definition consistent (s : db) : Prop :=
  rooms_checked s /\ participants_unique s /\ occupancy_exact s.

(** No room holds more active rows than its capacity. *)
Definition within_capacity (s : db) : Prop :=
  Forall (fun r => COUNT_active (rooms.id r) (t_room_participants s)
                   <= rooms.max_participants r)
         (t_rooms s).

(** What identifies a room and fixes its capacity. *)
Definition room_capacity (r : rooms.row) : uuid * Z :=
  (rooms.id r, rooms.max_participants r).

(** The ledger in which one room of capacity [n] has just been created. *)
Definition one_room (n : Z) : db :=
  mkdb [fresh_room "R" "host" n false "ABCDEF"] [].

(** A public-room join from some device. *)
Definition joins (now : timestamptz) (user : uuid) : op :=
  Join now "R" user (Some "device") None.

(** The ledger a call returns with, or the error it raises. *)
Definition call (o : op) (s : db) : outcome db :=
  match o with
  | Join now room user device code =>
      x <- join_room now room user device code s ;; Returned (snd x)
  | Leave now room user => x <- leave_room now room user s ;; Returned (snd x)
  | Heartbeat now room user =>
      x <- room_heartbeat now room user s ;; Returned (snd x)
  | Sweep now => x <- cleanup_inactive_participants now s ;; Returned (snd x)
  | RegenerateJoinCode RANDOM room user =>
      x <- regenerate_join_code RANDOM room user s ;; Returned (snd x)
  end.

(** A full room of capacity 5 with one former member: A to E joined, A left
    and F took the free place. *)
Definition crowded : db :=
  Eval vm_compute in
    run [joins 1 "A"; joins 2 "B"; joins 3 "C"; joins 4 "D"; joins 5 "E";
         Leave 6 "R" "A"; joins 7 "F"] (one_room 5).

(** The conditions under which a [join_room] call reaches its capacity
    check: the room exists and is active, the caller has no row in it, and
    the join-code test lets the caller through. *)
Definition reaches_capacity_check (room user : uuid) (code : option text)
    (s : db) (v : rooms.row) : Prop :=
  find (room_is room) (t_rooms s) = Some v
  /\ rooms.status v = "active"
  /\ existsb (participant_is room user) (t_room_participants s) = false
  /\ rooms.is_private v && negb (String.eqb (rooms.created_by v) user)
     && join_code_rejected code (rooms.join_code v) = false.

(** The ledger a successful first join leaves. *)
Definition joined_ledger (now : timestamptz) (room user : uuid)
    (device : option text) (s : db) : db :=
  mkdb (map (fun r => if room_is room r
                      then rooms.set_updated_at now
                             (rooms.set_current_user_count
                                (rooms.current_user_count r + 1) r)
                      else r) (t_rooms s))
       (t_room_participants s ++ [new_participant now room user device]).



(** The ledger a rejoin leaves: the caller's row reactivated and the counter
    of the room recomputed from the rows. *)
Definition rejoined_ledger (now : timestamptz) (room user : uuid)
    (device : option text) (s : db) : db :=
  let ps := UPDATE_room_participants (participant_is room user)
              (reactivate now device) (t_room_participants s) in
  mkdb (map (fun r => if room_is room r
                      then rooms.set_current_user_count (COUNT_active room ps) r
                      else r) (t_rooms s))
       ps.

(** The spec's wording of step 4 of join: a rejoin always goes through. *)
Definition spec_rejoin : Prop :=
  forall now room user device code s v,
    rooms_checked s -> rooms_pkey s -> participants_unique s ->
    find (room_is room) (t_rooms s) = Some v ->
    rooms.status v = "active" ->
    existsb (participant_is room user) (t_room_participants s) = true ->
    join_room now room user device code s
    = Returned (Rejoined, rejoined_ledger now room user device s).

(** Every row of [(room, user)] is marked active. *)
Definition member_active (room user : uuid) (s : db) : Prop :=
  forall p, In p (t_room_participants s) ->
            participant_is room user p = true ->
            room_participants.is_active p = true.

(** A private room of capacity 5, just created by "host". *)
Definition private_room : db :=
  mkdb [fresh_room "R" "host" 5 true "ABCDEF"] [].

(** [leave_room]'s test: an active row of [(room, user)] exists. *)
Definition has_active_row (room user : uuid) (s : db) : bool :=
  existsb (fun p => participant_is room user p && room_participants.is_active p)
          (t_room_participants s).

(** The ledger a successful leave leaves. *)
Definition left_ledger (now : timestamptz) (room user : uuid) (s : db) : db :=
  mkdb (map (fun r => if room_is room r
                      then rooms.set_updated_at now
                             (rooms.set_current_user_count
                                (Z.max 0 (rooms.current_user_count r - 1)) r)
                      else r) (t_rooms s))
       (map (fun p => if participant_is room user p
                      then room_participants.set_last_seen now
                             (room_participants.set_is_active false p)
                      else p) (t_room_participants s)).

(** The SET clause of the sweep's second statement. *)
Definition recount (ps : list room_participants.row) (r : rooms.row)
    : rooms.row :=
  rooms.set_current_user_count (COUNT_active (rooms.id r) ps) r.

(** The ledger a sweep pass leaves. *)
Definition swept_ledger (now : timestamptz) (s : db) : db :=
  let ps := UPDATE_room_participants (stale now)
              (room_participants.set_is_active false)
              (t_room_participants s) in
  mkdb (map (recount ps) (t_rooms s)) ps.

(** The spec's wording of the sweep: whatever the pass does, the ledger it
    leaves has every participant with an old last-seen inactive and every
    counter exact. *)
Definition spec_sweep_pass : Prop :=
  forall now s,
    rooms_checked s -> rooms_pkey s -> participants_unique s ->
    let s' := commit s (cleanup_inactive_participants now s) in
    (forall p, In p (t_room_participants s') ->
               room_participants.last_seen p < now - two_minutes ->
               room_participants.is_active p = false)
    /\ occupancy_exact s'.

(** Room "R", whose cached counter said 4 while five rows were active, after
    a sixth member has joined it, beside a room "Q" whose only member was
    last seen at 1. *)
Definition overfull_beside_silent : db :=
  Eval vm_compute in
    run [Join 1 "Q" "Z" (Some "device") None;
         Join 200 "R" "F" (Some "device") None]
        (mkdb [rooms.mk "R" "room" "theme" None 0 "host" 5 4 "active" "ABCDEF"
                 false 100;
               fresh_room "Q" "host" 5 false "GHJKLM"]
              (map (fun u => new_participant 100 "R" u (Some "device"))
                   ["A"; "B"; "C"; "D"; "E"])).








(** Another room holds the code: the key [idx_rooms_join_code] rejects. *)
Definition code_taken (room : uuid) (c : text) (s : db) : bool :=
  existsb (fun r => negb (room_is room r) && String.eqb (rooms.join_code r) c)
          (t_rooms s).

(** The ledger a successful regeneration leaves. *)
Definition recoded_ledger (room : uuid) (c : text) (s : db) : db :=
  mkdb (map (fun r => if room_is room r then rooms.set_join_code c r else r)
            (t_rooms s))
       (t_room_participants s).


(** A source of draws that cycles through 0/7, 1/7, ..., 6/7. *)
Definition sevenths (i : nat) : Q := Z.of_nat (i mod 7) # 7.

(** The spec's wording for observers: whoever holds a global role and has
    no active row in the room gets the room role of that name. *)
Definition spec_observer_role : Prop :=
  forall user room roles s,
    room <> "" ->
    has_active_row room user s = false ->
    (includes AppRole.organizer roles = true ->
     roomRole (useRoomRole (Some user) (Some room) roles s)
     = Some RoomRole.organizer)
    /\ (includes AppRole.judge roles = true ->
        roomRole (useRoomRole (Some user) (Some room) roles s)
        = Some RoomRole.judge).

(** ** Further ledger descriptions *)

(** The ledger a heartbeat leaves: the last-seen of the caller's active row
    is refreshed. *)
Definition heartbeat_ledger (now : timestamptz) (room user : uuid) (s : db)
    : db :=
  mkdb (t_rooms s)
       (UPDATE_room_participants
          (fun p => participant_is room user p && room_participants.is_active p)
          (room_participants.set_last_seen now) (t_room_participants s)).

(** The room a call addresses; the sweep addresses none in particular. *)
Definition op_room (o : op) : option uuid :=
  match o with
  | Join _ room _ _ _ => Some room
  | Leave _ room _ => Some room
  | Heartbeat _ room _ => Some room
  | Sweep _ => None
  | RegenerateJoinCode _ room _ => Some room
  end.

(** Two rooms with one member each. *)
Definition two_rooms : db :=
  Eval vm_compute in
    run [Join 1 "R" "A" (Some "device") None;
         Join 2 "Q" "B" (Some "device") None]
        (mkdb [fresh_room "R" "host" 5 false "ABCDEF";
               fresh_room "Q" "host" 5 false "GHJKLM"] []).

(** ** The first version of join_room *)

(** [join_room(p_room_id, p_user_id, p_device_id)], the three-argument
    function of the first migration: the same steps without the join-code
    test. *)
Definition join_room3 (now : timestamptz) (p_room_id p_user_id : uuid)
    (p_device_id : option text) (s : db) : outcome (jsonb * db) :=
  match find (room_is p_room_id) (t_rooms s) with
  | None => Returned (RoomNotFound, s)
  | Some v =>
    if negb (String.eqb (rooms.status v) "active") then
      Returned (InactiveRoom, s)
    else if existsb (participant_is p_room_id p_user_id) (t_room_participants s)
    then
      let ps := UPDATE_room_participants (participant_is p_room_id p_user_id)
                  (reactivate now p_device_id) (t_room_participants s) in
      rs <- UPDATE_rooms (room_is p_room_id)
              (rooms.set_current_user_count (COUNT_active p_room_id ps))
              (t_rooms s) ;;
      Returned (Rejoined, mkdb rs ps)
    else if rooms.max_participants v <=? rooms.current_user_count v then
      Returned (CapacityExceeded, s)
    else
      ps <- INSERT_room_participants
              (new_participant now p_room_id p_user_id p_device_id)
              (t_room_participants s) ;;
      rs <- UPDATE_rooms (room_is p_room_id)
              (fun r => rooms.set_updated_at now
                 (rooms.set_current_user_count (rooms.current_user_count r + 1) r))
              (t_rooms s) ;;
      Returned (Joined, mkdb rs ps)
  end.

(** ** Global roles *)

(** [public.user_roles], without its surrogate key. *)
Module user_roles.
Record row := mk {
  user_id : uuid;
  role : AppRole.t;
  created_at : timestamptz
}.

(** The key of [UNIQUE (user_id, role)]. *)
Definition same_key (a b : row) : bool :=
  String.eqb (user_id a) (user_id b) && AppRole.eqb (role a) (role b).
End user_roles.

(** [has_role(_user_id, _role)].  [auth.uid()] is NULL for a caller who is
    not signed in, and [user_id = NULL] selects no row. *)
Definition has_role (_user_id : option uuid) (_role : AppRole.t)
    (t : list user_roles.row) : bool :=
  match _user_id with
  | None => false
  | Some u =>
      existsb (fun r => String.eqb (user_roles.user_id r) u
                        && AppRole.eqb (user_roles.role r) _role) t
  end.

(** What a client statement on [user_roles] can fail with. *)
Inductive role_error :=
| insufficient_privilege
| duplicate_key.

(** A client statement on [user_roles]. *)
Inductive role_write :=
| InsertRole (r : user_roles.row)
| UpdateRoles (cond : user_roles.row -> bool) (upd : user_roles.row -> user_roles.row)
| DeleteRoles (cond : user_roles.row -> bool).

(** The rows of an UPDATE are rewritten one after the other in table order;
    each new version is checked against [UNIQUE (user_id, role)] when it is
    written. *)
Fixpoint update_roles (cond : user_roles.row -> bool)
    (upd : user_roles.row -> user_roles.row)
    (done todo : list user_roles.row) : role_error + list user_roles.row :=
  match todo with
  | [] => inr done
  | r :: rest =>
      if cond r then
        if existsb (user_roles.same_key (upd r)) (done ++ rest)
        then inl duplicate_key
        else update_roles cond upd (done ++ [upd r]) rest
      else update_roles cond upd (done ++ [r]) rest
  end.

(** A statement run for the caller [auth_uid] under the row-level policies
    of [user_roles]: "Only organizers can manage roles" is the WITH CHECK of
    every INSERT, and "Only organizers can update roles" / "... delete roles"
    are the USING filters of UPDATE and DELETE, which silently hide every row
    from a caller who is not an organizer. *)
Definition client_write (auth_uid : option uuid) (w : role_write)
    (t : list user_roles.row) : role_error + list user_roles.row :=
  match w with
  | InsertRole r =>
      if negb (has_role auth_uid AppRole.organizer t)
      then inl insufficient_privilege
      else if existsb (user_roles.same_key r) t then inl duplicate_key
      else inr (t ++ [r])
  | UpdateRoles cond upd =>
      if has_role auth_uid AppRole.organizer t
      then update_roles cond upd [] t
      else inr t
  | DeleteRoles cond =>
      if has_role auth_uid AppRole.organizer t
      then inr (filter (fun r => negb (cond r)) t)
      else inr t
  end.

(** The table after a statement: a failed statement changes nothing. *)
Definition after_write (t : list user_roles.row)
    (aw : option uuid * role_write) : list user_roles.row :=
  match client_write (fst aw) (snd aw) t with
  | inr t' => t'
  | inl _ => t
  end.

(** What [useRoles] returns, without the [loading] flag; [hasRole] is
    [includes] on [roles]. *)
Record RolesHook := mkRoles {
  roles : list AppRole.t;
  isOrganizer : bool;
  isJudge : bool;
  isParticipant : bool
}.

(** The rows [fetchRoles] selects: the caller's own, which the policy
    "Users can view their own roles" shows. *)
Definition fetchRoles (userId : uuid) (t : list user_roles.row)
    : list AppRole.t :=
  map user_roles.role
      (filter (fun r => String.eqb (user_roles.user_id r) userId) t).

(** [useRoles()] once its fetch has settled without an error; without a
    user the role list is empty. *)
Definition useRoles (user : option uuid) (t : list user_roles.row)
    : RolesHook :=
  let roles := match user with
               | Some userId => fetchRoles userId t
               | None => []
               end in
  let isOrganizer := includes AppRole.organizer roles in
  let isJudge := includes AppRole.judge roles in
  mkRoles roles isOrganizer isJudge
    (includes AppRole.participant roles
     || (negb isOrganizer && negb isJudge)).

(** ** The client hook useRoom *)

(** A row of [room_messages] as the hook holds it. *)
Module Message.
Record t := mk {
  id : uuid;
  room_id : uuid;
  user_id : option uuid;
  user_email : option text;
  message : text;
  is_ai : bool;
  created_at : timestamptz
}.
End Message.

(** A row of [room_ai_suggestions] as the hook holds it. *)
Module Suggestion.
Record t := mk {
  id : uuid;
  room_id : uuid;
  suggestion : text;
  suggestion_type : text;
  created_at : timestamptz
}.
End Suggestion.

(** The updater the messages channel passes to [setMessages] on an
    INSERT. *)
Definition on_message_insert (payload_new : Message.t)
    (prev : list Message.t) : list Message.t :=
  if existsb (fun m => String.eqb (Message.id m) (Message.id payload_new)) prev
  then prev
  else prev ++ [payload_new].

(** [list.slice(0, n)] *)
Definition slice_to {A} (n : nat) (l : list A) : list A := firstn n l.

(** [list.slice(-n)] *)
Definition slice_last {A} (n : nat) (l : list A) : list A :=
  skipn (List.length l - n) l.

(** The updater the suggestions channel passes to [setSuggestions]. *)
Definition on_suggestion_insert (newSuggestion : Suggestion.t)
    (prev : list Suggestion.t) : list Suggestion.t :=
  if existsb (fun s => String.eqb (Suggestion.id s) (Suggestion.id newSuggestion))
             prev
  then prev
  else slice_to 5 (newSuggestion :: prev).

(** What [sendMessage] does besides returning [{ success }]: the row it
    inserts, and the messages it hands to the [ai-room-moderator] function. *)
Record Sent := mkSent {
  sent_success : bool;
  sent_row : option (uuid * uuid * text);
  sent_toast : bool;
  sent_moderation : option (list text)
}.

(** [sendMessage(content)].  [trimmed] is [content.trim()], [messages] the
    hook's list when the callback was made, and [insert_ok] tells whether the
    insert into [room_messages] came back without an error. *)
Definition sendMessage (user roomId : option uuid) (trimmed : text)
    (messages : list Message.t) (insert_ok : bool) : Sent :=
  match user, roomId with
  | Some userId, Some room =>
      if String.eqb room "" || String.eqb trimmed "" then
        mkSent false None false None
      else
        let messageCount := List.length messages in
        if negb insert_ok then
          mkSent false (Some (room, userId, trimmed)) true None
        else if (0 <? messageCount)%nat && (messageCount mod 5 =? 0)%nat then
          mkSent true (Some (room, userId, trimmed)) false
                 (Some (map Message.message (slice_last 5 messages)))
        else mkSent true (Some (room, userId, trimmed)) false None
  | _, _ => mkSent false None false None
  end.

(** What a query of the [rooms] row comes back with. *)
Inductive response :=
| Data (data : rooms.row)
| FetchError
| Throws.

(** The part of the hook's state [fetchRoom] reads and writes, with the
    delays it has slept (in milliseconds) and the number of queries it has
    sent. *)
Record Fetching := mkFetching {
  retryCount : nat;
  room_state : option rooms.row;
  error_state : option text;
  slept : list Z;
  queries : nat
}.

Definition maxRetries : nat := 3.

(** [fetchRoom()] for a room id that is set.  [store k] is what the [k]-th
    query comes back with.  The result is [None] when [fuel] nested calls did
    not suffice. *)
Fixpoint fetchRoom (fuel : nat) (store : nat -> response) (st : Fetching)
    : option (option rooms.row * Fetching) :=
  match fuel with
  | O => None
  | S fuel' =>
      match store (queries st) with
      | FetchError =>
          if (retryCount st <? maxRetries)%nat then
            fetchRoom fuel' store
              (mkFetching (S (retryCount st)) (room_state st) (error_state st)
                 (slept st ++ [1000 * Z.of_nat (S (retryCount st))])
                 (S (queries st)))
          else
            Some (None,
                  mkFetching (retryCount st) (room_state st)
                    (Some "Room not found") (slept st) (S (queries st)))
      | Data data =>
          Some (Some data,
                mkFetching 0 (Some data) (error_state st) (slept st)
                  (S (queries st)))
      | Throws =>
          Some (None,
                mkFetching (retryCount st) (room_state st)
                  (Some "Failed to load room") (slept st) (S (queries st)))
      end
  end.

(** The closure of [getDeviceId] and the item it keeps in local storage. *)
Record DeviceMemory := mkDevice {
  cachedId : option text;
  hackmate_device_id : option text
}.

(** A value JavaScript treats as true: a string that is set and not
    empty. *)
Definition truthy (v : option text) : bool :=
  match v with
  | Some t => negb (String.eqb t "")
  | None => false
  end.

(** [getDeviceId()].  [date_now] and [random_part] are the texts of
    [Date.now()] and of [Math.random().toString(36).substr(2, 9)]. *)
Definition getDeviceId (date_now random_part : text) (m : DeviceMemory)
    : option text * DeviceMemory :=
  if truthy (cachedId m) then (cachedId m, m)
  else if truthy (hackmate_device_id m)
       then (hackmate_device_id m,
             mkDevice (hackmate_device_id m) (hackmate_device_id m))
       else let fresh := ("device_" ++ date_now ++ "_" ++ random_part)%string in
            (Some fresh, mkDevice (Some fresh) (Some fresh)).

(** ** Calling the coordinator from the client *)

(** What [supabase.rpc] comes back with: the function's result, an error
    with the server's message, or an exception of the transport. *)
Inductive rpc :=
| rpc_data (data : jsonb)
| rpc_error (message : text)
| rpc_throws.

(** The server's side of [supabase.rpc('join_room', ...)]: the call runs in
    one transaction; [message_of] is the text the server gives an error. *)
Definition rpc_join_room (message_of : sqlstate -> text) (now : timestamptz)
    (s : db) (p_room_id p_user_id : uuid) (p_device_id p_join_code : option text)
    : rpc * db :=
  match join_room now p_room_id p_user_id p_device_id p_join_code s with
  | Returned (data, s') => (rpc_data data, s')
  | Raised e => (rpc_error (message_of e), s)
  end.

(** JavaScript's truth of a field of a JSON object; a missing field is
    [undefined]. *)
Definition json_truthy (v : option jsonb_value) : bool :=
  match v with
  | Some (jbool b) => b
  | Some (jtext t) => negb (String.eqb t "")
  | None => false
  end.

(** What [joinRoom] resolves to. *)
Record JoinResult := mkJoinResult {
  success : bool;
  error : option jsonb_value;
  alreadyMember : option jsonb_value
}.

(** [joinRoom(joinCode)] of [useRoom], given what answers the RPC; the
    second component is [isJoinedRef.current] afterwards. *)
Definition joinRoom {S} (user roomId : option uuid) (deviceId : text)
    (joinCode : option text) (isJoinedRef : bool)
    (call : uuid -> uuid -> option text -> option text -> rpc * S) (s : S)
    : JoinResult * bool * S :=
  match user, roomId with
  | Some userId, Some room =>
      if String.eqb room "" then
        (mkJoinResult false (Some (jtext "Missing user or room ID")) None,
         isJoinedRef, s)
      else
        let p_join_code := if truthy joinCode then joinCode else None in
        let '(answer, s') := call room userId (Some deviceId) p_join_code in
        match answer with
        | rpc_error message =>
            (mkJoinResult false (Some (jtext message)) None, isJoinedRef, s')
        | rpc_throws =>
            (mkJoinResult false
               (Some (jtext "Network error - please try again")) None,
             isJoinedRef, s')
        | rpc_data result =>
            if negb (json_truthy (jsonb_get "success" result)) then
              (mkJoinResult false
                 (if json_truthy (jsonb_get "error" result)
                  then jsonb_get "error" result
                  else Some (jtext "Failed to join room")) None,
               isJoinedRef, s')
            else
              (mkJoinResult true None (jsonb_get "already_member" result),
               true, s')
        end
  | _, _ =>
      (mkJoinResult false (Some (jtext "Missing user or room ID")) None,
       isJoinedRef, s)
  end.

(** [set_room_join_code()], the BEFORE INSERT trigger of [rooms]: a join
    code is generated for a row that comes without one. *)
Definition set_room_join_code (RANDOM : nat -> Q) (NEW_join_code : option text)
    : text :=
  match NEW_join_code with
  | None => generate_join_code RANDOM
  | Some c => c
  end.

(** What [createRoom] resolves to. *)
Record CreateResult := mkCreateResult {
  created : bool;
  create_error : option text;
  created_roomId : option uuid;
  created_joinCode : option text
}.

(** [createRoom(name, theme, description)] of [useRooms], for a caller the
    store lets insert rooms.  [new_id], [created_at0] and [updated_at0] are
    what the column defaults of the new row give; the insert and the join are
    two transactions, at [now] the second. *)
Definition createRoom (message_of : sqlstate -> text) (RANDOM : nat -> Q)
    (new_id : uuid) (created_at0 updated_at0 now : timestamptz)
    (user : option uuid) (deviceId : text)
    (name theme : text) (description : option text) (s : db)
    : CreateResult * db :=
  match user with
  | None => (mkCreateResult false (Some "Not authenticated") None None, s)
  | Some userId =>
      let NEW := rooms.mk new_id name theme description created_at0 userId
                   5 0 "active" (set_room_join_code RANDOM (Some "")) true
                   updated_at0 in
      match INSERT_rooms NEW (t_rooms s) with
      | Raised e => (mkCreateResult false (Some (message_of e)) None None, s)
      | Returned rs =>
          let s1 := mkdb rs (t_room_participants s) in
          match join_room now new_id userId (Some deviceId) None s1 with
          | Raised e =>
              (mkCreateResult false (Some (message_of e)) (Some new_id) None, s1)
          | Returned (_, s2) =>
              (mkCreateResult true None (Some new_id)
                 (Some (rooms.join_code NEW)), s2)
          end
      end
  end.

(** ** The pages *)

(** [.single()]: the row when the query selects exactly one. *)
Definition single {A} (rows : list A) : option A :=
  match rows with
  | [x] => Some x
  | _ => None
  end.

(** What a handler of a page ends with. *)
Inductive page_step :=
| stays
| shows (title : text)
| navigates (roomId : uuid).

(** [handleJoin] of the JoinRoom page; [room_loaded] tells whether the page
    holds a room, [currentRoom] and [existing] are what its two queries come
    back with. *)
Definition handleJoin (user roomId : option uuid) (room_loaded : bool)
    (currentRoom : option rooms.row)
    (existing : option room_participants.row) : page_step :=
  match user, roomId with
  | Some _, Some room =>
      if String.eqb room "" || negb room_loaded then stays
      else
        match currentRoom with
        | None => shows "Error"
        | Some current =>
            if negb (String.eqb (rooms.status current) "active")
            then shows "Room unavailable"
            else if rooms.max_participants current
                    <=? rooms.current_user_count current
            then match existing with
                 | Some _ => navigates room
                 | None => shows "Room full"
                 end
            else navigates room
        end
  | _, _ => stays
  end.

(** [handleJoinByCode] of the dashboard; [code] is the trimmed input and
    [room] what the query by id comes back with. *)
Definition handleJoinByCode (code : text) (room : option rooms.row)
    : page_step :=
  if String.eqb code "" then shows "Missing code"
  else
    match room with
    | None => shows "Room not found"
    | Some r =>
        if negb (String.eqb (rooms.status r) "active")
        then shows "Room unavailable"
        else if rooms.max_participants r <=? rooms.current_user_count r
        then shows "Room full"
        else navigates (rooms.id r)
    end.

(** The two queries of [handleJoin], read from a ledger the caller may
    see. *)
Definition read_room (room : uuid) (s : db) : option rooms.row :=
  single (filter (room_is room) (t_rooms s)).

Definition read_membership (room user : uuid) (s : db)
    : option room_participants.row :=
  single (filter (participant_is room user) (t_room_participants s)).

(** [fetchParticipants]: the active rows of the room. *)
Definition fetchParticipants (room : uuid) (s : db)
    : list room_participants.row :=
  filter (fun p => String.eqb (room_participants.room_id p) room
                   && Bool.eqb (room_participants.is_active p) true)
         (t_room_participants s).

(** [a !== b] on values that are a string or null. *)
Definition differs (a b : option text) : bool :=
  match a, b with
  | Some x, Some y => negb (String.eqb x y)
  | None, None => false
  | _, _ => true
  end.

(** The effect of the Room page that sets [multiDeviceWarning]; [stored] is
    the [hackmate_device_id] item and [warning] the flag before. *)
Definition multiDeviceWarning (user : option uuid)
    (participants : list room_participants.row) (stored : option text)
    (warning : bool) : bool :=
  match user with
  | Some userId =>
      if (0 <? List.length participants)%nat then
        let userParticipations :=
          filter (fun p => String.eqb (room_participants.user_id p) userId)
                 participants in
        (1 <? List.length userParticipations)%nat
        || match userParticipations with
           | [p] => differs (room_participants.device_id p) stored
           | _ => false
           end
      else warning
  | None => warning
  end.

(** A room of capacity 5 with five active members. *)
Definition full_room : db :=
  Eval vm_compute in
    run [joins 1 "A"; joins 2 "B"; joins 3 "C"; joins 4 "D"; joins 5 "E"]
        (one_room 5).

(** Every participant row carries the room role ['member']. *)
Definition all_members (s : db) : Prop :=
  Forall (fun p => room_participants.room_role p = RoomRole.member)
         (t_room_participants s).

(** ** The debouncer of the realtime handlers *)

(** The platform's timers that one debouncer has set: [setTimeout] hands out
    handles that are never zero and never repeat, and a pending timer holds
    its delay (in milliseconds) and its callback. *)
Record Timer (A : Type) := mkTimer {
  handle : nat;
  timer_delay : Z;
  callback : A
}.
Arguments mkTimer {A}.
Arguments handle {A}.
Arguments timer_delay {A}.
Arguments callback {A}.

Record Timers (A : Type) := mkTimers {
  next_handle : nat;
  pending : list (Timer A)
}.
Arguments mkTimers {A}.
Arguments next_handle {A}.
Arguments pending {A}.

Definition setTimeout {A} (fn : A) (delay : Z) (T : Timers A)
    : nat * Timers A :=
  (next_handle T,
   mkTimers (S (next_handle T))
            (pending T ++ [mkTimer (next_handle T) delay fn])).

Definition clearTimeout {A} (h : nat) (T : Timers A) : Timers A :=
  mkTimers (next_handle T)
           (filter (fun t => negb (handle t =? h)%nat) (pending T)).

(** What [createDebouncer(delay)] closes over, with the timers and the
    callbacks that have run. *)
Record Debouncer (A : Type) := mkDebouncer {
  timeoutId : option nat;
  timers : Timers A;
  ran : list A
}.
Arguments mkDebouncer {A}.
Arguments timeoutId {A}.
Arguments timers {A}.
Arguments ran {A}.

Definition createDebouncer {A} (first_handle : nat) : Debouncer A :=
  mkDebouncer None (mkTimers first_handle []) [].

(** A call [debounced(fn)] of the function [createDebouncer(delay)]
    returns. *)
Definition debounced {A} (delay : Z) (fn : A) (d : Debouncer A)
    : Debouncer A :=
  let T1 := match timeoutId d with
            | Some h => if (h =? 0)%nat then timers d
                        else clearTimeout h (timers d)
            | None => timers d
            end in
  let '(h, T2) := setTimeout fn delay T1 in
  mkDebouncer (Some h) T2 (ran d).

(** The timer with handle [h] expires: its callback runs once. *)
Definition expire {A} (h : nat) (d : Debouncer A) : Debouncer A :=
  mkDebouncer (timeoutId d) (clearTimeout h (timers d))
    (ran d ++ map callback
                  (filter (fun t => (handle t =? h)%nat) (pending (timers d)))).

Inductive timer_event (A : Type) :=
| Called (fn : A)
| Expired (h : nat).
Arguments Called {A}.
Arguments Expired {A}.

Definition timer_step {A} (delay : Z) (d : Debouncer A) (e : timer_event A)
    : Debouncer A :=
  match e with
  | Called fn => debounced delay fn d
  | Expired h => expire h d
  end.

(** ** Organizer comments *)

Module organizer_comments.
Record row := mk {
  id : uuid;
  room_id : uuid;
  user_id : uuid;
  comment : text;
  created_at : timestamptz
}.
End organizer_comments.

(** [auth.uid() = user_id] *)
Definition is_uid (auth_uid : option uuid) (user_id : uuid) : bool :=
  match auth_uid with
  | Some u => String.eqb u user_id
  | None => false
  end.

(** An INSERT into [organizer_comments] by the client of [auth_uid], under
    the policy "Organizers can create comments". *)
Definition insert_comment (auth_uid : option uuid) (roles : list user_roles.row)
    (r : organizer_comments.row) (t : list organizer_comments.row)
    : role_error + list organizer_comments.row :=
  if has_role auth_uid AppRole.organizer roles then inr (t ++ [r])
  else inl insufficient_privilege.

(** [DELETE FROM organizer_comments WHERE id = commentId] by the client of
    [auth_uid], under the policy "Organizers can delete own comments": the
    rows the policy hides are passed over. *)
Definition delete_comment (auth_uid : option uuid) (roles : list user_roles.row)
    (commentId : uuid) (t : list organizer_comments.row)
    : list organizer_comments.row :=
  filter (fun r => negb (String.eqb (organizer_comments.id r) commentId
                         && (has_role auth_uid AppRole.organizer roles
                             && is_uid auth_uid (organizer_comments.user_id r))))
         t.

(** [handleSubmit] of [OrganizerComments]: the table afterwards and the
    title of the toast, if any.  [trimmed] is [newComment.trim()],
    [isOrganizer] what [useRoles] gave the component, [new_id] and [now] the
    column defaults of the new row. *)
Definition handleSubmit (user : option uuid) (isOrganizer : bool)
    (trimmed : text) (roomId new_id : uuid) (now : timestamptz)
    (roles : list user_roles.row) (t : list organizer_comments.row)
    : list organizer_comments.row * option text :=
  match user with
  | Some userId =>
      if String.eqb trimmed "" || negb isOrganizer then (t, None)
      else
        match insert_comment (Some userId) roles
                (organizer_comments.mk new_id roomId userId trimmed now) t with
        | inl _ => (t, Some "Error")
        | inr t' => (t', Some "Comment added")
        end
  | None => (t, None)
  end.

(** [handleDelete(commentId)]: the statement reports no error when the
    policy hides the row, so no toast is shown. *)
Definition handleDelete (user : option uuid) (commentId : uuid)
    (roles : list user_roles.row) (t : list organizer_comments.row)
    : list organizer_comments.row * option text :=
  (delete_comment user roles commentId t, None).

(** * Proofs *)

(** ** Statements *)

Section Statements.
Variables (cond : rooms.row -> bool) (upd : rooms.row -> rooms.row).

Lemma UPDATE_rooms_commits t :
  (forall r, In r t -> cond r = true -> rooms.check (upd r) = true) ->
  UPDATE_rooms cond upd t
  = Returned (map (fun r => if cond r then upd r else r) t).
Proof.
  intros H. unfold UPDATE_rooms.
  replace (forallb _ t) with true; [reflexivity|].
  symmetry. apply forallb_forall. intros r Hr.
  destruct (cond r) eqn:E; simpl; auto.
Qed.

Lemma UPDATE_rooms_Returned t t' :
  UPDATE_rooms cond upd t = Returned t' ->
  t' = map (fun r => if cond r then upd r else r) t
  /\ forall r, In r t -> cond r = true -> rooms.check (upd r) = true.
Proof.
  unfold UPDATE_rooms. destruct (forallb _ t) eqn:E; [|discriminate].
  intros [= <-]. split; [reflexivity|].
  intros r Hr Hc. rewrite forallb_forall in E. specialize (E r Hr).
  now rewrite Hc in E.
Qed.

Lemma UPDATE_rooms_Raised t e :
  UPDATE_rooms cond upd t = Raised e ->
  e = check_violation
  /\ exists r, In r t /\ cond r = true /\ rooms.check (upd r) = false.
Proof.
  unfold UPDATE_rooms. destruct (forallb _ t) eqn:E; [discriminate|].
  intros [= <-]. split; [reflexivity|].
  induction t as [|r t IH]; simpl in E; [discriminate|].
  apply andb_false_iff in E. destruct E as [E|E].
  - exists r. destruct (cond r), (rooms.check (upd r)); simpl in *;
      try discriminate; auto.
  - destruct (IH E) as (r' & ? & ? & ?). exists r'. simpl; auto.
Qed.

Lemma UPDATE_rooms_checked t t' :
  Forall (fun r => rooms.check r = true) t ->
  UPDATE_rooms cond upd t = Returned t' ->
  Forall (fun r => rooms.check r = true) t'.
Proof.
  intros Hc Hu. apply UPDATE_rooms_Returned in Hu. destruct Hu as [-> Hu].
  apply Forall_forall. intros r' Hr'. apply in_map_iff in Hr'.
  destruct Hr' as (r & <- & Hr). rewrite Forall_forall in Hc.
  destruct (cond r) eqn:E; auto.
Qed.
End Statements.

(** ** Counting active rows *)

Lemma COUNT_active_nonneg r t : 0 <= COUNT_active r t.
Proof. unfold COUNT_active. lia. Qed.

Lemma COUNT_active_nil r : COUNT_active r [] = 0.
Proof. reflexivity. Qed.

Lemma COUNT_active_cons r p t :
  COUNT_active r (p :: t)
  = (if String.eqb (room_participants.room_id p) r
        && room_participants.is_active p then 1 else 0)
    + COUNT_active r t.
Proof.
  unfold COUNT_active. simpl filter.
  destruct (_ && _); [cbn [List.length]|]; lia.
Qed.

Lemma COUNT_active_app r t u :
  COUNT_active r (t ++ u) = COUNT_active r t + COUNT_active r u.
Proof.
  induction t as [|p t IH]; cbn [app].
  - rewrite COUNT_active_nil. lia.
  - rewrite !COUNT_active_cons, IH. lia.
Qed.

(** An update that keeps the room of every row and the flag of the rows of
    room [r] keeps the count of [r]. *)
Lemma COUNT_active_frame r f t :
  (forall p, In p t -> room_participants.room_id (f p) = room_participants.room_id p) ->
  (forall p, In p t -> room_participants.room_id p = r ->
             room_participants.is_active (f p) = room_participants.is_active p) ->
  COUNT_active r (map f t) = COUNT_active r t.
Proof.
  induction t as [|p t IH]; intros Hk Ha; [reflexivity|].
  simpl map. rewrite !COUNT_active_cons.
  rewrite IH; [ | intros; apply Hk; simpl; auto | intros; apply Ha; simpl; auto ].
  rewrite (Hk p) by (simpl; auto).
  destruct (String.eqb (room_participants.room_id p) r) eqn:E; simpl; [|reflexivity].
  apply String.eqb_eq in E. rewrite (Ha p) by (simpl; auto). reflexivity.
Qed.

(** An update that only clears flags can only lower the count. *)
Lemma COUNT_active_lower r f t :
  (forall p, In p t -> room_participants.room_id (f p) = room_participants.room_id p) ->
  (forall p, In p t -> room_participants.is_active (f p) = true ->
             room_participants.is_active p = true) ->
  COUNT_active r (map f t) <= COUNT_active r t.
Proof.
  induction t as [|p t IH]; intros Hk Ha; [reflexivity|].
  simpl map. rewrite !COUNT_active_cons.
  assert (COUNT_active r (map f t) <= COUNT_active r t)
    by (apply IH; intros; [apply Hk|apply Ha]; simpl; auto; fail).
  rewrite (Hk p) by (simpl; auto).
  destruct (String.eqb (room_participants.room_id p) r); simpl; [|lia].
  destruct (room_participants.is_active (f p)) eqn:E.
  - rewrite (Ha p) by (simpl; auto). lia.
  - destruct (room_participants.is_active p); lia.
Qed.

(** ** Updates of participant rows *)

Lemma UPDATE_room_participants_none cond upd t :
  (forall p, In p t -> cond p = false) ->
  UPDATE_room_participants cond upd t = t.
Proof.
  induction t as [|p t IH]; intros H; [reflexivity|].
  unfold UPDATE_room_participants in *. simpl.
  rewrite (H p) by (simpl; auto). f_equal. apply IH. intros; apply H; simpl; auto.
Qed.

Lemma UPDATE_room_participants_keys cond upd t :
  (forall p, room_participants.key (upd p) = room_participants.key p) ->
  map room_participants.key (UPDATE_room_participants cond upd t)
  = map room_participants.key t.
Proof.
  intros H. unfold UPDATE_room_participants. rewrite map_map.
  apply map_ext. intros p. destruct (cond p); auto.
Qed.

Lemma participant_is_key room user p :
  participant_is room user p = true <-> room_participants.key p = (room, user).
Proof.
  unfold participant_is, room_participants.key.
  rewrite andb_true_iff, !String.eqb_eq. split.
  - intros [-> ->]; reflexivity.
  - intros [= -> ->]; auto.
Qed.

Lemma unique_head_only room user p t :
  NoDup (map room_participants.key (p :: t)) ->
  participant_is room user p = true ->
  forall q, In q t -> participant_is room user q = false.
Proof.
  intros Hnd Hp q Hq. apply participant_is_key in Hp.
  destruct (participant_is room user q) eqn:E; [|reflexivity].
  apply participant_is_key in E. inversion Hnd as [|? ? Hnin _]. exfalso.
  apply Hnin. rewrite Hp, <- E. now apply in_map.
Qed.

(** Under the unique key, clearing the flag of the one active row of
    [(room, user)] lowers the count of [room] by exactly one. *)
Lemma COUNT_active_deactivate room user upd t :
  (forall p, room_participants.room_id (upd p) = room_participants.room_id p) ->
  (forall p, room_participants.is_active (upd p) = false) ->
  NoDup (map room_participants.key t) ->
  existsb (fun p => participant_is room user p && room_participants.is_active p) t
  = true ->
  COUNT_active room (UPDATE_room_participants (participant_is room user) upd t)
  = COUNT_active room t - 1.
Proof.
  intros Hroom Hoff. induction t as [|p t IH]; intros Hnd Hex; [discriminate|].
  cbn [UPDATE_room_participants map].
  fold (UPDATE_room_participants (participant_is room user) upd t).
  destruct (participant_is room user p) eqn:Ep.
  - rewrite UPDATE_room_participants_none
      by (eapply unique_head_only; eauto).
    rewrite !COUNT_active_cons, Hroom, Hoff.
    assert (Hact : room_participants.is_active p = true).
    { cbn [existsb] in Hex. rewrite Ep in Hex. cbn [andb] in Hex.
      destruct (room_participants.is_active p); [reflexivity|].
      cbn [orb] in Hex. apply existsb_exists in Hex.
      destruct Hex as (q & Hq & Hq'). apply andb_true_iff in Hq'.
      rewrite (unique_head_only room user p t Hnd Ep q Hq) in Hq'.
      destruct Hq'; discriminate. }
    rewrite Hact. apply andb_true_iff in Ep. destruct Ep as [-> _].
    cbn [andb]. lia.
  - cbn [existsb andb orb] in Hex. rewrite Ep in Hex. cbn [andb orb] in Hex.
    inversion Hnd; subst. rewrite !COUNT_active_cons, IH by assumption. lia.
Qed.

(** ** One consistent ledger leads to another *)

Lemma all_rooms_empty_consistent s : all_rooms_empty s -> consistent s.
Proof.
  destruct s as [rs ps]. intros [Hp Hr]. simpl in *. subst ps.
  repeat split; red; simpl.
  - eapply Forall_impl; [|exact Hr]. intros r Hc. unfold rooms.check.
    rewrite Hc. reflexivity.
  - constructor.
  - eapply Forall_impl; [|exact Hr]. intros r Hc. now rewrite Hc.
Qed.

Lemma consistent_bounded s r :
  consistent s -> In r (t_rooms s) ->
  0 <= COUNT_active (rooms.id r) (t_room_participants s) <= 5.
Proof.
  intros (Hc & _ & He) Hr. red in Hc, He. rewrite Forall_forall in Hc, He.
  specialize (Hc r Hr). specialize (He r Hr). unfold rooms.check in Hc.
  rewrite <- He. lia.
Qed.

Ltac inv_update H :=
  let Hc := fresh "Hchk" in
  apply UPDATE_rooms_Returned in H; destruct H as [-> Hc].

Lemma room_is_eq room r : room_is room r = true <-> rooms.id r = room.
Proof. unfold room_is. apply String.eqb_eq. Qed.

Lemma join_room_consistent now room user device code s :
  consistent s -> consistent (commit s (join_room now room user device code s)).
Proof.
  intros Hs. pose proof Hs as (Hc & Hu & He). unfold join_room.
  destruct (find (room_is room) (t_rooms s)) as [v|] eqn:Hfind; [|exact Hs].
  destruct (negb (String.eqb (rooms.status v) "active")); [exact Hs|].
  destruct (existsb (participant_is room user) (t_room_participants s)) eqn:Hex.
  - (* rejoin *)
    unfold bind.
    destruct (UPDATE_rooms _ _ (t_rooms s)) as [rs|e] eqn:U; [|exact Hs].
    cbn [commit]. pose proof (UPDATE_rooms_checked _ _ _ _ Hc U) as Hc'.
    inv_update U. repeat split; red; cbn [t_rooms t_room_participants].
    + exact Hc'.
    + rewrite UPDATE_room_participants_keys; [exact Hu|reflexivity].
    + apply Forall_forall. intros r' Hr'. apply in_map_iff in Hr'.
      destruct Hr' as (r & <- & Hr). red in He. rewrite Forall_forall in He.
      destruct (room_is room r) eqn:E.
      * apply room_is_eq in E. cbn. now rewrite E.
      * rewrite (He r Hr). symmetry. apply COUNT_active_frame.
        -- intros p _. destruct (participant_is room user p); reflexivity.
        -- intros p _ Hp. destruct (participant_is room user p) eqn:Ep; [|reflexivity].
           apply andb_true_iff in Ep. destruct Ep as [Ep _].
           apply String.eqb_eq in Ep. unfold room_is in E.
           rewrite <- Hp, Ep, String.eqb_refl in E. discriminate.
  - destruct (_ && _ && _); [exact Hs|].
    destruct (rooms.max_participants v <=? rooms.current_user_count v); [exact Hs|].
    (* new membership *)
    unfold INSERT_room_participants.
    cbn [new_participant room_participants.room_id room_participants.user_id].
    fold (participant_is room user). rewrite Hex. unfold bind.
    destruct (UPDATE_rooms _ _ (t_rooms s)) as [rs|e] eqn:U; [|exact Hs].
    cbn [commit]. pose proof (UPDATE_rooms_checked _ _ _ _ Hc U) as Hc'.
    inv_update U. repeat split; red; cbn [t_rooms t_room_participants].
    + exact Hc'.
    + rewrite map_app. cbn [map]. apply NoDup_app.
      * exact Hu.
      * repeat constructor. intros [].
      * intros k Hin [<-|[]]. apply in_map_iff in Hin.
        destruct Hin as (q & Hq & Hin).
        assert (participant_is room user q = true)
          by (apply participant_is_key; exact Hq).
        assert (existsb (participant_is room user) (t_room_participants s) = true)
          by (apply existsb_exists; eauto).
        congruence.
    + apply Forall_forall. intros r' Hr'. apply in_map_iff in Hr'.
      destruct Hr' as (r & <- & Hr). red in He. rewrite Forall_forall in He.
      rewrite COUNT_active_app, COUNT_active_cons, COUNT_active_nil.
      cbn [new_participant room_participants.room_id room_participants.is_active].
      destruct (room_is room r) eqn:E.
      * cbn. rewrite (He r Hr). apply room_is_eq in E.
        rewrite E, String.eqb_refl. cbn. lia.
      * rewrite (He r Hr). unfold room_is in E. rewrite String.eqb_sym, E. cbn. lia.
Qed.

Lemma leave_room_consistent now room user s :
  consistent s -> consistent (commit s (leave_room now room user s)).
Proof.
  intros Hs. pose proof Hs as (Hc & Hu & He). unfold leave_room.
  destruct (existsb _ (t_room_participants s)) eqn:Hex; cbn [negb]; [|exact Hs].
  unfold bind.
  destruct (UPDATE_rooms _ _ (t_rooms s)) as [rs|e] eqn:U; [|exact Hs].
  cbn [commit]. pose proof (UPDATE_rooms_checked _ _ _ _ Hc U) as Hc'.
  inv_update U. repeat split; red; cbn [t_rooms t_room_participants].
  - exact Hc'.
  - rewrite UPDATE_room_participants_keys; [exact Hu|reflexivity].
  - apply Forall_forall. intros r' Hr'. apply in_map_iff in Hr'.
    destruct Hr' as (r & <- & Hr). red in He. rewrite Forall_forall in He.
    destruct (room_is room r) eqn:E.
    + apply room_is_eq in E. cbn. rewrite E.
      rewrite COUNT_active_deactivate; auto.
      rewrite <- E, <- (He r Hr). unfold GREATEST.
      assert (1 <= rooms.current_user_count r); [|lia].
      rewrite (He r Hr), E. apply existsb_exists in Hex.
      destruct Hex as (q & Hq & Hq'). apply andb_true_iff in Hq'.
      destruct Hq' as [Hq1 Hq2]. apply andb_true_iff in Hq1. destruct Hq1 as [Hq1 _].
      apply in_split in Hq. destruct Hq as (l1 & l2 & ->).
      rewrite COUNT_active_app, COUNT_active_cons, Hq1, Hq2. cbn [andb].
      pose proof (COUNT_active_nonneg room l1).
      pose proof (COUNT_active_nonneg room l2). lia.
    + rewrite (He r Hr). symmetry. apply COUNT_active_frame.
      * intros p _. destruct (participant_is room user p); reflexivity.
      * intros p _ Hp. destruct (participant_is room user p) eqn:Ep; [|reflexivity].
        apply andb_true_iff in Ep. destruct Ep as [Ep _].
        apply String.eqb_eq in Ep. unfold room_is in E.
        rewrite <- Hp, Ep, String.eqb_refl in E. discriminate.
Qed.

Lemma room_heartbeat_consistent now room user s :
  consistent s -> consistent (commit s (room_heartbeat now room user s)).
Proof.
  intros (Hc & Hu & He). unfold room_heartbeat.
  assert (consistent
            (mkdb (t_rooms s)
               (UPDATE_room_participants
                  (fun p => participant_is room user p && room_participants.is_active p)
                  (room_participants.set_last_seen now) (t_room_participants s)))).
  { repeat split; red; cbn [t_rooms t_room_participants].
    - exact Hc.
    - rewrite UPDATE_room_participants_keys; [exact Hu|reflexivity].
    - eapply Forall_impl; [|exact He]. intros r ->. symmetry.
      apply COUNT_active_frame; intros p _; destruct (_ && _); reflexivity. }
  destruct (negb _); exact H.
Qed.

Lemma stale_lowers_count now room t :
  COUNT_active room
    (UPDATE_room_participants (stale now) (room_participants.set_is_active false) t)
  <= COUNT_active room t.
Proof.
  apply COUNT_active_lower; intros p _.
  - destruct (stale now p); reflexivity.
  - destruct (stale now p); [discriminate|auto].
Qed.

Lemma cleanup_inactive_participants_consistent now s :
  consistent s -> consistent (commit s (cleanup_inactive_participants now s)).
Proof.
  intros Hs. pose proof Hs as (Hc & Hu & He). unfold cleanup_inactive_participants, bind.
  destruct (UPDATE_rooms _ _ (t_rooms s)) as [rs|e] eqn:U; [|exact Hs].
  cbn [commit]. pose proof (UPDATE_rooms_checked _ _ _ _ Hc U) as Hc'.
  inv_update U. repeat split; red; cbn [t_rooms t_room_participants].
  - exact Hc'.
  - rewrite UPDATE_room_participants_keys; [exact Hu|reflexivity].
  - apply Forall_forall. intros r' Hr'. apply in_map_iff in Hr'.
    destruct Hr' as (r & <- & Hr). reflexivity.
Qed.

Lemma regenerate_join_code_consistent RANDOM room user s :
  consistent s -> consistent (commit s (regenerate_join_code RANDOM room user s)).
Proof.
  intros Hs. pose proof Hs as (Hc & Hu & He). unfold regenerate_join_code.
  destruct (find (room_is room) (t_rooms s)) as [v|]; [|exact Hs].
  destruct (negb _); [exact Hs|]. destruct (existsb _ _); [exact Hs|].
  unfold bind.
  destruct (UPDATE_rooms _ _ (t_rooms s)) as [rs|e] eqn:U; [|exact Hs].
  cbn [commit]. pose proof (UPDATE_rooms_checked _ _ _ _ Hc U) as Hc'.
  inv_update U. repeat split; red; cbn [t_rooms t_room_participants].
  - exact Hc'.
  - exact Hu.
  - apply Forall_forall. intros r' Hr'. apply in_map_iff in Hr'.
    destruct Hr' as (r & <- & Hr). red in He. rewrite Forall_forall in He.
    destruct (room_is room r); [cbn|]; apply (He r Hr).
Qed.

Lemma step_consistent s o : consistent s -> consistent (step s o).
Proof.
  destruct o; cbn [step];
    auto using join_room_consistent, leave_room_consistent,
      room_heartbeat_consistent, cleanup_inactive_participants_consistent,
      regenerate_join_code_consistent.
Qed.

Lemma run_consistent ops : forall s, consistent s -> consistent (run ops s).
Proof.
  unfold run. induction ops as [|o ops IH]; intros s Hs; [exact Hs|].
  cbn [fold_left]. apply IH. now apply step_consistent.
Qed.

(** ** No operation creates, deletes or resizes a room *)

Lemma UPDATE_rooms_capacity cond upd t t' :
  (forall r, room_capacity (upd r) = room_capacity r) ->
  UPDATE_rooms cond upd t = Returned t' ->
  map room_capacity t' = map room_capacity t.
Proof.
  intros H U. inv_update U. rewrite map_map. apply map_ext.
  intros r. destruct (cond r); auto.
Qed.

Lemma step_capacity s o :
  map room_capacity (t_rooms (step s o)) = map room_capacity (t_rooms s).
Proof.
  destruct o; cbn [step].
  - unfold join_room. destruct (find _ _); [|reflexivity].
    destruct (negb _); [reflexivity|]. destruct (existsb _ _).
    + unfold bind. destruct (UPDATE_rooms _ _ _) eqn:U; [|reflexivity].
      eapply UPDATE_rooms_capacity; [|exact U]. reflexivity.
    + destruct (_ && _ && _); [reflexivity|]. destruct (_ <=? _); [reflexivity|].
      unfold bind. destruct (INSERT_room_participants _ _); [|reflexivity].
      destruct (UPDATE_rooms _ _ _) eqn:U; [|reflexivity].
      eapply UPDATE_rooms_capacity; [|exact U]. reflexivity.
  - unfold leave_room. destruct (negb _); [reflexivity|].
    unfold bind. destruct (UPDATE_rooms _ _ _) eqn:U; [|reflexivity].
    eapply UPDATE_rooms_capacity; [|exact U]. reflexivity.
  - unfold room_heartbeat. destruct (negb _); reflexivity.
  - unfold cleanup_inactive_participants, bind.
    destruct (UPDATE_rooms _ _ _) eqn:U; [|reflexivity].
    eapply UPDATE_rooms_capacity; [|exact U]. reflexivity.
  - unfold regenerate_join_code. destruct (find _ _); [|reflexivity].
    destruct (negb _); [reflexivity|]. destruct (existsb _ _); [reflexivity|].
    unfold bind. destruct (UPDATE_rooms _ _ _) eqn:U; [|reflexivity].
    eapply UPDATE_rooms_capacity; [|exact U]. reflexivity.
Qed.

Lemma run_capacity ops : forall s,
  map room_capacity (t_rooms (run ops s)) = map room_capacity (t_rooms s).
Proof.
  unfold run. induction ops as [|o ops IH]; intros s; [reflexivity|].
  cbn [fold_left]. rewrite IH. apply step_capacity.
Qed.

(** ** C1: occupancy against capacity *)

(** C1, as amended.  Starting from rooms nobody has joined, after any
    sequence of join, leave, heartbeat, sweep and code-regeneration calls the
    rooms and their capacities are the ones the sequence started with, and
    the number of active participants of a room of capacity N never exceeds
    the larger of N and the store-level bound 5; so it never exceeds N in a
    room whose capacity is at least 5. *)
Theorem active_participants_bounded (s : db) (ops : list op) :
  all_rooms_empty s ->
  map room_capacity (t_rooms (run ops s)) = map room_capacity (t_rooms s)
  /\ Forall (fun r => COUNT_active (rooms.id r) (t_room_participants (run ops s))
                      <= Z.max (rooms.max_participants r) 5)
            (t_rooms (run ops s)).
Proof.
  intros Hempty. split; [apply run_capacity|].
  pose proof (run_consistent ops s (all_rooms_empty_consistent s Hempty)) as Hc.
  apply Forall_forall. intros r Hr.
  pose proof (consistent_bounded _ r Hc Hr). lia.
Qed.

Lemma active_participants_bounded_witness :
  Forall (fun r => COUNT_active (rooms.id r)
                     (t_room_participants
                        (run [joins 1 "A"; joins 2 "B"; joins 3 "C"; joins 4 "D";
                              joins 5 "E"; Leave 6 "R" "A"; joins 7 "F";
                              joins 8 "A"] (one_room 5)))
                   <= Z.max (rooms.max_participants r) 5)
         (t_rooms
            (run [joins 1 "A"; joins 2 "B"; joins 3 "C"; joins 4 "D";
                  joins 5 "E"; Leave 6 "R" "A"; joins 7 "F"; joins 8 "A"]
                 (one_room 5))).
Proof.
  refine (proj2 (active_participants_bounded (one_room 5) _ _)).
  split; [reflexivity|]. repeat constructor.
Defined.

(** C1 as stated fails: in a room of capacity 2, A and B join, A leaves,
    C joins, and A rejoins through the branch that checks no capacity; three
    participants are then active. *)
Lemma rejoin_exceeds_capacity :
  ~ (forall s ops, all_rooms_empty s -> within_capacity (run ops s)).
Proof.
  intros H.
  specialize (H (one_room 2)
                [joins 1 "A"; joins 2 "B"; Leave 3 "R" "A"; joins 4 "C";
                 joins 5 "A"]).
  assert (He : all_rooms_empty (one_room 2))
    by (split; [reflexivity|repeat constructor]).
  specialize (H He). unfold within_capacity in H. rewrite Forall_forall in H.
  specialize (H (nth 0 (t_rooms (run [joins 1 "A"; joins 2 "B"; Leave 3 "R" "A";
                                      joins 4 "C"; joins 5 "A"] (one_room 2)))
                       (fresh_room "" "" 0 false ""))).
  vm_compute in H. apply H; [left; reflexivity|reflexivity].
Qed.

(** ** C10: the store-level bound on the counter *)

Lemma step_call s o :
  step s o = match call o s with Returned s' => s' | Raised _ => s end.
Proof.
  destruct o; cbn [step call]; unfold commit, bind;
    match goal with |- context [match ?c with _ => _ end] =>
      destruct c as [[? ?]|?]; reflexivity end.
Qed.

Lemma call_rooms_checked s o s' :
  rooms_checked s -> call o s = Returned s' -> rooms_checked s'.
Proof.
  unfold rooms_checked. intros Hc.
  destruct o; cbn [call].
  - unfold join_room. destruct (find _ _); [|intros [= <-]; exact Hc].
    destruct (negb _); [intros [= <-]; exact Hc|]. destruct (existsb _ _).
    + unfold bind. destruct (UPDATE_rooms _ _ _) eqn:U; [|discriminate].
      intros [= <-]. eapply UPDATE_rooms_checked; eauto.
    + destruct (_ && _ && _); [intros [= <-]; exact Hc|].
      destruct (_ <=? _); [intros [= <-]; exact Hc|].
      unfold bind. destruct (INSERT_room_participants _ _); [|discriminate].
      destruct (UPDATE_rooms _ _ _) eqn:U; [|discriminate].
      intros [= <-]. eapply UPDATE_rooms_checked; eauto.
  - unfold leave_room. destruct (negb _); [intros [= <-]; exact Hc|].
    unfold bind. destruct (UPDATE_rooms _ _ _) eqn:U; [|discriminate].
    intros [= <-]. eapply UPDATE_rooms_checked; eauto.
  - unfold room_heartbeat. destruct (negb _); intros [= <-]; exact Hc.
  - unfold cleanup_inactive_participants, bind.
    destruct (UPDATE_rooms _ _ _) eqn:U; [|discriminate].
    intros [= <-]. eapply UPDATE_rooms_checked; eauto.
  - unfold regenerate_join_code. destruct (find _ _); [|intros [= <-]; exact Hc].
    destruct (negb _); [intros [= <-]; exact Hc|].
    destruct (existsb _ _); [discriminate|].
    unfold bind. destruct (UPDATE_rooms _ _ _) eqn:U; [|discriminate].
    intros [= <-]. eapply UPDATE_rooms_checked; eauto.
Qed.

Lemma check_bounds r :
  rooms.check r = true <-> 0 <= rooms.current_user_count r <= 5.
Proof. unfold rooms.check. rewrite andb_true_iff, !Z.leb_le. tauto. Qed.

(** C10.  On a ledger whose room rows satisfy the check constraint: any
    UPDATE of [rooms], whatever it selects and writes, either leaves every row
    within [0, 5] or raises [check_violation] because some selected row would
    leave that range; an INSERT of a room row outside the range raises
    [check_violation]; every coordinator call either returns with every
    counter within [0, 5] or raises and commits nothing; and so the bound
    holds after every sequence of calls. *)
Theorem counter_bound_enforced (s : db) :
  rooms_checked s ->
  (forall cond upd,
      match UPDATE_rooms cond upd (t_rooms s) with
      | Returned rs =>
          rs = map (fun r => if cond r then upd r else r) (t_rooms s)
          /\ Forall (fun r => 0 <= rooms.current_user_count r <= 5) rs
      | Raised e =>
          e = check_violation
          /\ exists r, In r (t_rooms s) /\ cond r = true
                       /\ ~ 0 <= rooms.current_user_count (upd r) <= 5
      end)
  /\ (forall r,
        match INSERT_rooms r (t_rooms s) with
        | Returned rs =>
            rs = t_rooms s ++ [r]
            /\ Forall (fun r => 0 <= rooms.current_user_count r <= 5) rs
        | Raised e =>
            ~ 0 <= rooms.current_user_count r <= 5 -> e = check_violation
        end)
  /\ (forall o,
        match call o s with
        | Returned s' =>
            step s o = s'
            /\ Forall (fun r => 0 <= rooms.current_user_count r <= 5) (t_rooms s')
        | Raised _ => step s o = s
        end)
  /\ (forall ops,
        Forall (fun r => 0 <= rooms.current_user_count r <= 5)
               (t_rooms (run ops s))).
Proof.
  intros Hc. split; [|split; [|split]].
  - intros cond upd. destruct (UPDATE_rooms cond upd (t_rooms s)) as [rs|e] eqn:U.
    + pose proof (UPDATE_rooms_checked _ _ _ _ Hc U) as Hc'.
      inv_update U. split; [reflexivity|].
      eapply Forall_impl; [|exact Hc']. intros r. apply check_bounds.
    + apply UPDATE_rooms_Raised in U. destruct U as (-> & r & Hr & Hcond & Hbad).
      split; [reflexivity|]. exists r. repeat split; auto.
      rewrite <- check_bounds. congruence.
  - intros r. unfold INSERT_rooms. destruct (rooms.check r) eqn:Er; cbn [negb].
    + destruct (existsb _ _); [intros Hbad; apply check_bounds in Er; tauto|].
      destruct (existsb _ _); [intros Hbad; apply check_bounds in Er; tauto|].
      split; [reflexivity|]. apply Forall_app. split.
      * eapply Forall_impl; [|exact Hc]. intros r'. apply check_bounds.
      * constructor; [now apply check_bounds|constructor].
    + reflexivity.
  - intros o. rewrite step_call. destruct (call o s) as [s'|e] eqn:E; [|reflexivity].
    split; [reflexivity|]. pose proof (call_rooms_checked _ _ _ Hc E) as Hc'.
    eapply Forall_impl; [|exact Hc']. intros r. apply check_bounds.
  - intros ops. revert s Hc. unfold run.
    induction ops as [|o ops IH]; intros s Hc; cbn [fold_left].
    + eapply Forall_impl; [|exact Hc]. intros r. apply check_bounds.
    + apply IH. rewrite step_call. destruct (call o s) eqn:E; [|exact Hc].
      eapply call_rooms_checked; eauto.
Qed.

Lemma counter_bound_enforced_witness :
  rooms_checked crowded /\ step crowded (joins 8 "A") = crowded.
Proof.
  assert (H : rooms_checked crowded) by (repeat constructor).
  split; [exact H|].
  exact (proj1 (proj2 (proj2 (counter_bound_enforced crowded H)))
           (joins 8 "A")).
Defined.

(** ** C2: a new membership *)


Lemma UPDATE_rooms_raises cond upd t r :
  In r t -> cond r = true -> rooms.check (upd r) = false ->
  UPDATE_rooms cond upd t = Raised check_violation.
Proof.
  intros Hr Hc Hbad. unfold UPDATE_rooms.
  destruct (forallb _ t) eqn:E; [|reflexivity].
  rewrite forallb_forall in E. specialize (E r Hr).
  rewrite Hc, Hbad in E. discriminate.
Qed.

Lemma INSERT_room_participants_new now room user device t :
  existsb (participant_is room user) t = false ->
  INSERT_room_participants (new_participant now room user device) t
  = Returned (t ++ [new_participant now room user device]).
Proof.
  intros H. unfold INSERT_room_participants.
  cbn [new_participant room_participants.room_id room_participants.user_id].
  fold (participant_is room user). now rewrite H.
Qed.


Ltac solve_nodup :=
  vm_compute;
  repeat (constructor; [cbn; intuition congruence|]); constructor.



(** The bound 5 of the check constraint also stops a first join where the
    capacity is larger: in a room of capacity 7 with five members the sixth
    join passes the capacity check and is rolled back by the store. *)
Example capacity_above_store_bound :
  let s := run [joins 1 "A"; joins 2 "B"; joins 3 "C"; joins 4 "D"; joins 5 "E"]
               (one_room 7) in
  COUNT_active "R" (t_room_participants s) = 5
  /\ join_room 6 "R" "F" (Some "device") None s = Raised check_violation.
Proof. vm_compute. split; reflexivity. Qed.

(** ** C3: rejoin *)

Lemma find_room_map room f rs :
  (forall r, rooms.id (f r) = rooms.id r) ->
  find (room_is room) (map f rs) = option_map f (find (room_is room) rs).
Proof.
  intros Hid. induction rs as [|r rs IH]; [reflexivity|].
  cbn [map find]. unfold room_is at 1. rewrite Hid. fold (room_is room r).
  destruct (room_is room r); [reflexivity|exact IH].
Qed.

Lemma existsb_UPDATE_room_participants room user cond upd t :
  (forall p, room_participants.key (upd p) = room_participants.key p) ->
  existsb (participant_is room user) (UPDATE_room_participants cond upd t)
  = existsb (participant_is room user) t.
Proof.
  intros Hk. induction t as [|p t IH]; [reflexivity|].
  cbn [UPDATE_room_participants map existsb].
  fold (UPDATE_room_participants cond upd t). rewrite IH. f_equal.
  destruct (cond p); [|reflexivity].
  destruct (participant_is room user (upd p)) eqn:E.
  - apply participant_is_key in E. rewrite Hk in E.
    apply participant_is_key in E. now rewrite E.
  - destruct (participant_is room user p) eqn:E'; [|reflexivity].
    apply participant_is_key in E'. rewrite <- Hk in E'.
    apply participant_is_key in E'. congruence.
Qed.

Lemma rejoin_outcome now room user device code s v :
  find (room_is room) (t_rooms s) = Some v ->
  rooms.status v = "active" ->
  existsb (participant_is room user) (t_room_participants s) = true ->
  join_room now room user device code s
  = (rs <- UPDATE_rooms (room_is room)
             (rooms.set_current_user_count
                (COUNT_active room
                   (t_room_participants (rejoined_ledger now room user device s))))
             (t_rooms s) ;;
     Returned (Rejoined,
               mkdb rs (t_room_participants (rejoined_ledger now room user device s)))).
Proof.
  intros Hfind Hst Hex. unfold join_room. rewrite Hfind, Hst, Hex. reflexivity.
Qed.

Lemma rejoin_commits now room user device code s v :
  find (room_is room) (t_rooms s) = Some v ->
  rooms.status v = "active" ->
  existsb (participant_is room user) (t_room_participants s) = true ->
  COUNT_active room (t_room_participants (rejoined_ledger now room user device s))
  <= 5 ->
  join_room now room user device code s
  = Returned (Rejoined, rejoined_ledger now room user device s).
Proof.
  intros Hfind Hst Hex Hle.
  rewrite (rejoin_outcome _ _ _ _ _ _ _ Hfind Hst Hex).
  rewrite UPDATE_rooms_commits; [reflexivity|].
  intros r _ _. apply check_bounds. cbn.
  split; [apply COUNT_active_nonneg|exact Hle].
Qed.

Lemma rejoined_member_active now room user device s :
  member_active room user (rejoined_ledger now room user device s).
Proof.
  intros p Hp Hkey. cbn [rejoined_ledger t_room_participants] in Hp.
  unfold UPDATE_room_participants in Hp. apply in_map_iff in Hp.
  destruct Hp as (q & <- & _).
  destruct (participant_is room user q) eqn:E; [reflexivity|congruence].
Qed.

(** Reactivating rows that are active already changes no count. *)
Lemma COUNT_active_rejoin now room user device s r :
  member_active room user s ->
  COUNT_active r (t_room_participants (rejoined_ledger now room user device s))
  = COUNT_active r (t_room_participants s).
Proof.
  intros Hact. cbn [rejoined_ledger t_room_participants].
  apply COUNT_active_frame.
  - intros p _. destruct (participant_is room user p); reflexivity.
  - intros p Hp _. destruct (participant_is room user p) eqn:E; [|reflexivity].
    cbn. symmetry. now apply Hact.
Qed.

Lemma rejoined_counters now room user device s :
  Forall (fun r => room_is room r = true ->
                   rooms.current_user_count r
                   = COUNT_active room
                       (t_room_participants (rejoined_ledger now room user device s)))
         (t_rooms (rejoined_ledger now room user device s)).
Proof.
  apply Forall_forall. intros r' Hr'. cbn [rejoined_ledger t_rooms] in Hr'.
  apply in_map_iff in Hr'. destruct Hr' as (r & <- & _).
  destruct (room_is room r) eqn:E; [reflexivity|congruence].
Qed.

(** On a ledger where the member is active and the counter of the room is
    exact, a rejoin leaves every counter as it was. *)
Lemma active_rejoin_keeps_counters now room user device s :
  member_active room user s ->
  Forall (fun r => room_is room r = true ->
                   rooms.current_user_count r
                   = COUNT_active room (t_room_participants s)) (t_rooms s) ->
  map rooms.current_user_count (t_rooms (rejoined_ledger now room user device s))
  = map rooms.current_user_count (t_rooms s).
Proof.
  intros Hact Hex. cbn [rejoined_ledger t_rooms]. rewrite map_map.
  apply map_ext_in. intros r Hr. rewrite Forall_forall in Hex.
  destruct (room_is room r) eqn:E; [|reflexivity].
  cbn. rewrite (Hex r Hr E).
  apply (COUNT_active_rejoin now room user device s room Hact).
Qed.

(** C3, as amended.  When the caller already has a row in an active room,
    [join_room] checks no capacity: it reactivates that row (active, last-seen
    set to now, a supplied device id adopted), adds no row, sets the counter
    of the room to the exact number of active rows and returns
    already_member = true, provided that number is within the store-level
    bound 5; above it the call raises and commits nothing.  A join by a member
    who is active already leaves an exact counter unchanged, and a second
    join after a committed one returns already_member = true and leaves every
    counter as the first one left it. *)
Theorem rejoin_reactivates now room user device code s v :
  find (room_is room) (t_rooms s) = Some v ->
  rooms.status v = "active" ->
  existsb (participant_is room user) (t_room_participants s) = true ->
  let s' := rejoined_ledger now room user device s in
  (COUNT_active room (t_room_participants s') <= 5 ->
   join_room now room user device code s = Returned (Rejoined, s'))
  /\ (5 < COUNT_active room (t_room_participants s') ->
      join_room now room user device code s = Raised check_violation)
  /\ jsonb_get "already_member" Rejoined = Some (jbool true)
  /\ (forall p, In p (t_room_participants s') ->
                participant_is room user p = true ->
                room_participants.is_active p = true
                /\ room_participants.last_seen p = now
                /\ forall d, device = Some d ->
                             room_participants.device_id p = Some d)
  /\ map room_participants.key (t_room_participants s')
     = map room_participants.key (t_room_participants s)
  /\ Forall (fun r => room_is room r = true ->
                      rooms.current_user_count r
                      = COUNT_active room (t_room_participants s'))
            (t_rooms s')
  /\ (member_active room user s ->
      Forall (fun r => room_is room r = true ->
                       rooms.current_user_count r
                       = COUNT_active room (t_room_participants s)) (t_rooms s) ->
      map rooms.current_user_count (t_rooms s')
      = map rooms.current_user_count (t_rooms s))
  /\ (COUNT_active room (t_room_participants s') <= 5 ->
      forall now2 device2 code2,
        join_room now2 room user device2 code2 s'
        = Returned (Rejoined, rejoined_ledger now2 room user device2 s')
        /\ map rooms.current_user_count
             (t_rooms (rejoined_ledger now2 room user device2 s'))
           = map rooms.current_user_count (t_rooms s')).
Proof.
  intros Hfind Hst Hex s'.
  assert (Hv : In v (t_rooms s) /\ room_is room v = true)
    by (apply find_some in Hfind; exact Hfind).
  destruct Hv as [Hv Hroom].
  split; [|split; [|split; [|split; [|split; [|split; [|split]]]]]].
  - intros Hle. eapply rejoin_commits; eauto.
  - intros Hgt. rewrite (rejoin_outcome _ _ _ _ _ _ _ Hfind Hst Hex).
    rewrite (UPDATE_rooms_raises _ _ _ v Hv Hroom); [reflexivity|].
    unfold rooms.check. cbn. fold s'. apply andb_false_iff. right.
    apply Z.leb_gt. exact Hgt.
  - reflexivity.
  - intros p Hp Hkey. subst s'. cbn [rejoined_ledger t_room_participants] in Hp.
    unfold UPDATE_room_participants in Hp. apply in_map_iff in Hp.
    destruct Hp as (q & <- & _).
    destruct (participant_is room user q) eqn:E; [|congruence].
    cbn. repeat split. intros d ->. reflexivity.
  - subst s'. cbn [rejoined_ledger t_room_participants].
    apply UPDATE_room_participants_keys. reflexivity.
  - apply rejoined_counters.
  - apply active_rejoin_keeps_counters.
  - intros Hle now2 device2 code2.
    assert (Hact : member_active room user s') by apply rejoined_member_active.
    split.
    + apply rejoin_commits
        with (v := if room_is room v
                   then rooms.set_current_user_count
                          (COUNT_active room (t_room_participants s')) v
                   else v).
      * subst s'. cbn [rejoined_ledger t_rooms]. rewrite find_room_map.
        -- rewrite Hfind. reflexivity.
        -- intros r. destruct (room_is room r); reflexivity.
      * destruct (room_is room v); exact Hst.
      * subst s'. cbn [rejoined_ledger t_room_participants].
        rewrite existsb_UPDATE_room_participants; [exact Hex|reflexivity].
      * rewrite COUNT_active_rejoin by exact Hact. exact Hle.
    + apply active_rejoin_keeps_counters; [exact Hact|apply rejoined_counters].
Qed.

Lemma rejoin_reactivates_witness :
  join_room 2 "R" "A" None None (joined_ledger 1 "R" "A" (Some "device") (one_room 5))
  = Returned (Rejoined,
              rejoined_ledger 2 "R" "A" None
                (joined_ledger 1 "R" "A" (Some "device") (one_room 5))).
Proof.
  refine (proj1
            (rejoin_reactivates 2 "R" "A" None None
               (joined_ledger 1 "R" "A" (Some "device") (one_room 5))
               (rooms.mk "R" "room" "theme" None 0 "host" 5 1 "active" "ABCDEF"
                  false 1) _ _ _) _).
  - reflexivity.
  - reflexivity.
  - reflexivity.
  - vm_compute. discriminate.
Defined.

(** C3 as stated fails: A is a former member of a room whose five places
    are taken; A's rejoin would make six rows active, the counter update
    breaks the check constraint, and the call raises instead of
    reactivating the row. *)
Lemma rejoin_of_full_room_raises : ~ spec_rejoin.
Proof.
  intros H.
  specialize (H 8 "R" "A" None None crowded
                (rooms.mk "R" "room" "theme" None 0 "host" 5 5 "active" "ABCDEF"
                   false 7)).
  assert (Hj : join_room 8 "R" "A" None None crowded = Raised check_violation)
    by reflexivity.
  rewrite Hj in H. discriminate H.
  - repeat constructor.
  - red. solve_nodup.
  - red. solve_nodup.
  - reflexivity.
  - reflexivity.
  - reflexivity.
Qed.

(** ** C4: the join code of a private room *)

Lemma join_room_past_code_check now room user device code s v :
  reaches_capacity_check room user code s v ->
  join_room now room user device code s
  = if rooms.max_participants v <=? rooms.current_user_count v
    then Returned (CapacityExceeded, s)
    else (rs <- UPDATE_rooms (room_is room)
                  (fun r => rooms.set_updated_at now
                     (rooms.set_current_user_count
                        (rooms.current_user_count r + 1) r))
                  (t_rooms s) ;;
          Returned (Joined,
                    mkdb rs (t_room_participants s
                             ++ [new_participant now room user device]))).
Proof.
  intros (Hfind & Hst & Hex & Hcode). unfold join_room.
  rewrite Hfind, Hst, Hex, Hcode. cbn [negb].
  rewrite INSERT_room_participants_new by exact Hex. reflexivity.
Qed.

Lemma past_code_check_not_rejected now room user device code s v :
  reaches_capacity_check room user code s v ->
  forall s', join_room now room user device code s
             <> Returned (InvalidJoinCode, s').
Proof.
  intros H s'. rewrite (join_room_past_code_check _ _ _ _ _ _ _ H).
  destruct (_ <=? _); [discriminate|].
  unfold bind. destruct (UPDATE_rooms _ _ _); discriminate.
Qed.

(** C4.  For a caller without a row in an active private room: a caller
    other than the creator who supplies no join code, or one that differs
    from the room's, is refused with "Invalid join code" and nothing changes;
    with exactly the room's code the call gets past the code check to the
    capacity check; and the creator gets past it whatever code is supplied. *)
Theorem private_room_join_code now room user device code s v :
  find (room_is room) (t_rooms s) = Some v ->
  rooms.status v = "active" ->
  existsb (participant_is room user) (t_room_participants s) = false ->
  rooms.is_private v = true ->
  (rooms.created_by v <> user ->
   (code = None \/ exists c, code = Some c /\ c <> rooms.join_code v) ->
   join_room now room user device code s = Returned (InvalidJoinCode, s))
  /\ (rooms.created_by v <> user -> code = Some (rooms.join_code v) ->
      reaches_capacity_check room user code s v
      /\ forall s', join_room now room user device code s
                    <> Returned (InvalidJoinCode, s'))
  /\ (rooms.created_by v = user ->
      reaches_capacity_check room user code s v
      /\ forall s', join_room now room user device code s
                    <> Returned (InvalidJoinCode, s')).
Proof.
  intros Hfind Hst Hex Hpriv.
  assert (Hpass : forall user_code,
            negb (String.eqb (rooms.created_by v) user)
            && join_code_rejected user_code (rooms.join_code v) = false ->
            reaches_capacity_check room user user_code s v).
  { intros c Hc. repeat split; try assumption. now rewrite Hpriv. }
  split; [|split].
  - intros Hother Hcode. unfold join_room. rewrite Hfind, Hst, Hex, Hpriv.
    apply String.eqb_neq in Hother. rewrite Hother. cbn [negb andb].
    replace (join_code_rejected code (rooms.join_code v)) with true; [reflexivity|].
    destruct Hcode as [->|(c & -> & Hc)]; [reflexivity|].
    cbn. apply String.eqb_neq in Hc. now rewrite Hc.
  - intros _ ->.
    assert (Hreach : reaches_capacity_check room user (Some (rooms.join_code v)) s v).
    { apply Hpass. cbn. rewrite String.eqb_refl. apply andb_false_r. }
    split; [exact Hreach|]. intros s'.
    now apply past_code_check_not_rejected with (v := v).
  - intros Hhost.
    assert (Hreach : reaches_capacity_check room user code s v).
    { apply Hpass. apply String.eqb_eq in Hhost. now rewrite Hhost. }
    split; [exact Hreach|]. intros s'.
    now apply past_code_check_not_rejected with (v := v).
Qed.

Lemma private_room_join_code_witness :
  join_room 1 "R" "guest" (Some "device") (Some "ABCDEG") private_room
  = Returned (InvalidJoinCode, private_room).
Proof.
  refine (proj1
            (private_room_join_code 1 "R" "guest" (Some "device") (Some "ABCDEG")
               private_room (fresh_room "R" "host" 5 true "ABCDEF") _ _ _ _) _ _).
  - reflexivity.
  - reflexivity.
  - reflexivity.
  - reflexivity.
  - cbn. congruence.
  - right. exists "ABCDEG". split; [reflexivity|cbn; congruence].
Defined.

(** ** C5: leave *)

(** C5.  On a ledger whose rooms satisfy the check constraint, [leave_room]
    returns "User not in room" exactly when [(room, user)] has no active row,
    and then changes nothing.  Otherwise it reports success and leaves a
    ledger in which every row of [(room, user)] is inactive with last-seen
    now and every other participant row is as it was; the row of the room
    has the counter max(0, counter - 1) and the timestamp now, its other
    columns and every other room being as they were; so the caller has no
    active row any more. *)
Theorem leave_room_spec now room user s :
  rooms_checked s ->
  ((exists s', leave_room now room user s = Returned (NotAMember, s'))
   <-> has_active_row room user s = false)
  /\ (has_active_row room user s = false ->
      leave_room now room user s = Returned (NotAMember, s))
  /\ (has_active_row room user s = true ->
      exists s',
        leave_room now room user s = Returned (Left, s')
        /\ t_room_participants s'
           = map (fun p =>
                    if participant_is room user p
                    then room_participants.mk
                           (room_participants.room_id p)
                           (room_participants.user_id p)
                           (room_participants.joined_at p)
                           (room_participants.device_id p)
                           false now
                           (room_participants.room_role p)
                    else p)
                 (t_room_participants s)
        /\ t_rooms s'
           = map (fun r =>
                    if room_is room r
                    then rooms.mk (rooms.id r) (rooms.name r) (rooms.theme r)
                           (rooms.description r) (rooms.created_at r)
                           (rooms.created_by r) (rooms.max_participants r)
                           (Z.max 0 (rooms.current_user_count r - 1))
                           (rooms.status r) (rooms.join_code r)
                           (rooms.is_private r) now
                    else r)
                 (t_rooms s)
        /\ (forall p, In p (t_room_participants s') ->
                      participant_is room user p = true ->
                      room_participants.is_active p = false
                      /\ room_participants.last_seen p = now)
        /\ has_active_row room user s' = false
        /\ (forall r', In r' (t_rooms s') -> rooms.id r' = room ->
                       rooms.updated_at r' = now
                       /\ 0 <= rooms.current_user_count r'
                       /\ exists r, In r (t_rooms s)
                                    /\ rooms.id r = room
                                    /\ rooms.current_user_count r'
                                       = Z.max 0 (rooms.current_user_count r - 1))).
Proof.
  intros Hc.
  assert (Hno : has_active_row room user s = false ->
                leave_room now room user s = Returned (NotAMember, s)).
  { intros Hact. unfold leave_room. unfold has_active_row in Hact.
    now rewrite Hact. }
  assert (Hyes : has_active_row room user s = true ->
                 leave_room now room user s
                 = Returned
                     (Left,
                      mkdb (map (fun r =>
                                   if room_is room r
                                   then rooms.set_updated_at now
                                          (rooms.set_current_user_count
                                             (GREATEST 0
                                                (rooms.current_user_count r - 1))
                                             r)
                                   else r) (t_rooms s))
                           (UPDATE_room_participants (participant_is room user)
                              (fun p => room_participants.set_last_seen now
                                          (room_participants.set_is_active
                                             false p))
                              (t_room_participants s)))).
  { intros Hact. unfold leave_room. unfold has_active_row in Hact.
    rewrite Hact. cbn [negb]. rewrite UPDATE_rooms_commits; [reflexivity|].
    intros r Hr _. red in Hc. rewrite Forall_forall in Hc.
    specialize (Hc r Hr). apply check_bounds in Hc. apply check_bounds.
    cbn. unfold GREATEST. lia. }
  split; [|split; [exact Hno|]].
  - split.
    + intros (s' & Hs').
      destruct (has_active_row room user s) eqn:E; [|reflexivity].
      rewrite (Hyes eq_refl) in Hs'. discriminate.
    + intros Hact. exists s. auto.
  - intros Hact. eexists. split; [exact (Hyes Hact)|]. clear Hyes Hno.
    cbn [t_rooms t_room_participants]. unfold UPDATE_room_participants.
    split; [reflexivity|]. split; [reflexivity|]. split; [|split].
    + intros p Hp Hkey. apply in_map_iff in Hp. destruct Hp as (q & <- & _).
      destruct (participant_is room user q) eqn:Eq.
      * split; reflexivity.
      * congruence.
    + unfold has_active_row. cbn [t_room_participants].
      destruct (existsb _ _) eqn:E; [|reflexivity].
      apply existsb_exists in E. destruct E as (p & Hp & Hlive).
      apply in_map_iff in Hp. destruct Hp as (q & <- & _).
      destruct (participant_is room user q) eqn:Eq.
      * apply andb_true_iff in Hlive. destruct Hlive as [_ Hlive].
        discriminate Hlive.
      * rewrite Eq in Hlive. discriminate Hlive.
    + intros r' Hr' Hid. apply in_map_iff in Hr'. destruct Hr' as (r & <- & Hr).
      destruct (room_is room r) eqn:Er.
      * split; [reflexivity|]. split; [cbn; unfold GREATEST; lia|].
        exists r. split; [exact Hr|]. split; [exact Hid|]. reflexivity.
      * apply room_is_eq in Hid. congruence.
Qed.

Lemma leave_room_spec_witness :
  exists s',
    leave_room 9 "R" "B" crowded = Returned (Left, s')
    /\ has_active_row "R" "B" s' = false
    /\ map rooms.current_user_count (t_rooms s')
       = map (fun r => rooms.current_user_count r - 1) (t_rooms crowded).
Proof.
  destruct (proj2 (proj2 (leave_room_spec 9 "R" "B" crowded
                            ltac:(repeat constructor))) eq_refl)
    as (s' & Hs' & _ & Hrooms & _ & Hgone & _).
  exists s'. split; [exact Hs'|]. split; [exact Hgone|].
  rewrite Hrooms. reflexivity.
Defined.

(** ** C6: the sweep *)

Lemma cleanup_outcome now s :
  cleanup_inactive_participants now s
  = (rs <- UPDATE_rooms (fun _ => true)
             (recount (t_room_participants (swept_ledger now s))) (t_rooms s) ;;
     Returned (tt, mkdb rs (t_room_participants (swept_ledger now s)))).
Proof. reflexivity. Qed.

Lemma check_recount ps r :
  rooms.check (recount ps r) = true <-> COUNT_active (rooms.id r) ps <= 5.
Proof.
  rewrite check_bounds. unfold recount.
  cbn [rooms.set_current_user_count rooms.current_user_count].
  pose proof (COUNT_active_nonneg (rooms.id r) ps). lia.
Qed.

Lemma cleanup_Returned now s u s' :
  cleanup_inactive_participants now s = Returned (u, s') ->
  s' = swept_ledger now s
  /\ Forall (fun r => COUNT_active (rooms.id r)
                        (t_room_participants (swept_ledger now s)) <= 5)
            (t_rooms s).
Proof.
  rewrite cleanup_outcome. unfold bind.
  destruct (UPDATE_rooms _ _ _) as [rs|e] eqn:U; [|discriminate].
  intros [= _ <-]. inv_update U. split.
  - unfold swept_ledger. f_equal.
  - apply Forall_forall. intros r Hr. specialize (Hchk r Hr eq_refl).
    now apply check_recount in Hchk.
Qed.

Lemma cleanup_commits now s :
  Forall (fun r => COUNT_active (rooms.id r)
                     (t_room_participants (swept_ledger now s)) <= 5)
         (t_rooms s) ->
  cleanup_inactive_participants now s = Returned (tt, swept_ledger now s).
Proof.
  intros H. rewrite cleanup_outcome. rewrite UPDATE_rooms_commits.
  - reflexivity.
  - intros r Hr _. rewrite Forall_forall in H. apply check_recount.
    apply (H r Hr).
Qed.

Lemma stale_later now now' p :
  now <= now' -> stale now p = true -> stale now' p = true.
Proof.
  unfold stale. intros Hle H. apply andb_true_iff in H. destruct H as [-> H].
  apply Z.ltb_lt in H. cbn [andb]. apply Z.ltb_lt. lia.
Qed.

(** Demoting at [now] and then at a later [now'] demotes what a single pass
    at [now'] demotes. *)
Lemma demote_twice now now' t :
  now <= now' ->
  UPDATE_room_participants (stale now') (room_participants.set_is_active false)
    (UPDATE_room_participants (stale now) (room_participants.set_is_active false) t)
  = UPDATE_room_participants (stale now') (room_participants.set_is_active false) t.
Proof.
  intros Hle. unfold UPDATE_room_participants. rewrite map_map.
  apply map_ext. intros p. destruct (stale now p) eqn:E.
  - rewrite (stale_later now now' p Hle E). reflexivity.
  - reflexivity.
Qed.

Lemma recount_twice ps1 ps2 rs :
  map (recount ps2) (map (recount ps1) rs) = map (recount ps2) rs.
Proof. rewrite map_map. apply map_ext. intros r. reflexivity. Qed.

Lemma swept_twice now now' s :
  now <= now' ->
  swept_ledger now' (swept_ledger now s) = swept_ledger now' s.
Proof.
  intros Hle. unfold swept_ledger. cbn [t_rooms t_room_participants].
  rewrite demote_twice by exact Hle. now rewrite recount_twice.
Qed.

Lemma forallb_over_map {A B} (f : B -> bool) (g : A -> B) l :
  forallb f (map g l) = forallb (fun a => f (g a)) l.
Proof.
  induction l as [|a l IH]; [reflexivity|]. cbn [map forallb]. now rewrite IH.
Qed.

Lemma cleanup_twice now now' s :
  now <= now' ->
  cleanup_inactive_participants now' (swept_ledger now s)
  = cleanup_inactive_participants now' s.
Proof.
  intros Hle. rewrite !cleanup_outcome. rewrite (swept_twice _ _ _ Hle).
  unfold UPDATE_rooms. cbn [swept_ledger t_rooms].
  rewrite forallb_over_map, map_map. reflexivity.
Qed.

Lemma swept_exact now s : occupancy_exact (swept_ledger now s).
Proof.
  red. cbn [swept_ledger t_rooms t_room_participants].
  apply Forall_forall. intros r' Hr'. apply in_map_iff in Hr'.
  destruct Hr' as (r & <- & _). reflexivity.
Qed.

Lemma swept_stale_inactive now s p :
  In p (t_room_participants (swept_ledger now s)) ->
  room_participants.last_seen p < now - two_minutes ->
  room_participants.is_active p = false.
Proof.
  cbn [swept_ledger t_room_participants]. unfold UPDATE_room_participants.
  intros Hp Hold. apply in_map_iff in Hp. destruct Hp as (q & <- & _).
  destruct (stale now q) eqn:E; [reflexivity|].
  unfold stale in E. apply andb_false_iff in E. destruct E as [E|E]; [exact E|].
  apply Z.ltb_ge in E. lia.
Qed.

(** C6.  A sweep pass that completes marks every participant whose
    last-seen is more than two minutes old inactive and leaves the counter of
    every room equal to the number of its active rows; sweeping again at the
    same instant changes nothing, and sweeping again later gives what a single
    sweep at the later instant gives.  A pass fails to complete only when
    some room would be left with more than five active rows; it then raises
    a check violation and commits nothing.  A pass completes on every ledger
    whose rooms hold at most five active rows each. *)
Theorem sweep_pass now s :
  match cleanup_inactive_participants now s with
  | Returned (_, s') =>
      s' = swept_ledger now s
      /\ (forall p, In p (t_room_participants s') ->
                    room_participants.last_seen p < now - two_minutes ->
                    room_participants.is_active p = false)
      /\ occupancy_exact s'
      /\ cleanup_inactive_participants now s' = Returned (tt, s')
      /\ (forall now', now <= now' ->
                       cleanup_inactive_participants now' s'
                       = cleanup_inactive_participants now' s)
  | Raised e =>
      e = check_violation
      /\ step s (Sweep now) = s
      /\ exists r, In r (t_rooms s)
                   /\ 5 < COUNT_active (rooms.id r)
                            (t_room_participants (swept_ledger now s))
  end
  /\ (Forall (fun r => COUNT_active (rooms.id r) (t_room_participants s) <= 5)
             (t_rooms s) ->
      cleanup_inactive_participants now s = Returned (tt, swept_ledger now s)).
Proof.
  split.
  - destruct (cleanup_inactive_participants now s) as [[u s']|e] eqn:E.
    + pose proof (cleanup_Returned _ _ _ _ E) as [-> Hb]. destruct u.
      split; [reflexivity|]. split; [apply swept_stale_inactive|].
      split; [apply swept_exact|]. split.
      * rewrite cleanup_twice by lia. exact E.
      * intros now' Hle. now apply cleanup_twice.
    + assert (Hroll : step s (Sweep now) = s)
        by (cbn [step]; rewrite E; reflexivity).
      rewrite cleanup_outcome in E. unfold bind in E.
      destruct (UPDATE_rooms _ _ _) as [rs|e'] eqn:U; [discriminate|].
      injection E as <-. apply UPDATE_rooms_Raised in U.
      destruct U as (-> & r & Hr & _ & Hbad). split; [reflexivity|].
      split; [exact Hroll|].
      exists r. split; [exact Hr|].
      destruct (Z_le_gt_dec
                  (COUNT_active (rooms.id r)
                     (t_room_participants (swept_ledger now s))) 5) as [Hle|Hgt];
        [|lia].
      apply check_recount in Hle. congruence.
  - intros Hb. apply cleanup_commits. rewrite Forall_forall in *.
    intros r Hr. specialize (Hb r Hr).
    pose proof (stale_lowers_count now (rooms.id r) (t_room_participants s)).
    cbn [swept_ledger t_room_participants]. lia.
Qed.

Lemma sweep_pass_witness :
  cleanup_inactive_participants 200000000
    (joined_ledger 1 "R" "A" (Some "device") (one_room 5))
  = Returned (tt, swept_ledger 200000000
                    (joined_ledger 1 "R" "A" (Some "device") (one_room 5))).
Proof.
  refine (proj2 (sweep_pass 200000000
                   (joined_ledger 1 "R" "A" (Some "device") (one_room 5))) _).
  repeat constructor. vm_compute. discriminate.
Defined.

(** C6, the spec's wording refuted.  In [overfull_beside_silent] room "R"
    holds six active rows, all seen in the last two minutes, and "Z" of room
    "Q" has been silent for longer.  The sweep at 120000050 demotes "Z", then
    recomputes the counter of "R" as 6, which the check constraint rejects:
    the pass is rolled back, "Z" is still active and the counter of "R" still
    says 5. *)
Lemma aborted_sweep_keeps_stale_members : ~ spec_sweep_pass.
Proof.
  intros H.
  assert (Hc : rooms_checked overfull_beside_silent) by (repeat constructor).
  assert (Hpk : rooms_pkey overfull_beside_silent).
  { unfold rooms_pkey. vm_compute.
    repeat (constructor; [cbn; intuition congruence|]). constructor. }
  assert (Hu : participants_unique overfull_beside_silent)
    by (unfold participants_unique; solve_nodup).
  destruct (H 120000050 overfull_beside_silent Hc Hpk Hu) as [Hstale _].
  assert (Hraised : cleanup_inactive_participants 120000050
                      overfull_beside_silent = Raised check_violation)
    by reflexivity.
  rewrite Hraised in Hstale. cbn [commit] in Hstale.
  specialize (Hstale (new_participant 1 "Q" "Z" (Some "device"))).
  assert (Hin : In (new_participant 1 "Q" "Z" (Some "device"))
                   (t_room_participants overfull_beside_silent))
    by (vm_compute; tauto).
  specialize (Hstale Hin). vm_compute in Hstale.
  specialize (Hstale eq_refl). discriminate Hstale.
Qed.

(** ** C7: what the sweep leaves alone *)








(** ** C8: join codes *)







Lemma set_join_code_check c r :
  rooms.check (rooms.set_join_code c r) = rooms.check r.
Proof. reflexivity. Qed.





(** ** C9: room roles and permissions *)

Lemma role_is_iff role roomRole :
  role_is role roomRole = true <-> roomRole = Some role.
Proof.
  destruct roomRole as [[]|], role; cbn; split; intros H;
    try reflexivity; discriminate.
Qed.

Lemma fetchRoomRole_no_active_row room user isGlobalOrganizer isGlobalJudge s :
  has_active_row room user s = false ->
  fetchRoomRole room user isGlobalOrganizer isGlobalJudge s
  = if isGlobalOrganizer then Some RoomRole.organizer
    else if isGlobalJudge then Some RoomRole.judge
    else None.
Proof.
  unfold has_active_row, fetchRoomRole. intros H.
  replace (filter _ (t_room_participants s)) with (@nil room_participants.row);
    [reflexivity|].
  symmetry. induction (t_room_participants s) as [|p t IH]; [reflexivity|].
  cbn [existsb] in H. apply orb_false_iff in H. destruct H as [Hp Ht].
  cbn [filter]. unfold participant_is in Hp.
  replace (Bool.eqb (room_participants.is_active p) true)
    with (room_participants.is_active p)
    by (destruct (room_participants.is_active p); reflexivity).
  rewrite Hp. now apply IH.
Qed.

(** C9, as amended.  The permissions follow the room role exactly: canEdit
    iff member; canComment iff member or organizer; canKick iff organizer;
    isReadOnly iff organizer or judge.  A signed-in caller without an active
    row in the room who holds the global organizer role gets the room role
    organizer; one who holds the global judge role and not the organizer role
    gets the room role judge; either way the caller is read-only. *)
Theorem room_permissions (user roomId : option uuid) (roles : list AppRole.t)
    (s : db) :
  let h := useRoomRole user roomId roles s in
  (canEdit h = true <-> roomRole h = Some RoomRole.member)
  /\ (canComment h = true <->
      roomRole h = Some RoomRole.member \/ roomRole h = Some RoomRole.organizer)
  /\ (canKick h = true <-> roomRole h = Some RoomRole.organizer)
  /\ (isReadOnly h = true <->
      roomRole h = Some RoomRole.organizer \/ roomRole h = Some RoomRole.judge)
  /\ (forall u r,
        user = Some u -> roomId = Some r -> r <> "" ->
        has_active_row r u s = false ->
        (includes AppRole.organizer roles = true ->
         roomRole h = Some RoomRole.organizer /\ isReadOnly h = true)
        /\ (includes AppRole.judge roles = true ->
            includes AppRole.organizer roles = false ->
            roomRole h = Some RoomRole.judge /\ isReadOnly h = true)
        /\ (includes AppRole.judge roles = true -> isReadOnly h = true)).
Proof.
  intros h.
  assert (Hperm :
    (canEdit h = true <-> roomRole h = Some RoomRole.member)
    /\ (canComment h = true <->
        roomRole h = Some RoomRole.member \/ roomRole h = Some RoomRole.organizer)
    /\ (canKick h = true <-> roomRole h = Some RoomRole.organizer)
    /\ (isReadOnly h = true <->
        roomRole h = Some RoomRole.organizer \/ roomRole h = Some RoomRole.judge)).
  { subst h. unfold useRoomRole.
    cbn [canEdit canComment canKick isReadOnly roomRole].
    rewrite !orb_true_iff, !role_is_iff. tauto. }
  destruct Hperm as (He & Hc & Hk & Hr).
  split; [exact He|]. split; [exact Hc|]. split; [exact Hk|]. split; [exact Hr|].
  intros u r -> -> Hr0 Hrow. apply String.eqb_neq in Hr0.
  assert (Hrole : roomRole h
                  = if includes AppRole.organizer roles
                    then Some RoomRole.organizer
                    else if includes AppRole.judge roles
                         then Some RoomRole.judge else None).
  { subst h. unfold useRoomRole. cbn [roomRole]. rewrite Hr0.
    now apply fetchRoomRole_no_active_row. }
  split; [|split].
  - intros Ho. rewrite Ho in Hrole. split; [exact Hrole|]. apply Hr. now left.
  - intros Hj Ho. rewrite Ho, Hj in Hrole. split; [exact Hrole|].
    apply Hr. now right.
  - intros Hj. apply Hr. rewrite Hrole, Hj.
    destruct (includes AppRole.organizer roles); auto.
Qed.

(** C9 as stated fails for a caller who holds both global roles: organizer
    is tested first, so the room role is organizer and not judge. *)
Lemma organizer_takes_precedence : ~ spec_observer_role.
Proof.
  intros H.
  destruct (H "u" "R" [AppRole.organizer; AppRole.judge] (one_room 5))
    as [_ Hjudge]; [discriminate|reflexivity|].
  specialize (Hjudge eq_refl). discriminate Hjudge.
Qed.

(** ** The scenarios of the spec *)

(** Capacity 5: A to E join one after the other and all succeed; occupancy
    is 5; F is refused with CapacityExceeded and occupancy stays 5. *)
Example scenario_room_fills_up :
  let s := run [joins 1 "A"; joins 2 "B"; joins 3 "C"; joins 4 "D"; joins 5 "E"]
               (one_room 5) in
  map rooms.current_user_count (t_rooms s) = [5]
  /\ COUNT_active "R" (t_room_participants s) = 5
  /\ join_room 6 "R" "F" (Some "device") None s = Returned (CapacityExceeded, s).
Proof. vm_compute. repeat split. Qed.

(** A joins and sends no heartbeat; a sweep two minutes and ninety seconds
    later finds the row stale: A is inactive and occupancy is back to 0,
    without A calling leave.  A sweep within the two minutes changes
    nothing. *)
Example scenario_silent_member_is_swept :
  let s := run [joins 0 "A"] (one_room 5) in
  step s (Sweep 120000000) = s
  /\ map room_participants.is_active
       (t_room_participants (step s (Sweep 210000000))) = [false]
  /\ map rooms.current_user_count (t_rooms (step s (Sweep 210000000))) = [0].
Proof. vm_compute. repeat split. Qed.

(** Leave then join restores the active flag without a second row. *)
Example scenario_leave_then_join :
  let s := run [joins 1 "A"; Leave 2 "R" "A"; joins 3 "A"] (one_room 5) in
  map room_participants.key (t_room_participants s) = [("R", "A")]
  /\ map room_participants.is_active (t_room_participants s) = [true]
  /\ map rooms.current_user_count (t_rooms s) = [1].
Proof. vm_compute. repeat split. Qed.

(** * Further properties of the coordinator *)

(** ** Heartbeats *)

Lemma room_heartbeat_outcome now room user s :
  room_heartbeat now room user s
  = if has_active_row room user s
    then Returned (HeartbeatOk, heartbeat_ledger now room user s)
    else Returned (ParticipantNotFound, heartbeat_ledger now room user s).
Proof.
  unfold room_heartbeat, has_active_row, heartbeat_ledger.
  destruct (existsb _ _); reflexivity.
Qed.

Lemma heartbeat_ledger_idle now room user s :
  has_active_row room user s = false -> heartbeat_ledger now room user s = s.
Proof.
  intros H. unfold heartbeat_ledger. destruct s as [rs ps]. cbn in *. f_equal.
  apply UPDATE_room_participants_none. intros p Hp.
  unfold has_active_row in H. cbn in H.
  destruct (participant_is room user p && room_participants.is_active p) eqn:E;
    [|reflexivity].
  assert (existsb (fun p => participant_is room user p
                            && room_participants.is_active p) ps = true)
    by (apply existsb_exists; eauto).
  congruence.
Qed.

(** X1.  A heartbeat answers "Participant not found" exactly when the caller has
    no active row, and then leaves the ledger as it was: it never reactivates
    a member.  Otherwise it sets the last-seen of the caller's active row to
    now.  In either case it writes no room row, adds or removes no
    participant row and changes no active flag. *)
Theorem heartbeat_refreshes_last_seen_only now room user s :
  (has_active_row room user s = false ->
   room_heartbeat now room user s = Returned (ParticipantNotFound, s))
  /\ (has_active_row room user s = true ->
      room_heartbeat now room user s
      = Returned (HeartbeatOk, heartbeat_ledger now room user s))
  /\ t_rooms (commit s (room_heartbeat now room user s)) = t_rooms s
  /\ map room_participants.key
       (t_room_participants (commit s (room_heartbeat now room user s)))
     = map room_participants.key (t_room_participants s)
  /\ map room_participants.is_active
       (t_room_participants (commit s (room_heartbeat now room user s)))
     = map room_participants.is_active (t_room_participants s)
  /\ (forall p,
        In p (t_room_participants (commit s (room_heartbeat now room user s))) ->
        participant_is room user p = true ->
        room_participants.is_active p = true ->
        room_participants.last_seen p = now).
Proof.
  rewrite room_heartbeat_outcome.
  assert (Hs' : commit s (if has_active_row room user s
                          then Returned (HeartbeatOk, heartbeat_ledger now room user s)
                          else Returned (ParticipantNotFound,
                                         heartbeat_ledger now room user s))
                = heartbeat_ledger now room user s)
    by (destruct (has_active_row room user s); reflexivity).
  rewrite Hs'. clear Hs'.
  split; [|split; [|split; [|split; [|split]]]].
  - intros H. rewrite H. now rewrite heartbeat_ledger_idle.
  - intros H. now rewrite H.
  - reflexivity.
  - cbn [heartbeat_ledger t_room_participants].
    apply UPDATE_room_participants_keys. reflexivity.
  - cbn [heartbeat_ledger t_room_participants].
    unfold UPDATE_room_participants. rewrite map_map. apply map_ext.
    intros p. destruct (_ && _); reflexivity.
  - cbn [heartbeat_ledger t_room_participants].
    unfold UPDATE_room_participants. intros p Hp Hkey Hact.
    apply in_map_iff in Hp. destruct Hp as (q & <- & _).
    destruct (participant_is room user q && room_participants.is_active q) eqn:E.
    + reflexivity.
    + rewrite Hkey, Hact in E. discriminate.
Qed.

Lemma has_active_row_exists room user s :
  has_active_row room user s = true <->
  exists p, In p (t_room_participants s)
            /\ participant_is room user p = true
            /\ room_participants.is_active p = true.
Proof.
  unfold has_active_row. rewrite existsb_exists. split.
  - intros (p & Hp & H). apply andb_true_iff in H. exists p. tauto.
  - intros (p & Hp & H1 & H2). exists p. now rewrite H1, H2.
Qed.

(** X2.  A member whose heartbeat arrived at [h] survives every sweep that runs
    no later than two minutes after [h]. *)
Theorem heartbeat_defers_eviction h now room user s :
  has_active_row room user s = true ->
  now <= h + two_minutes ->
  has_active_row room user
    (step (step s (Heartbeat h room user)) (Sweep now)) = true.
Proof.
  intros Hact Hnow. cbn [step]. rewrite room_heartbeat_outcome, Hact.
  cbn [commit].
  assert (Hfresh : exists p,
            In p (t_room_participants (heartbeat_ledger h room user s))
            /\ participant_is room user p = true
            /\ room_participants.is_active p = true
            /\ room_participants.last_seen p = h).
  { apply has_active_row_exists in Hact. destruct Hact as (p & Hp & Hk & Ha).
    exists (room_participants.set_last_seen h p). repeat split; auto.
    cbn [heartbeat_ledger t_room_participants]. unfold UPDATE_room_participants.
    apply in_map_iff. exists p. now rewrite Hk, Ha. }
  destruct Hfresh as (p & Hp & Hk & Ha & Hseen).
  destruct (cleanup_inactive_participants now (heartbeat_ledger h room user s))
    as [[u s2]|e] eqn:E; cbn [commit].
  - apply cleanup_Returned in E. destruct E as [-> _].
    apply has_active_row_exists. exists p. repeat split; auto.
    cbn [swept_ledger t_room_participants]. unfold UPDATE_room_participants.
    apply in_map_iff. exists p. split; [|exact Hp].
    replace (stale now p) with false; [reflexivity|].
    symmetry. unfold stale. rewrite Ha, Hseen. cbn [andb].
    apply Z.ltb_ge. lia.
  - apply has_active_row_exists. eauto.
Qed.

Lemma heartbeat_defers_eviction_witness :
  has_active_row "R" "A"
    (step (step (joined_ledger 1 "R" "A" (Some "device") (one_room 5))
                (Heartbeat 100 "R" "A"))
          (Sweep 120000100)) = true.
Proof.
  refine (heartbeat_defers_eviction 100 120000100 "R" "A"
            (joined_ledger 1 "R" "A" (Some "device") (one_room 5)) _ _).
  - reflexivity.
  - vm_compute. discriminate.
Defined.

(** ** What no call does *)

Lemma step_keeps_rows s o :
  exists added,
    map room_participants.key (t_room_participants (step s o))
    = map room_participants.key (t_room_participants s) ++ added.
Proof.
  assert (Hsame : exists added,
            map room_participants.key (t_room_participants s)
            = map room_participants.key (t_room_participants s) ++ added)
    by (exists []; now rewrite app_nil_r).
  destruct o; cbn [step].
  - unfold join_room. destruct (find _ _); [|exact Hsame].
    destruct (negb _); [exact Hsame|]. destruct (existsb _ _) eqn:Hex.
    + unfold bind. destruct (UPDATE_rooms _ _ _); [|exact Hsame].
      cbn [commit t_room_participants]. exists [].
      rewrite app_nil_r. apply UPDATE_room_participants_keys. reflexivity.
    + destruct (_ && _ && _); [exact Hsame|]. destruct (_ <=? _); [exact Hsame|].
      rewrite INSERT_room_participants_new by exact Hex. unfold bind.
      destruct (UPDATE_rooms _ _ _); [|exact Hsame].
      cbn [commit t_room_participants]. rewrite map_app. eexists. reflexivity.
  - unfold leave_room. destruct (negb _); [exact Hsame|].
    unfold bind. destruct (UPDATE_rooms _ _ _); [|exact Hsame].
    cbn [commit t_room_participants]. exists [].
    rewrite app_nil_r. apply UPDATE_room_participants_keys. reflexivity.
  - rewrite room_heartbeat_outcome.
    destruct (has_active_row _ _ _); cbn [commit heartbeat_ledger t_room_participants];
      exists []; rewrite app_nil_r;
      apply UPDATE_room_participants_keys; reflexivity.
  - rewrite cleanup_outcome. unfold bind.
    destruct (UPDATE_rooms _ _ _); [|exact Hsame].
    cbn [commit swept_ledger t_room_participants]. exists [].
    rewrite app_nil_r. apply UPDATE_room_participants_keys. reflexivity.
  - unfold regenerate_join_code. destruct (find _ _); [|exact Hsame].
    destruct (negb _); [exact Hsame|]. destruct (existsb _ _); [exact Hsame|].
    unfold bind. destruct (UPDATE_rooms _ _ _); exact Hsame.
Qed.

(** X3.  No sequence of calls deletes a room or a participant row or changes the
    room or identity a row belongs to: the rooms are the ones the sequence
    started with, and the (room, identity) keys of the participant rows are
    the initial ones, in their order, followed by those of the rows joined
    since. *)
Theorem rows_are_never_deleted ops s :
  map rooms.id (t_rooms (run ops s)) = map rooms.id (t_rooms s)
  /\ exists added,
       map room_participants.key (t_room_participants (run ops s))
       = map room_participants.key (t_room_participants s) ++ added.
Proof.
  split.
  - pose proof (run_capacity ops s) as H.
    apply (f_equal (map fst)) in H. rewrite !map_map in H. exact H.
  - revert s. unfold run. induction ops as [|o ops IH]; intros s; cbn [fold_left].
    + exists []. now rewrite app_nil_r.
    + destruct (IH (step s o)) as (l2 & H2).
      destruct (step_keeps_rows s o) as (l1 & H1).
      exists (l1 ++ l2). now rewrite H2, H1, app_assoc.
Qed.

(** X4.  The only call that can fail on a unique key is the regeneration of a
    join code: [join_room] inserts a row only after finding none for the
    caller, so its INSERT never collides, and every failure of a join, a leave
    or a sweep is a violation of the check constraint on the counter.  A
    heartbeat never fails. *)
Theorem failures_of_calls o s e :
  call o s = Raised e ->
  match o with
  | Heartbeat _ _ _ => False
  | RegenerateJoinCode _ _ _ => e = check_violation \/ e = unique_violation
  | _ => e = check_violation
  end.
Proof.
  destruct o; cbn [call]; unfold bind.
  - unfold join_room. destruct (find _ _); [|discriminate].
    destruct (negb _); [discriminate|]. destruct (existsb _ _) eqn:Hex.
    + unfold bind. destruct (UPDATE_rooms _ _ _) eqn:U; [discriminate|].
      apply UPDATE_rooms_Raised in U. destruct U as [-> _]. now intros [= <-].
    + destruct (_ && _ && _); [discriminate|]. destruct (_ <=? _); [discriminate|].
      rewrite INSERT_room_participants_new by exact Hex. unfold bind.
      destruct (UPDATE_rooms _ _ _) eqn:U; [discriminate|].
      apply UPDATE_rooms_Raised in U. destruct U as [-> _]. now intros [= <-].
  - unfold leave_room. destruct (negb _); [discriminate|]. unfold bind.
    destruct (UPDATE_rooms _ _ _) eqn:U; [discriminate|].
    apply UPDATE_rooms_Raised in U. destruct U as [-> _]. now intros [= <-].
  - rewrite room_heartbeat_outcome. destruct (has_active_row _ _ _); discriminate.
  - rewrite cleanup_outcome. unfold bind.
    destruct (UPDATE_rooms _ _ _) eqn:U; [discriminate|].
    apply UPDATE_rooms_Raised in U. destruct U as [-> _]. now intros [= <-].
  - unfold regenerate_join_code. destruct (find _ _); [|discriminate].
    destruct (negb _); [discriminate|].
    destruct (existsb _ _); [intros [= <-]; now right|]. unfold bind.
    destruct (UPDATE_rooms _ _ _) eqn:U; [discriminate|].
    apply UPDATE_rooms_Raised in U. destruct U as [-> _]. intros [= <-]. now left.
Qed.

Lemma failures_of_calls_witness :
  call (joins 8 "A") crowded = Raised check_violation
  /\ check_violation = check_violation.
Proof.
  split; [reflexivity|].
  exact (failures_of_calls (joins 8 "A") crowded check_violation eq_refl).
Defined.

(** ** Rooms do not interfere *)

Lemma filter_map_untouched {A} (P : A -> bool) (f : A -> A) l :
  (forall a, P (f a) = P a) ->
  (forall a, P a = true -> f a = a) ->
  filter P (map f l) = filter P l.
Proof.
  intros HP Hf. induction l as [|a l IH]; [reflexivity|].
  cbn [map filter]. rewrite HP, IH.
  destruct (P a) eqn:E; [|reflexivity]. now rewrite (Hf a E).
Qed.

Lemma room_is_other room other r :
  other <> room -> room_is other r = true -> room_is room r = false.
Proof.
  intros Hne H. apply room_is_eq in H.
  destruct (room_is room r) eqn:E; [|reflexivity].
  apply room_is_eq in E. congruence.
Qed.

Lemma other_rows_untouched room other upd rs :
  other <> room ->
  (forall r, rooms.id (upd r) = rooms.id r) ->
  filter (room_is other) (map (fun r => if room_is room r then upd r else r) rs)
  = filter (room_is other) rs.
Proof.
  intros Hne Hid. apply filter_map_untouched.
  - intros r. unfold room_is at 1 3. destruct (room_is room r); [|reflexivity].
    now rewrite Hid.
  - intros r Hr. now rewrite (room_is_other room other r Hne Hr).
Qed.

Lemma other_participants_untouched room other cond upd ps :
  other <> room ->
  (forall p, room_participants.room_id (upd p) = room_participants.room_id p) ->
  (forall p, cond p = true -> room_participants.room_id p = room) ->
  filter (fun p => String.eqb (room_participants.room_id p) other)
         (UPDATE_room_participants cond upd ps)
  = filter (fun p => String.eqb (room_participants.room_id p) other) ps.
Proof.
  intros Hne Hid Hcond. unfold UPDATE_room_participants.
  apply (filter_map_untouched
           (fun p => String.eqb (room_participants.room_id p) other)).
  - intros p. destruct (cond p); [|reflexivity]. now rewrite Hid.
  - intros p Hp. apply String.eqb_eq in Hp.
    destruct (cond p) eqn:E; [|reflexivity].
    apply Hcond in E. congruence.
Qed.

Lemma participant_is_room room user p :
  participant_is room user p = true -> room_participants.room_id p = room.
Proof.
  unfold participant_is. intros H. apply andb_true_iff in H.
  now apply String.eqb_eq.
Qed.

(** X5.  A join, leave, heartbeat or code regeneration addressed to one room
    leaves the row and the Participant rows of every other room exactly as
    they were. *)
Theorem other_rooms_are_untouched s o room other :
  op_room o = Some room -> other <> room ->
  rows_of_room other (step s o) = rows_of_room other s
  /\ participants_of_room other (step s o) = participants_of_room other s.
Proof.
  intros Ho Hne. unfold rows_of_room, participants_of_room.
  destruct o; cbn [op_room] in Ho; try discriminate;
    injection Ho as ->; cbn [step].
  - unfold join_room. destruct (find _ _); [|tauto].
    destruct (negb _); [tauto|]. destruct (existsb _ _) eqn:Hex.
    + unfold bind. destruct (UPDATE_rooms _ _ _) eqn:U; [|tauto].
      inv_update U. cbn [commit t_rooms t_room_participants]. split.
      * now apply other_rows_untouched.
      * apply other_participants_untouched with (room := room); auto.
        intros p. apply participant_is_room.
    + destruct (_ && _ && _); [tauto|]. destruct (_ <=? _); [tauto|].
      rewrite INSERT_room_participants_new by exact Hex. unfold bind.
      destruct (UPDATE_rooms _ _ _) eqn:U; [|tauto].
      inv_update U. cbn [commit t_rooms t_room_participants]. split.
      * now apply other_rows_untouched.
      * rewrite filter_app. cbn [filter new_participant room_participants.room_id].
        apply String.eqb_neq in Hne. rewrite String.eqb_sym, Hne.
        apply app_nil_r.
  - unfold leave_room. destruct (negb _); [tauto|]. unfold bind.
    destruct (UPDATE_rooms _ _ _) eqn:U; [|tauto].
    inv_update U. cbn [commit t_rooms t_room_participants]. split.
    + now apply other_rows_untouched.
    + apply other_participants_untouched with (room := room); auto.
      intros p. apply participant_is_room.
  - rewrite room_heartbeat_outcome.
    assert (H : filter (fun p => String.eqb (room_participants.room_id p) other)
                  (t_room_participants (heartbeat_ledger now room user s))
                = filter (fun p => String.eqb (room_participants.room_id p) other)
                    (t_room_participants s)).
    { cbn [heartbeat_ledger t_room_participants].
      apply other_participants_untouched with (room := room); auto.
      intros p Hp. apply andb_true_iff in Hp. now apply participant_is_room with user. }
    destruct (has_active_row _ _ _); cbn [commit]; split; auto.
  - unfold regenerate_join_code. destruct (find _ _); [|tauto].
    destruct (negb _); [tauto|]. destruct (existsb _ _); [tauto|]. unfold bind.
    destruct (UPDATE_rooms _ _ _) eqn:U; [|tauto].
    inv_update U. cbn [commit t_rooms t_room_participants]. split; [|reflexivity].
    now apply other_rows_untouched.
Qed.

Lemma other_rooms_are_untouched_witness :
  rows_of_room "Q" (step two_rooms (Leave 9 "R" "A")) = rows_of_room "Q" two_rooms
  /\ participants_of_room "Q" (step two_rooms (Leave 9 "R" "A"))
     = participants_of_room "Q" two_rooms.
Proof.
  refine (other_rooms_are_untouched two_rooms (Leave 9 "R" "A") "R" "Q" _ _).
  - reflexivity.
  - discriminate.
Defined.

(** ** Leaving and coming back *)

Lemma leave_room_commits now room user s :
  rooms_checked s -> has_active_row room user s = true ->
  leave_room now room user s = Returned (Left, left_ledger now room user s).
Proof.
  intros Hc Hact. unfold leave_room. unfold has_active_row in Hact.
  rewrite Hact. cbn [negb]. rewrite UPDATE_rooms_commits; [reflexivity|].
  intros r Hr _. red in Hc. rewrite Forall_forall in Hc.
  specialize (Hc r Hr). apply check_bounds in Hc. apply check_bounds.
  cbn. unfold GREATEST. lia.
Qed.

Lemma unique_member_active room user s :
  participants_unique s -> has_active_row room user s = true ->
  member_active room user s.
Proof.
  unfold participants_unique, has_active_row, member_active.
  induction (t_room_participants s) as [|p t IH]; intros Hnd Hex q Hq Hkey;
    [destruct Hq|].
  cbn [existsb] in Hex. destruct Hq as [->|Hq].
  - destruct (room_participants.is_active q) eqn:Ea; [reflexivity|].
    rewrite Hkey in Hex. cbn [andb orb] in Hex.
    apply existsb_exists in Hex. destruct Hex as (p' & Hp' & H).
    apply andb_true_iff in H. destruct H as [H _].
    rewrite (unique_head_only room user q t Hnd Hkey p' Hp') in H. discriminate.
  - destruct (participant_is room user p) eqn:Ep.
    + rewrite (unique_head_only room user p t Hnd Ep q Hq) in Hkey. discriminate.
    + cbn [andb orb] in Hex. inversion Hnd; subst. now apply IH.
Qed.

Lemma COUNT_active_ext r l1 l2 :
  map room_participants.room_id l1 = map room_participants.room_id l2 ->
  map room_participants.is_active l1 = map room_participants.is_active l2 ->
  COUNT_active r l1 = COUNT_active r l2.
Proof.
  revert l2. induction l1 as [|p l1 IH]; intros [|q l2] Hr Ha;
    try discriminate; [reflexivity|].
  cbn [map] in Hr, Ha. injection Hr as Hr1 Hr. injection Ha as Ha1 Ha.
  rewrite !COUNT_active_cons, Hr1, Ha1, (IH l2 Hr Ha). reflexivity.
Qed.

Lemma keys_room_ids l1 l2 :
  map room_participants.key l1 = map room_participants.key l2 ->
  map room_participants.room_id l1 = map room_participants.room_id l2.
Proof.
  intros H. apply (f_equal (map fst)) in H. now rewrite !map_map in H.
Qed.

(** X6.  An active member who leaves and joins again is let back in through the
    rejoin branch, whatever join code is supplied: no row is added, every
    active flag is what it was before the leave, and so is the counter of
    every room. *)
Theorem leave_then_join_restores now1 now2 room user device code s v :
  consistent s ->
  find (room_is room) (t_rooms s) = Some v ->
  rooms.status v = "active" ->
  has_active_row room user s = true ->
  exists s2,
    join_room now2 room user device code (step s (Leave now1 room user))
    = Returned (Rejoined, s2)
    /\ map room_participants.key (t_room_participants s2)
       = map room_participants.key (t_room_participants s)
    /\ map room_participants.is_active (t_room_participants s2)
       = map room_participants.is_active (t_room_participants s)
    /\ map rooms.current_user_count (t_rooms s2)
       = map rooms.current_user_count (t_rooms s).
Proof.
  intros Hs Hfind Hst Hact. pose proof Hs as (Hc & Hu & He).
  cbn [step]. rewrite (leave_room_commits _ _ _ _ Hc Hact). cbn [commit].
  set (s1 := left_ledger now1 room user s).
  set (s2 := rejoined_ledger now2 room user device s1).
  assert (Hv : In v (t_rooms s) /\ room_is room v = true)
    by (apply find_some in Hfind; exact Hfind).
  destruct Hv as [Hv Hroom].
  pose proof (unique_member_active room user s Hu Hact) as Hmem.
  assert (Hkeys : map room_participants.key (t_room_participants s2)
                  = map room_participants.key (t_room_participants s)).
  { subst s2 s1. cbn [rejoined_ledger left_ledger t_room_participants].
    rewrite UPDATE_room_participants_keys by reflexivity.
    rewrite map_map. apply map_ext. intros p.
    destruct (participant_is room user p); reflexivity. }
  assert (Hflags : map room_participants.is_active (t_room_participants s2)
                   = map room_participants.is_active (t_room_participants s)).
  { subst s2 s1. cbn [rejoined_ledger left_ledger t_room_participants].
    unfold UPDATE_room_participants. rewrite !map_map.
    apply map_ext_in. intros p Hp.
    destruct (participant_is room user p) eqn:Ep.
    - change (participant_is room user
                (room_participants.set_last_seen now1
                   (room_participants.set_is_active false p)))
        with (participant_is room user p).
      rewrite Ep. cbn. symmetry. now apply Hmem.
    - now rewrite Ep. }
  assert (Hcount : forall r,
            COUNT_active r (t_room_participants s2)
            = COUNT_active r (t_room_participants s))
    by (intros r; apply COUNT_active_ext; [now apply keys_room_ids|exact Hflags]).
  exists s2. split; [|split; [exact Hkeys|split; [exact Hflags|]]].
  - apply rejoin_commits
      with (v := if room_is room v
                 then rooms.set_updated_at now1
                        (rooms.set_current_user_count
                           (Z.max 0 (rooms.current_user_count v - 1)) v)
                 else v).
    + subst s1. cbn [left_ledger t_rooms]. rewrite find_room_map.
      * now rewrite Hfind.
      * intros r. destruct (room_is room r); reflexivity.
    + destruct (room_is room v); exact Hst.
    + subst s1. cbn [left_ledger t_room_participants].
      fold (UPDATE_room_participants (participant_is room user)
              (fun p => room_participants.set_last_seen now1
                          (room_participants.set_is_active false p))
              (t_room_participants s)).
      rewrite existsb_UPDATE_room_participants by reflexivity.
      apply has_active_row_exists in Hact. destruct Hact as (p & Hp & Hk & _).
      apply existsb_exists. eauto.
    + fold s2. rewrite Hcount. apply room_is_eq in Hroom. rewrite <- Hroom.
      apply (consistent_bounded s v Hs Hv).
  - assert (Hrooms2 :
      t_rooms s2
      = map (fun r => if room_is room r
                      then rooms.set_current_user_count
                             (COUNT_active room (t_room_participants s2)) r
                      else r) (t_rooms s1)) by reflexivity.
    assert (Hrooms1 :
      t_rooms s1
      = map (fun r => if room_is room r
                      then rooms.set_updated_at now1
                             (rooms.set_current_user_count
                                (Z.max 0 (rooms.current_user_count r - 1)) r)
                      else r) (t_rooms s)) by reflexivity.
    rewrite Hrooms2, Hrooms1, !map_map.
    apply map_ext_in. intros r Hr. red in He. rewrite Forall_forall in He.
    destruct (room_is room r) eqn:E.
    + change (room_is room
                (rooms.set_updated_at now1
                   (rooms.set_current_user_count
                      (Z.max 0 (rooms.current_user_count r - 1)) r)))
        with (room_is room r).
      rewrite E. cbn. rewrite Hcount, (He r Hr).
      apply room_is_eq in E. now rewrite E.
    + now rewrite E.
Qed.

Lemma leave_then_join_restores_witness :
  exists s2,
    join_room 10 "R" "B" None None (step crowded (Leave 9 "R" "B"))
    = Returned (Rejoined, s2)
    /\ map room_participants.key (t_room_participants s2)
       = map room_participants.key (t_room_participants crowded)
    /\ map room_participants.is_active (t_room_participants s2)
       = map room_participants.is_active (t_room_participants crowded)
    /\ map rooms.current_user_count (t_rooms s2)
       = map rooms.current_user_count (t_rooms crowded).
Proof.
  refine (leave_then_join_restores 9 10 "R" "B" None None crowded
            (rooms.mk "R" "room" "theme" None 0 "host" 5 5 "active" "ABCDEF"
               false 7) _ _ _ _).
  - repeat split.
    + repeat constructor.
    + red. solve_nodup.
    + repeat constructor.
  - reflexivity.
  - reflexivity.
  - reflexivity.
Defined.




(** ** A regenerated code replaces the old one *)

(** X8.  After the creator has regenerated the code of a private room, a caller
    other than the creator who is not yet a member is refused with any code
    but the new one (the old code included), and gets past the code check
    with the new one. *)
Theorem regenerated_code_replaces_old RANDOM now room host guest device s v :
  rooms_checked s ->
  find (room_is room) (t_rooms s) = Some v ->
  rooms.created_by v = host ->
  rooms.is_private v = true ->
  rooms.status v = "active" ->
  guest <> host ->
  existsb (participant_is room guest) (t_room_participants s) = false ->
  code_taken room (generate_join_code RANDOM) s = false ->
  let c := generate_join_code RANDOM in
  let s1 := recoded_ledger room c s in
  regenerate_join_code RANDOM room host s = Returned (Regenerated c, s1)
  /\ (forall old, old <> c ->
        join_room now room guest device (Some old) s1
        = Returned (InvalidJoinCode, s1))
  /\ reaches_capacity_check room guest (Some c) s1 (rooms.set_join_code c v)
  /\ (forall s', join_room now room guest device (Some c) s1
                 <> Returned (InvalidJoinCode, s')).
Proof.
  intros Hc Hfind Hhost Hpriv Hst Hguest Hex Hfree c s1.
  assert (Hroom : room_is room v = true)
    by (apply find_some in Hfind; tauto).
  assert (Hfind1 : find (room_is room) (t_rooms s1) = Some (rooms.set_join_code c v)).
  { subst s1. cbn [recoded_ledger t_rooms]. rewrite find_room_map.
    - rewrite Hfind. cbn. now rewrite Hroom.
    - intros r. destruct (room_is room r); reflexivity. }
  assert (Hother : String.eqb (rooms.created_by v) guest = false)
    by (apply String.eqb_neq; congruence).
  assert (Hreach : reaches_capacity_check room guest (Some c) s1
                     (rooms.set_join_code c v)).
  { repeat split; auto. cbn. rewrite String.eqb_refl. cbn. apply andb_false_r. }
  split; [|split; [|split]].
  - unfold regenerate_join_code. rewrite Hfind.
    apply String.eqb_eq in Hhost. rewrite Hhost. cbn [negb]. fold c.
    unfold code_taken in Hfree. fold c in Hfree. rewrite Hfree.
    rewrite UPDATE_rooms_commits; [reflexivity|].
    intros r Hr _. rewrite set_join_code_check. red in Hc.
    rewrite Forall_forall in Hc. now apply Hc.
  - intros old Hold. unfold join_room. rewrite Hfind1.
    change (rooms.status (rooms.set_join_code c v)) with (rooms.status v).
    change (rooms.is_private (rooms.set_join_code c v)) with (rooms.is_private v).
    change (rooms.created_by (rooms.set_join_code c v)) with (rooms.created_by v).
    change (rooms.join_code (rooms.set_join_code c v)) with c.
    change (t_room_participants s1) with (t_room_participants s).
    rewrite Hst, Hex, Hpriv, Hother. apply String.eqb_neq in Hold.
    unfold join_code_rejected. now rewrite Hold.
  - exact Hreach.
  - intros s'. now apply past_code_check_not_rejected with (v := rooms.set_join_code c v).
Qed.

Lemma regenerated_code_replaces_old_witness :
  join_room 5 "R" "guest" None (Some "ABCDEF")
    (recoded_ledger "R" (generate_join_code sevenths) private_room)
  = Returned (InvalidJoinCode,
              recoded_ledger "R" (generate_join_code sevenths) private_room).
Proof.
  refine (proj1 (proj2
            (regenerated_code_replaces_old sevenths 5 "R" "host" "guest" None
               private_room (fresh_room "R" "host" 5 true "ABCDEF")
               _ _ _ _ _ _ _ _)) "ABCDEF" _).
  - repeat constructor.
  - reflexivity.
  - reflexivity.
  - reflexivity.
  - reflexivity.
  - discriminate.
  - reflexivity.
  - reflexivity.
  - vm_compute. discriminate.
Defined.

(** ** The two versions of join_room *)

(** X9.  The three-argument [join_room] of the first migration answers every
    call as the four-argument one answers it when the room's own join code
    is supplied; it never answers "Invalid join code". *)
Theorem join_room3_knows_the_code now room user device s :
  join_room3 now room user device s
  = join_room now room user device
      (option_map rooms.join_code (find (room_is room) (t_rooms s))) s
  /\ forall s', join_room3 now room user device s
                <> Returned (InvalidJoinCode, s').
Proof.
  assert (Hnot : forall s', join_room3 now room user device s
                            <> Returned (InvalidJoinCode, s')).
  { intros s'. unfold join_room3. destruct (find _ _); [|discriminate].
    destruct (negb _); [discriminate|]. destruct (existsb _ _) eqn:Hex.
    - unfold bind. destruct (UPDATE_rooms _ _ _); discriminate.
    - destruct (_ <=? _); [discriminate|].
      rewrite INSERT_room_participants_new by exact Hex. unfold bind.
      destruct (UPDATE_rooms _ _ _); discriminate. }
  split; [|exact Hnot].
  unfold join_room3, join_room.
  destruct (find (room_is room) (t_rooms s)) as [v|]; [|reflexivity].
  cbn [option_map join_code_rejected]. rewrite String.eqb_refl.
  cbn [negb]. rewrite andb_false_r. reflexivity.
Qed.

(** ** Global roles *)

Lemma AppRole_eqb_eq a b : AppRole.eqb a b = true <-> a = b.
Proof. destruct a, b; cbn; split; intros H; try reflexivity; discriminate. Qed.

Lemma AppRole_eqb_sym a b : AppRole.eqb a b = AppRole.eqb b a.
Proof. destruct a, b; reflexivity. Qed.

Lemma existsb_same {A} (f g : A -> bool) l :
  (forall a, f a = g a) -> existsb f l = existsb g l.
Proof.
  intros H. induction l as [|a l IH]; [reflexivity|].
  cbn [existsb]. now rewrite H, IH.
Qed.

Lemma has_role_exists u ro t :
  has_role (Some u) ro t = true <->
  exists r, In r t /\ user_roles.user_id r = u /\ user_roles.role r = ro.
Proof.
  cbn [has_role]. rewrite existsb_exists. split.
  - intros (r & Hr & H). apply andb_true_iff in H. destruct H as [H1 H2].
    apply String.eqb_eq in H1. apply AppRole_eqb_eq in H2. eauto.
  - intros (r & Hr & <- & <-). exists r. split; [exact Hr|].
    rewrite String.eqb_refl. now apply andb_true_iff, conj, AppRole_eqb_eq.
Qed.

Lemma client_write_needs_organizer auth w t :
  has_role auth AppRole.organizer t = false ->
  match client_write auth w t with
  | inl e => e = insufficient_privilege
  | inr t' => t' = t
  end.
Proof. intros H. destruct w; cbn [client_write]; rewrite H; reflexivity. Qed.

Lemma no_organizer_row auth t :
  (forall r, In r t -> user_roles.role r <> AppRole.organizer) ->
  has_role auth AppRole.organizer t = false.
Proof.
  intros H. destruct auth as [u|]; [|reflexivity].
  destruct (has_role (Some u) AppRole.organizer t) eqn:E; [|reflexivity].
  apply has_role_exists in E. destruct E as (r & Hr & _ & Hro).
  now apply H in Hr.
Qed.

(** X10.  A caller who does not hold the organizer role cannot change
    [user_roles]: an INSERT is refused by the policy, an UPDATE or DELETE
    finds no row.  Hence in a table without an organizer row no sequence of
    client statements, by whatever callers, ever changes anything: the first
    organizer cannot be appointed through the client interface. *)
Theorem roles_change_only_through_organizers t :
  (forall auth w,
      has_role auth AppRole.organizer t = false ->
      match client_write auth w t with
      | inl e => e = insufficient_privilege
      | inr t' => t' = t
      end)
  /\ ((forall r, In r t -> user_roles.role r <> AppRole.organizer) ->
      forall writes, fold_left after_write writes t = t).
Proof.
  split; [intros auth w; apply client_write_needs_organizer|].
  intros Hno writes. induction writes as [|[auth w] writes IH]; [reflexivity|].
  cbn [fold_left]. replace (after_write t (auth, w)) with t; [exact IH|].
  unfold after_write. cbn [fst snd].
  pose proof (client_write_needs_organizer auth w t (no_organizer_row auth t Hno)).
  destruct (client_write auth w t); congruence.
Qed.

(** X11.  An organizer's grant is visible at once and touches nobody else: after
    inserting the row for [(u, ro)], [has_role u ro] holds, every other
    answer of [has_role] is as before, and granting the same role again fails
    on the unique key; deleting the row makes [has_role u ro] false again. *)
Theorem grant_then_revoke auth u ro ts t :
  has_role auth AppRole.organizer t = true ->
  has_role (Some u) ro t = false ->
  let r := user_roles.mk u ro ts in
  client_write auth (InsertRole r) t = inr (t ++ [r])
  /\ has_role (Some u) ro (t ++ [r]) = true
  /\ (forall u' ro', (u', ro') <> (u, ro) ->
        has_role (Some u') ro' (t ++ [r]) = has_role (Some u') ro' t)
  /\ client_write auth (InsertRole r) (t ++ [r]) = inl duplicate_key
  /\ (forall t', client_write auth (DeleteRoles (user_roles.same_key r)) (t ++ [r])
                 = inr t' ->
                 has_role (Some u) ro t' = false)
  /\ exists t', client_write auth (DeleteRoles (user_roles.same_key r)) (t ++ [r])
                = inr t'.
Proof.
  intros Hauth Hnew r.
  assert (Hkey : forall q, user_roles.same_key r q
                           = String.eqb (user_roles.user_id q) u
                             && AppRole.eqb (user_roles.role q) ro).
  { intros q. unfold user_roles.same_key. subst r. cbn.
    now rewrite String.eqb_sym, AppRole_eqb_sym. }
  assert (Hauth' : has_role auth AppRole.organizer (t ++ [r]) = true).
  { destruct auth as [a|]; [|discriminate]. cbn [has_role] in *.
    rewrite existsb_app, Hauth. reflexivity. }
  assert (Hself : user_roles.same_key r r = true)
    by (rewrite Hkey; subst r; cbn; rewrite String.eqb_refl;
        now destruct ro).
  split; [|split; [|split; [|split; [|split]]]].
  - cbn [client_write]. rewrite Hauth. cbn [negb].
    replace (existsb (user_roles.same_key r) t) with false; [reflexivity|].
    symmetry. cbn [has_role] in Hnew. rewrite <- Hnew.
    apply existsb_same. exact Hkey.
  - cbn [has_role]. rewrite existsb_app. cbn [existsb].
    rewrite <- Hkey, Hself. now rewrite orb_true_r.
  - intros u' ro' Hne. cbn [has_role]. rewrite existsb_app. cbn [existsb].
    replace (String.eqb (user_roles.user_id r) u'
             && AppRole.eqb (user_roles.role r) ro') with false;
      [now rewrite !orb_false_r|].
    symmetry. subst r. cbn. apply andb_false_iff.
    destruct (String.eqb u u') eqn:Eu; [|now left]. right.
    apply String.eqb_eq in Eu. subst u'.
    destruct (AppRole.eqb ro ro') eqn:Er; [|reflexivity].
    apply AppRole_eqb_eq in Er. congruence.
  - cbn [client_write]. rewrite Hauth'. cbn [negb].
    rewrite existsb_app. cbn [existsb]. rewrite Hself.
    now rewrite orb_true_r.
  - intros t'. cbn [client_write]. rewrite Hauth'. intros [= <-].
    cbn [has_role].
    destruct (existsb _ (filter _ (t ++ [r]))) eqn:E; [|reflexivity].
    apply existsb_exists in E. destruct E as (q & Hq & Hq').
    apply filter_In in Hq. destruct Hq as [_ Hq].
    rewrite Hkey, Hq' in Hq. discriminate.
  - cbn [client_write]. rewrite Hauth'. eauto.
Qed.

Lemma grant_then_revoke_witness :
  client_write (Some "boss")
    (InsertRole (user_roles.mk "ann" AppRole.judge 7))
    [user_roles.mk "boss" AppRole.organizer 1]
  = inr [user_roles.mk "boss" AppRole.organizer 1;
         user_roles.mk "ann" AppRole.judge 7].
Proof.
  refine (proj1 (grant_then_revoke (Some "boss") "ann" AppRole.judge 7
                   [user_roles.mk "boss" AppRole.organizer 1] _ _)).
  - reflexivity.
  - reflexivity.
Defined.

Lemma includes_fetchRoles ro u t :
  includes ro (fetchRoles u t) = has_role (Some u) ro t.
Proof.
  unfold includes, fetchRoles. cbn [has_role].
  induction t as [|r t IH]; [reflexivity|]. cbn [filter existsb].
  destruct (String.eqb (user_roles.user_id r) u); cbn [map existsb andb orb].
  - now rewrite IH, AppRole_eqb_sym.
  - exact IH.
Qed.

(** X12.  The flags of [useRoles] are the server's [has_role] on the caller's own
    rows: isOrganizer and isJudge are [has_role] for those roles, and
    isParticipant holds exactly when the caller holds the participant role or
    holds neither the organizer nor the judge role; so a caller without any
    row, and a visitor who is not signed in, count as participants. *)
Theorem useRoles_agrees_with_has_role user t :
  isOrganizer (useRoles user t) = has_role user AppRole.organizer t
  /\ isJudge (useRoles user t) = has_role user AppRole.judge t
  /\ isParticipant (useRoles user t)
     = has_role user AppRole.participant t
       || (negb (has_role user AppRole.organizer t)
           && negb (has_role user AppRole.judge t))
  /\ ((forall ro, has_role user ro t = false) ->
      roles (useRoles user t) = []
      /\ isParticipant (useRoles user t) = true).
Proof.
  assert (Hinc : forall ro,
            includes ro (roles (useRoles user t)) = has_role user ro t).
  { intros ro. destruct user as [u|]; cbn [useRoles roles has_role].
    - apply includes_fetchRoles.
    - reflexivity. }
  unfold useRoles in *. cbn [isOrganizer isJudge isParticipant roles] in *.
  rewrite !Hinc. repeat split.
  - destruct (match user with Some userId => fetchRoles userId t | None => [] end)
      as [|ro l] eqn:E; [reflexivity|].
    specialize (H ro). rewrite <- Hinc in H. unfold includes in H.
    cbn [existsb] in H. destruct ro; discriminate.
  - now rewrite !H.
Qed.

(** ** The message and suggestion streams *)

Lemma on_message_insert_known new prev :
  In (Message.id new) (map Message.id prev) ->
  on_message_insert new prev = prev.
Proof.
  intros H. unfold on_message_insert.
  replace (existsb _ prev) with true; [reflexivity|].
  symmetry. apply existsb_exists. apply in_map_iff in H.
  destruct H as (m & Hm & Hin). exists m. split; [exact Hin|].
  rewrite Hm. apply String.eqb_refl.
Qed.

Lemma on_message_insert_ids new prev :
  In (Message.id new) (map Message.id (on_message_insert new prev))
  /\ exists l, on_message_insert new prev = prev ++ l.
Proof.
  unfold on_message_insert.
  destruct (existsb _ prev) eqn:E.
  - split; [|exists []; now rewrite app_nil_r].
    apply existsb_exists in E. destruct E as (m & Hm & Heq).
    apply String.eqb_eq in Heq. rewrite <- Heq. now apply in_map.
  - split; [|eauto]. rewrite map_app. apply in_or_app. right. now left.
Qed.

Lemma on_message_insert_NoDup new prev :
  NoDup (map Message.id prev) ->
  NoDup (map Message.id (on_message_insert new prev)).
Proof.
  intros Hnd. unfold on_message_insert.
  destruct (existsb _ prev) eqn:E; [exact Hnd|].
  rewrite map_app. apply NoDup_app; [exact Hnd|repeat constructor; intros []|].
  intros i Hi [<-|[]]. apply in_map_iff in Hi. destruct Hi as (m & Hm & Hin).
  assert (existsb (fun m => String.eqb (Message.id m) (Message.id new)) prev = true).
  { apply existsb_exists. exists m. split; [exact Hin|].
    rewrite Hm. apply String.eqb_refl. }
  congruence.
Qed.

(** X13.  The messages channel may deliver an INSERT more than once.  Whatever is
    delivered, in whatever order and however often: the list the hook holds
    keeps what it had, in order, in front; message ids stay distinct if they
    were; every delivered message is in the list; and delivering any of them
    again changes nothing. *)
Theorem messages_are_appended_once (payloads : list Message.t)
    (prev : list Message.t) :
  let held := fold_left (fun l p => on_message_insert p l) payloads prev in
  (exists l, held = prev ++ l)
  /\ (NoDup (map Message.id prev) -> NoDup (map Message.id held))
  /\ (forall p, In p payloads -> In (Message.id p) (map Message.id held))
  /\ (forall p, In p payloads -> on_message_insert p held = held).
Proof.
  revert prev. induction payloads as [|q payloads IH]; intros prev; cbn [fold_left].
  - split; [exists []; now rewrite app_nil_r|].
    split; [auto|]. split; intros p [].
  - destruct (IH (on_message_insert q prev)) as (Hpre & Hnd & Hin & Hagain).
    destruct (on_message_insert_ids q prev) as (Hq & l1 & Hl1).
    assert (Hq' : In (Message.id q)
                    (map Message.id
                       (fold_left (fun l p => on_message_insert p l) payloads
                          (on_message_insert q prev)))).
    { destruct Hpre as (l2 & ->). rewrite map_app. apply in_or_app. now left. }
    split; [|split; [|split]].
    + destruct Hpre as (l2 & ->). rewrite Hl1. exists (l1 ++ l2).
      now rewrite app_assoc.
    + intros H. apply Hnd. now apply on_message_insert_NoDup.
    + intros p [<-|Hp]; [exact Hq'|now apply Hin].
    + intros p [<-|Hp]; [now apply on_message_insert_known|now apply Hagain].
Qed.

Lemma firstn_In {A} n (l : list A) a : In a (firstn n l) -> In a l.
Proof.
  revert n. induction l as [|b l IH]; intros [|n] H; cbn [firstn] in H;
    try (now destruct H).
  destruct H as [<-|H]; [now left|right; eauto].
Qed.

Lemma firstn_NoDup {A} n (l : list A) : NoDup l -> NoDup (firstn n l).
Proof.
  revert n. induction l as [|a l IH]; intros [|n] H; cbn [firstn];
    try constructor.
  - inversion H as [|? ? Hnin Hnd]; subst. intros Hin. apply Hnin.
    now apply firstn_In in Hin.
  - inversion H; subst. now apply IH.
Qed.

(** X14.  The suggestions the hook holds stay at most five with distinct ids if
    they were; a suggestion that is new comes first; and a suggestion
    delivered again changes nothing. *)
Theorem suggestions_keep_the_newest_five (new : Suggestion.t)
    (prev : list Suggestion.t) :
  ((List.length prev <= 5)%nat ->
   (List.length (on_suggestion_insert new prev) <= 5)%nat)
  /\ (NoDup (map Suggestion.id prev) ->
      NoDup (map Suggestion.id (on_suggestion_insert new prev)))
  /\ (~ In (Suggestion.id new) (map Suggestion.id prev) ->
      on_suggestion_insert new prev = new :: firstn 4 prev)
  /\ (In (Suggestion.id new) (map Suggestion.id prev) ->
      on_suggestion_insert new prev = prev)
  /\ on_suggestion_insert new (on_suggestion_insert new prev)
     = on_suggestion_insert new prev.
Proof.
  assert (Hknown : forall l,
            existsb (fun s => String.eqb (Suggestion.id s) (Suggestion.id new)) l
            = true <-> In (Suggestion.id new) (map Suggestion.id l)).
  { intros l. rewrite existsb_exists, in_map_iff. split.
    - intros (x & Hx & Hid). apply String.eqb_eq in Hid. eauto.
    - intros (x & Hid & Hx). exists x. split; [exact Hx|].
      now apply String.eqb_eq. }
  unfold on_suggestion_insert, slice_to.
  destruct (existsb _ prev) eqn:E.
  - apply Hknown in E. repeat split; auto.
    + tauto.
    + apply Hknown in E. now rewrite E.
  - assert (Hnew : ~ In (Suggestion.id new) (map Suggestion.id prev))
      by (rewrite <- Hknown; congruence).
    split; [intros _; apply firstn_le_length|].
    split; [|split; [reflexivity|split; [tauto|]]].
    + intros Hnd. rewrite <- firstn_map. apply firstn_NoDup.
      cbn [map]. now constructor.
    + cbn [firstn existsb]. now rewrite String.eqb_refl.
Qed.

(** ** Sending a message *)

(** X15.  [sendMessage] calls the moderator exactly when the insert went through
    and the hook held a positive multiple of five messages when the callback
    was made; the moderator then gets exactly five texts, those of the last
    five messages the hook held (the message being sent is not among
    them). *)
Theorem moderation_gets_five_messages user roomId trimmed messages insert_ok :
  (forall texts,
      sent_moderation (sendMessage user roomId trimmed messages insert_ok)
      = Some texts ->
      List.length texts = 5%nat
      /\ texts = map Message.message
                     (skipn (List.length messages - 5) messages)
      /\ sent_success (sendMessage user roomId trimmed messages insert_ok) = true
      /\ insert_ok = true
      /\ (0 < List.length messages)%nat
      /\ (List.length messages mod 5 = 0)%nat)
  /\ (forall userId room,
        user = Some userId -> roomId = Some room ->
        room <> "" -> trimmed <> "" -> insert_ok = true ->
        (0 < List.length messages)%nat ->
        (List.length messages mod 5 = 0)%nat ->
        sent_moderation (sendMessage user roomId trimmed messages insert_ok)
        = Some (map Message.message (slice_last 5 messages))).
Proof.
  split.
  - intros texts. unfold sendMessage.
    destruct user as [userId|]; [|discriminate].
    destruct roomId as [room|]; [|discriminate].
    destruct (_ || _); [discriminate|].
    destruct insert_ok; cbn [negb]; [|discriminate].
    destruct (0 <? List.length messages)%nat eqn:Epos; [|discriminate].
    destruct (List.length messages mod 5 =? 0)%nat eqn:Emod; [|discriminate].
    cbn [andb sent_moderation sent_success]. intros [= <-].
    apply Nat.ltb_lt in Epos. apply Nat.eqb_eq in Emod.
    assert (Hfive : (5 <= List.length messages)%nat).
    { destruct (le_lt_dec 5 (List.length messages)) as [H|H]; [exact H|].
      rewrite Nat.mod_small in Emod by exact H. lia. }
    repeat split; auto.
    unfold slice_last. rewrite length_map, length_skipn. lia.
  - intros userId room -> -> Hroom Htext -> Hpos Hmod. unfold sendMessage.
    apply String.eqb_neq in Hroom, Htext. rewrite Hroom, Htext.
    cbn [orb negb]. apply Nat.ltb_lt in Hpos. apply Nat.eqb_eq in Hmod.
    now rewrite Hpos, Hmod.
Qed.

(** ** Fetching the room *)

Lemma fetchRoom_bounded fuel : forall store st,
  (maxRetries - retryCount st < fuel)%nat ->
  exists res st',
    fetchRoom fuel store st = Some (res, st')
    /\ (queries st < queries st')%nat
    /\ (queries st' - queries st <= maxRetries - retryCount st + 1)%nat
    /\ slept st'
       = slept st
         ++ map (fun k => 1000 * Z.of_nat k)
                (seq (S (retryCount st)) (queries st' - queries st - 1)).
Proof.
  induction fuel as [|fuel IH]; intros store st Hfuel; [lia|].
  cbn [fetchRoom]. destruct (store (queries st)).
  - eexists _, _. split; [reflexivity|]. cbn [queries slept].
    replace (S (queries st) - queries st - 1)%nat with 0%nat by lia.
    cbn [seq map]. rewrite app_nil_r. repeat split; lia.
  - destruct (retryCount st <? maxRetries)%nat eqn:E.
    + apply Nat.ltb_lt in E.
      destruct (IH store
                  (mkFetching (S (retryCount st)) (room_state st) (error_state st)
                     (slept st ++ [1000 * Z.of_nat (S (retryCount st))])
                     (S (queries st))))
        as (res & st' & Hrun & Hlt & Hle & Hslept);
        [cbn [retryCount]; lia|].
      cbn [queries retryCount slept] in *.
      exists res, st'. split; [exact Hrun|]. repeat split; try lia.
      rewrite Hslept, <- app_assoc. f_equal.
      replace (queries st' - queries st - 1)%nat
        with (S (queries st' - S (queries st) - 1)) by lia.
      reflexivity.
    + eexists _, _. split; [reflexivity|]. cbn [queries slept].
      replace (S (queries st) - queries st - 1)%nat with 0%nat by lia.
      cbn [seq map]. rewrite app_nil_r. repeat split; lia.
  - eexists _, _. split; [reflexivity|]. cbn [queries slept].
    replace (S (queries st) - queries st - 1)%nat with 0%nat by lia.
    cbn [seq map]. rewrite app_nil_r. repeat split; lia.
Qed.

Lemma fetchRoom_unreachable_store fuel : forall store st,
  (forall k, store k = FetchError) ->
  (maxRetries - retryCount st < fuel)%nat ->
  fetchRoom fuel store st
  = Some (None,
          mkFetching (Nat.max (retryCount st) maxRetries) (room_state st)
            (Some "Room not found")
            (slept st
             ++ map (fun k => 1000 * Z.of_nat k)
                    (seq (S (retryCount st)) (maxRetries - retryCount st)))
            (queries st + (maxRetries - retryCount st) + 1)).
Proof.
  induction fuel as [|fuel IH]; intros store st Hstore Hfuel; [lia|].
  cbn [fetchRoom]. rewrite Hstore.
  destruct (retryCount st <? maxRetries)%nat eqn:E.
  - apply Nat.ltb_lt in E. rewrite IH by (auto; cbn [retryCount]; lia).
    cbn [retryCount room_state slept queries]. do 3 f_equal.
    + lia.
    + rewrite <- app_assoc. f_equal.
      replace (maxRetries - retryCount st)%nat
        with (S (maxRetries - S (retryCount st))) by lia.
      reflexivity.
    + lia.
  - apply Nat.ltb_ge in E.
    replace (maxRetries - retryCount st)%nat with 0%nat by lia.
    cbn [seq map]. rewrite app_nil_r. do 3 f_equal; lia.
Qed.

(** X16.  [fetchRoom] always comes to an end within its three retries: one call
    sends at least one and at most four queries, fewer when earlier failures
    have used up retries, and before its k-th retry it sleeps k seconds (a
    linear back-off).  A query that succeeds sets the room and resets the
    retry count.  When the store keeps failing the call ends with "Room not
    found" and the retry count stays at three, so that every later call sends
    a single query and gives up at once until a query succeeds. *)
Theorem fetchRoom_retries store st :
  (exists res st',
      fetchRoom (S maxRetries) store st = Some (res, st')
      /\ (1 <= queries st' - queries st <= maxRetries - retryCount st + 1)%nat
      /\ slept st'
         = slept st
           ++ map (fun k => 1000 * Z.of_nat k)
                  (seq (S (retryCount st)) (queries st' - queries st - 1)))
  /\ (forall data,
        store (queries st) = Data data ->
        fetchRoom (S maxRetries) store st
        = Some (Some data,
                mkFetching 0 (Some data) (error_state st) (slept st)
                  (S (queries st))))
  /\ ((forall k, store k = FetchError) ->
      forall st1,
        fetchRoom (S maxRetries) store st = Some (None, st1) ->
        error_state st1 = Some "Room not found"
        /\ (maxRetries <= retryCount st1)%nat
        /\ fetchRoom (S maxRetries) store st1
           = Some (None,
                   mkFetching (retryCount st1) (room_state st1)
                     (Some "Room not found") (slept st1) (S (queries st1)))).
Proof.
  split; [|split].
  - destruct (fetchRoom_bounded (S maxRetries) store st) as (res & st' & H1 & H2 & H3 & H4);
      [lia|].
    exists res, st'. repeat split; auto; lia.
  - intros data Hdata. cbn [fetchRoom]. now rewrite Hdata.
  - intros Hstore st1 Hrun.
    rewrite fetchRoom_unreachable_store in Hrun by (auto; lia).
    injection Hrun as <-. cbn [error_state retryCount room_state slept queries].
    split; [reflexivity|]. split; [lia|].
    rewrite fetchRoom_unreachable_store by (auto; cbn [retryCount]; lia).
    cbn [retryCount room_state slept queries].
    replace (maxRetries - Nat.max (retryCount st) maxRetries)%nat with 0%nat by lia.
    cbn [seq map]. rewrite app_nil_r. do 3 f_equal; lia.
Qed.

(** ** The device id *)

(** X17.  From a fresh closure [getDeviceId] returns a non-empty id and stores
    it; every later call of the closure returns it without touching the
    store; a closure created later over the same store returns it as well;
    and an id already in the store is the one returned. *)
Theorem device_id_is_stable date1 random1 date2 random2 m :
  cachedId m = None ->
  let id1 := fst (getDeviceId date1 random1 m) in
  let m1 := snd (getDeviceId date1 random1 m) in
  truthy id1 = true
  /\ hackmate_device_id m1 = id1
  /\ getDeviceId date2 random2 m1 = (id1, m1)
  /\ getDeviceId date2 random2 (mkDevice None (hackmate_device_id m1))
     = (id1, m1)
  /\ (truthy (hackmate_device_id m) = true -> id1 = hackmate_device_id m).
Proof.
  intros Hfresh. destruct m as [c h]. cbn [cachedId] in Hfresh. subst c.
  assert (Hcall : forall d r,
            getDeviceId d r (mkDevice None h)
            = if truthy h then (h, mkDevice h h)
              else (Some ("device_" ++ d ++ "_" ++ r)%string,
                    mkDevice (Some ("device_" ++ d ++ "_" ++ r)%string)
                             (Some ("device_" ++ d ++ "_" ++ r)%string)))
    by reflexivity.
  assert (Hcached : forall d r v,
            truthy v = true ->
            getDeviceId d r (mkDevice v v) = (v, mkDevice v v)).
  { intros d r v Hv. unfold getDeviceId. cbn [cachedId]. now rewrite Hv. }
  rewrite Hcall. cbn [hackmate_device_id].
  destruct (truthy h) eqn:E; cbn [fst snd hackmate_device_id].
  - repeat split; auto; try (now rewrite Hcall, E).
  - assert (Hnew : truthy (Some ("device_" ++ date1 ++ "_" ++ random1)%string)
                   = true) by reflexivity.
    split; [exact Hnew|]. split; [reflexivity|].
    split; [now apply Hcached|]. split; [|discriminate].
    assert (Hreload : forall v,
              truthy v = true ->
              getDeviceId date2 random2 (mkDevice None v) = (v, mkDevice v v)).
    { intros v Hv. unfold getDeviceId. cbn [cachedId hackmate_device_id].
      change (truthy None) with false. cbv iota. now rewrite Hv. }
    now apply Hreload.
Qed.

Lemma device_id_is_stable_witness :
  getDeviceId "1700000000001" "zzzzzzzzz"
    (snd (getDeviceId "1700000000000" "k3j9x0q1a" (mkDevice None None)))
  = (Some "device_1700000000000_k3j9x0q1a",
     mkDevice (Some "device_1700000000000_k3j9x0q1a")
              (Some "device_1700000000000_k3j9x0q1a")).
Proof.
  exact (proj1 (proj2 (proj2
           (device_id_is_stable "1700000000000" "k3j9x0q1a"
              "1700000000001" "zzzzzzzzz" (mkDevice None None) eq_refl)))).
Defined.

(** ** The client's call of [join_room] *)

(** What a [join_room] call that returns can have done. *)
Lemma join_room_cases now room user device code s j s1 :
  join_room now room user device code s = Returned (j, s1) ->
  (jsonb_get "success" j = Some (jbool false) /\ s1 = s
   /\ json_truthy (jsonb_get "error" j) = true)
  \/ (j = Rejoined /\ s1 = rejoined_ledger now room user device s
      /\ existsb (participant_is room user) (t_room_participants s) = true)
  \/ (j = Joined /\ s1 = joined_ledger now room user device s
      /\ existsb (participant_is room user) (t_room_participants s) = false).
Proof.
  unfold join_room.
  destruct (find (room_is room) (t_rooms s)) as [v|].
  2:{ intros [= <- <-]. left. repeat split; reflexivity. }
  destruct (negb (rooms.status v =? "active")%string).
  { intros [= <- <-]. left. repeat split; reflexivity. }
  destruct (existsb (participant_is room user) (t_room_participants s)) eqn:Ex.
  - destruct (UPDATE_rooms _ _ _) as [rs|e] eqn:Eu; cbn [bind]; [|discriminate].
    intros [= <- <-]. right. left.
    apply UPDATE_rooms_Returned in Eu. destruct Eu as [-> _].
    repeat split; reflexivity.
  - destruct (rooms.is_private v && _ && _).
    { intros [= <- <-]. left. repeat split; reflexivity. }
    destruct (rooms.max_participants v <=? rooms.current_user_count v).
    { intros [= <- <-]. left. repeat split; reflexivity. }
    rewrite (INSERT_room_participants_new _ _ _ _ _ Ex). cbn [bind].
    destruct (UPDATE_rooms _ _ _) as [rs|e] eqn:Eu; cbn [bind]; [|discriminate].
    intros [= <- <-]. right. right.
    apply UPDATE_rooms_Returned in Eu. destruct Eu as [-> _].
    repeat split; reflexivity.
Qed.

(** A rejoin leaves the caller with an active row. *)
Lemma rejoined_has_active_row now room user device s :
  existsb (participant_is room user) (t_room_participants s) = true ->
  has_active_row room user (rejoined_ledger now room user device s) = true.
Proof.
  unfold has_active_row, rejoined_ledger. cbn [t_room_participants].
  unfold UPDATE_room_participants.
  induction (t_room_participants s) as [|p t IH]; cbn [existsb map]; [discriminate|].
  destruct (participant_is room user p) eqn:Ep; cbn [orb].
  - intros _. unfold participant_is in *. cbn. rewrite Ep. reflexivity.
  - intros H. rewrite Ep. cbn [andb orb]. now apply IH.
Qed.

(** A first join leaves the caller with an active row. *)
Lemma joined_has_active_row now room user device s :
  has_active_row room user (joined_ledger now room user device s) = true.
Proof.
  unfold has_active_row, joined_ledger. cbn [t_room_participants].
  rewrite existsb_app. apply Bool.orb_true_iff. right.
  unfold participant_is. cbn. now rewrite !String.eqb_refl.
Qed.

(** X18.  [joinRoom] of a signed-in user on a room page reports success
    exactly when [join_room] returned a success object.  Then the user has
    an active row in the room and the hook remembers the join; otherwise the
    ledger and the hook's flag are as before and an error is reported.  An
    empty join code is sent as NULL. *)
Theorem joinRoom_reports_the_coordinator message_of now s user room deviceId
    joinCode isJoinedRef :
  room <> "" ->
  let p_join_code := if truthy joinCode then joinCode else None in
  let '(result, isJoined, s') :=
    joinRoom (Some user) (Some room) deviceId joinCode isJoinedRef
             (rpc_join_room message_of now s) s in
  (success result = true <->
   exists j s1,
     join_room now room user (Some deviceId) p_join_code s = Returned (j, s1)
     /\ jsonb_get "success" j = Some (jbool true))
  /\ (success result = true ->
      isJoined = true /\ error result = None
      /\ has_active_row room user s' = true
      /\ join_room now room user (Some deviceId) p_join_code s
         = Returned ((if json_truthy (alreadyMember result)
                      then Rejoined else Joined), s'))
  /\ (success result = false ->
      isJoined = isJoinedRef /\ s' = s /\ error result <> None)
  /\ joinRoom (Some user) (Some room) deviceId (Some "") isJoinedRef
              (rpc_join_room message_of now s) s
     = joinRoom (Some user) (Some room) deviceId None isJoinedRef
                (rpc_join_room message_of now s) s.
Proof.
  intros Hroom p_join_code. unfold joinRoom.
  apply String.eqb_neq in Hroom. rewrite Hroom.
  fold p_join_code. unfold rpc_join_room.
  destruct (join_room now room user (Some deviceId) p_join_code s)
    as [[j s1]|e] eqn:E.
  - destruct (join_room_cases _ _ _ _ _ _ _ _ E)
      as [(Hs & -> & He)|[(-> & -> & Hx)|(-> & -> & Hx)]].
    + rewrite Hs. cbn [json_truthy negb success error alreadyMember].
      repeat split; try discriminate; try reflexivity.
      * intros (j' & s' & [= <- <-] & Hj). congruence.
      * rewrite He. destruct (jsonb_get "error" j); [discriminate|].
        discriminate He.
    + cbn [Rejoined jsonb_get String.eqb Ascii.eqb Bool.eqb json_truthy negb
           success error alreadyMember].
      repeat split; try discriminate; try reflexivity.
      * intros _. exists Rejoined. eexists. split; reflexivity.
      * now apply rejoined_has_active_row.
    + cbn [Joined jsonb_get String.eqb Ascii.eqb Bool.eqb json_truthy negb
           success error alreadyMember].
      repeat split; try discriminate; try reflexivity.
      * intros _. exists Joined. eexists. split; reflexivity.
      * apply joined_has_active_row.
  - cbn [success error alreadyMember].
    repeat split; try discriminate; try reflexivity.
    intros (j' & s' & [=] & _).
Qed.

Lemma joinRoom_reports_the_coordinator_witness :
  exists j s1,
    join_room 1 "R" "A" (Some "device") None (one_room 5) = Returned (j, s1)
    /\ jsonb_get "success" j = Some (jbool true).
Proof.
  refine (proj1 (proj1 (joinRoom_reports_the_coordinator (fun _ => "error") 1
                          (one_room 5) "A" "R" "device" None false _)) _).
  - discriminate.
  - reflexivity.
Defined.

(** ** Creating a room *)

(** The row [createRoom] sends through the trigger. *)
Lemma set_room_join_code_keeps_text RANDOM c :
  set_room_join_code RANDOM (Some c) = c.
Proof. reflexivity. Qed.

Lemma existsb_none {A} (f : A -> bool) l :
  (forall x, In x l -> f x = false) -> existsb f l = false.
Proof.
  intros H. destruct (existsb f l) eqn:E; [|reflexivity].
  apply existsb_exists in E. destruct E as (x & Hx & Hf).
  rewrite (H x Hx) in Hf. discriminate.
Qed.

Lemma map_untouched {A} (c : A -> bool) (f : A -> A) l :
  (forall x, In x l -> c x = false) ->
  map (fun x => if c x then f x else x) l = l.
Proof.
  intros H. induction l as [|x l IH]; [reflexivity|].
  cbn [map]. rewrite (H x (or_introl eq_refl)). f_equal.
  apply IH. intros y Hy. apply H. now right.
Qed.

(** What [createRoom] does in a ledger where the new id is unused and no
    room holds the empty join code. *)
Lemma createRoom_fresh message_of RANDOM new_id created_at0 updated_at0 now
    user deviceId name theme description s :
  (forall r, In r (t_rooms s) -> rooms.id r <> new_id) ->
  (forall p, In p (t_room_participants s) ->
             room_participants.room_id p <> new_id) ->
  (forall r, In r (t_rooms s) -> rooms.join_code r <> "") ->
  createRoom message_of RANDOM new_id created_at0 updated_at0 now
             (Some user) deviceId name theme description s
  = (mkCreateResult true None (Some new_id) (Some ""),
     mkdb (t_rooms s
           ++ [rooms.mk new_id name theme description created_at0 user 5 1
                 "active" "" true now])
          (t_room_participants s
           ++ [new_participant now new_id user (Some deviceId)])).
Proof.
  intros Hid Hrows Hcode. unfold createRoom.
  rewrite set_room_join_code_keeps_text.
  set (NEW := rooms.mk new_id name theme description created_at0 user 5 0
                "active" "" true updated_at0).
  assert (Hfind0 : find (room_is new_id) (t_rooms s) = None).
  { destruct (find _ _) as [r|] eqn:E; [|reflexivity].
    apply find_some in E. destruct E as [Hin Hr].
    apply room_is_eq in Hr. now apply Hid in Hin. }
  assert (Hins : INSERT_rooms NEW (t_rooms s) = Returned (t_rooms s ++ [NEW])).
  { unfold INSERT_rooms.
    replace (rooms.check NEW) with true by reflexivity. cbn [negb].
    rewrite existsb_none.
    2:{ intros r Hr. apply String.eqb_neq. now apply Hid. }
    rewrite existsb_none; [reflexivity|].
    intros r Hr. apply String.eqb_neq. now apply Hcode. }
  rewrite Hins. unfold join_room. cbn [t_rooms t_room_participants].
  assert (Hself : room_is new_id NEW = true) by (apply room_is_eq; reflexivity).
  assert (Hfind : find (room_is new_id) (t_rooms s ++ [NEW]) = Some NEW).
  { clear Hins. induction (t_rooms s) as [|r rs IH]; cbn [app find].
    - now rewrite Hself.
    - cbn [find] in Hfind0. destruct (room_is new_id r); [discriminate|].
      apply IH; [| |assumption]; intros q Hq; [apply Hid|apply Hcode]; now right. }
  rewrite Hfind.
  replace (rooms.status NEW) with "active" by reflexivity.
  cbn [String.eqb Ascii.eqb Bool.eqb negb].
  assert (Hnone : existsb (participant_is new_id user) (t_room_participants s)
                  = false).
  { apply existsb_none. intros p Hp. unfold participant_is.
    apply Hrows in Hp. apply String.eqb_neq in Hp. now rewrite Hp. }
  rewrite Hnone.
  replace (rooms.created_by NEW) with user by reflexivity.
  rewrite String.eqb_refl. cbn [negb andb].
  replace (rooms.is_private NEW && false) with false
    by (now rewrite Bool.andb_false_r).
  cbn [andb].
  replace (rooms.max_participants NEW <=? rooms.current_user_count NEW)
    with false by reflexivity.
  rewrite (INSERT_room_participants_new _ _ _ _ _ Hnone). cbn [bind].
  rewrite UPDATE_rooms_commits.
  2:{ intros r Hr Hc. apply in_app_or in Hr. destruct Hr as [Hr|[<-|[]]].
      - apply room_is_eq in Hc. now apply Hid in Hr.
      - reflexivity. }
  cbn [bind]. rewrite map_app. cbn [map]. rewrite Hself.
  rewrite map_untouched.
  2:{ intros r Hr. destruct (room_is new_id r) eqn:E; [|reflexivity].
      apply room_is_eq in E. now apply Hid in Hr. }
  reflexivity.
Qed.


Lemma filter_none {A} (f : A -> bool) l :
  (forall x, In x l -> f x = false) -> filter f l = [].
Proof.
  intros H. induction l as [|x l IH]; [reflexivity|].
  cbn [filter]. rewrite (H x (or_introl eq_refl)).
  apply IH. intros y Hy. apply H. now right.
Qed.

Lemma COUNT_active_other_room r t :
  (forall p, In p t -> room_participants.room_id p <> r) ->
  COUNT_active r t = 0.
Proof.
  intros H. induction t as [|p t IH]; [reflexivity|].
  rewrite COUNT_active_cons, IH by (intros q Hq; apply H; now right).
  pose proof (H p (or_introl eq_refl)) as Hp. apply String.eqb_neq in Hp.
  now rewrite Hp.
Qed.

(** X19.  In a consistent ledger where the new id is unused and no room
    holds the empty join code, [createRoom] succeeds: the room is stored
    active, private, with capacity 5 and with the empty text as its join
    code, which is also the code reported to the caller; the creator is its
    only participant, active, and its counter is 1; the rows that were there
    are as before and the ledger is consistent again. *)
Theorem createRoom_creator_is_sole_member message_of RANDOM new_id created_at0
    updated_at0 now user deviceId name theme description s :
  consistent s ->
  (forall r, In r (t_rooms s) -> rooms.id r <> new_id) ->
  (forall p, In p (t_room_participants s) ->
             room_participants.room_id p <> new_id) ->
  (forall r, In r (t_rooms s) -> rooms.join_code r <> "") ->
  let '(result, s') :=
    createRoom message_of RANDOM new_id created_at0 updated_at0 now
               (Some user) deviceId name theme description s in
  result = mkCreateResult true None (Some new_id) (Some "")
  /\ rows_of_room new_id s'
     = [rooms.mk new_id name theme description created_at0 user 5 1
          "active" "" true now]
  /\ participants_of_room new_id s'
     = [new_participant now new_id user (Some deviceId)]
  /\ (exists r p, t_rooms s' = t_rooms s ++ [r]
                  /\ t_room_participants s' = t_room_participants s ++ [p])
  /\ consistent s'.
Proof.
  intros (Hc & Hu & Ho) Hid Hrows Hcode.
  rewrite (createRoom_fresh _ _ _ _ _ _ _ _ _ _ _ _ Hid Hrows Hcode).
  split; [reflexivity|].
  assert (Hfr : filter (room_is new_id) (t_rooms s) = []).
  { apply filter_none. intros r Hr.
    destruct (room_is new_id r) eqn:E; [|reflexivity].
    apply room_is_eq in E. now apply Hid in Hr. }
  assert (Hfp : filter (fun p => String.eqb (room_participants.room_id p) new_id)
                       (t_room_participants s) = []).
  { apply filter_none. intros p Hp.
    apply Hrows in Hp. now apply String.eqb_neq in Hp. }
  split; [|split; [|split; [|split; [|split]]]].
  - unfold rows_of_room. cbn [t_rooms]. rewrite filter_app, Hfr.
    cbn [filter app]. unfold room_is. cbn. now rewrite String.eqb_refl.
  - unfold participants_of_room. cbn [t_room_participants].
    rewrite filter_app, Hfp. cbn [filter app]. cbn. now rewrite String.eqb_refl.
  - do 2 eexists. split; reflexivity.
  - unfold rooms_checked. cbn [t_rooms]. apply Forall_app. split; [exact Hc|].
    constructor; [reflexivity|constructor].
  - unfold participants_unique. cbn [t_room_participants].
    rewrite map_app. cbn [map]. apply NoDup_app.
    + exact Hu.
    + constructor; [intros []|constructor].
    + intros k Hk [<-|[]]. apply in_map_iff in Hk.
      destruct Hk as (p & Hkey & Hp). apply Hrows in Hp.
      unfold room_participants.key in Hkey. cbn in Hkey. congruence.
  - unfold occupancy_exact. cbn [t_rooms t_room_participants].
    apply Forall_app. split.
    + unfold occupancy_exact in Ho. rewrite Forall_forall in Ho |- *.
      intros r Hr. rewrite COUNT_active_app, (Ho r Hr).
      rewrite (COUNT_active_cons (rooms.id r) _ []), COUNT_active_nil.
      cbn [new_participant room_participants.room_id].
      pose proof (Hid r Hr) as Hne.
      assert (Hneq : (new_id =? rooms.id r)%string = false)
        by (apply String.eqb_neq; congruence).
      rewrite Hneq. cbn [andb]. lia.
    + constructor; [|constructor].
      cbn [rooms.current_user_count rooms.id].
      rewrite COUNT_active_app, (COUNT_active_other_room _ _ Hrows).
      rewrite COUNT_active_cons, COUNT_active_nil.
      cbn [new_participant room_participants.room_id room_participants.is_active].
      now rewrite String.eqb_refl.
Qed.

Lemma createRoom_creator_is_sole_member_witness :
  rows_of_room "R2"
    (snd (createRoom (fun _ => "duplicate key") sevenths "R2" 10 10 11
            (Some "ann") "device" "Room" "Theme" None two_rooms))
  = [rooms.mk "R2" "Room" "Theme" None 10 "ann" 5 1 "active" "" true 11].
Proof.
  refine (proj1 (proj2
            (createRoom_creator_is_sole_member (fun _ => "duplicate key")
               sevenths "R2" 10 10 11 "ann" "device" "Room" "Theme" None
               two_rooms _ _ _ _))).
  - repeat split.
    + repeat constructor.
    + unfold participants_unique. solve_nodup.
    + repeat constructor.
  - intros r Hr. vm_compute in Hr. intuition (subst; discriminate).
  - intros p Hp. vm_compute in Hp. intuition (subst; discriminate).
  - intros r Hr. vm_compute in Hr. intuition (subst; discriminate).
Defined.






(** ** The pages that lead to a room *)

(** Under the primary key the query by id selects the row [join_room]
    finds. *)
Lemma pkey_single room rs :
  NoDup (map rooms.id rs) ->
  single (filter (room_is room) rs) = find (room_is room) rs.
Proof.
  induction rs as [|r rs IH]; [reflexivity|].
  cbn [map filter find]. intros Hnd. inversion Hnd as [|? ? Hnotin Hnd']; subst.
  destruct (room_is room r) eqn:E; [|now apply IH].
  rewrite filter_none; [reflexivity|].
  intros q Hq. destruct (room_is room q) eqn:Eq; [|reflexivity].
  apply room_is_eq in E. apply room_is_eq in Eq.
  exfalso. apply Hnotin. apply in_map_iff. exists q. split; congruence.
Qed.

(** Under the unique key the membership query selects the caller's row when
    there is one. *)
Lemma unique_single room user ps :
  NoDup (map room_participants.key ps) ->
  single (filter (participant_is room user) ps)
  = find (participant_is room user) ps.
Proof.
  induction ps as [|p ps IH]; [reflexivity|].
  intros Hnd. cbn [filter find].
  destruct (participant_is room user p) eqn:E.
  - rewrite filter_none; [reflexivity|].
    intros q Hq. exact (unique_head_only _ _ _ _ Hnd E q Hq).
  - apply IH. cbn [map] in Hnd. now inversion Hnd.
Qed.

Lemma find_existsb {A} (f : A -> bool) l :
  existsb f l = match find f l with Some _ => true | None => false end.
Proof.
  induction l as [|x l IH]; [reflexivity|].
  cbn [existsb find]. destruct (f x); [reflexivity|exact IH].
Qed.

(** X22.  When every row is visible to the page's queries, a refusal of the
    JoinRoom page is one the coordinator would give too: whenever
    [handleJoin] shows a message instead of navigating, [join_room] on the
    same ledger returns a failure object and writes nothing, whatever the
    device and the join code. *)
Theorem handleJoin_refusals_are_sound s user room title :
  rooms_pkey s -> participants_unique s ->
  handleJoin (Some user) (Some room) true
             (read_room room s) (read_membership room user s) = shows title ->
  forall now device code,
    exists j, join_room now room user device code s = Returned (j, s)
              /\ jsonb_get "success" j = Some (jbool false).
Proof.
  intros Hpk Hu. unfold handleJoin, read_room, read_membership.
  rewrite (pkey_single _ _ Hpk), (unique_single _ _ _ Hu).
  destruct (String.eqb room "" || negb true); [discriminate|].
  intros H now device code. unfold join_room.
  destruct (find (room_is room) (t_rooms s)) as [v|].
  2:{ eexists. split; reflexivity. }
  destruct (negb (rooms.status v =? "active")%string).
  { eexists. split; reflexivity. }
  destruct (rooms.max_participants v <=? rooms.current_user_count v);
    [|discriminate].
  rewrite find_existsb.
  destruct (find (participant_is room user) (t_room_participants s));
    [discriminate|].
  destruct (rooms.is_private v && _ && _); eexists; split; reflexivity.
Qed.

Lemma handleJoin_refusals_are_sound_witness :
  exists j, join_room 9 "R" "F" (Some "phone") (Some "ABCDEF") full_room
            = Returned (j, full_room)
            /\ jsonb_get "success" j = Some (jbool false).
Proof.
  refine (handleJoin_refusals_are_sound full_room "F" "R" "Room full" _ _ _
            9 (Some "phone") (Some "ABCDEF")).
  - unfold rooms_pkey. vm_compute. repeat constructor. intros [].
  - unfold participants_unique. solve_nodup.
  - reflexivity.
Defined.

(** X23.  The two pages disagree on a returning member of a full room: the
    dashboard's [handleJoinByCode] turns them away with "Room full", while
    the JoinRoom page navigates to the room, where [join_room] takes them
    back whenever the room's active rows after the call are at most five. *)
Theorem dashboard_turns_members_away s user room v :
  rooms_pkey s -> participants_unique s ->
  room <> "" ->
  find (room_is room) (t_rooms s) = Some v ->
  rooms.status v = "active" ->
  rooms.max_participants v <= rooms.current_user_count v ->
  existsb (participant_is room user) (t_room_participants s) = true ->
  handleJoinByCode room (read_room room s) = shows "Room full"
  /\ handleJoin (Some user) (Some room) true
                (read_room room s) (read_membership room user s)
     = navigates room
  /\ forall now device code,
       COUNT_active room
         (t_room_participants (rejoined_ledger now room user device s)) <= 5 ->
       join_room now room user device code s
       = Returned (Rejoined, rejoined_ledger now room user device s).
Proof.
  intros Hpk Hu Hroom Hfind Hst Hfull Hex.
  unfold handleJoinByCode, handleJoin, read_room, read_membership.
  rewrite (pkey_single _ _ Hpk), (unique_single _ _ _ Hu), Hfind, Hst.
  apply String.eqb_neq in Hroom. rewrite Hroom.
  apply Z.leb_le in Hfull. rewrite Hfull.
  rewrite find_existsb in Hex.
  destruct (find (participant_is room user) (t_room_participants s)) eqn:Ef;
    [|discriminate].
  split; [reflexivity|]. split; [reflexivity|].
  intros now device code Hcount.
  apply (rejoin_commits now room user device code s v); try assumption.
  rewrite find_existsb, Ef. reflexivity.
Qed.

Lemma dashboard_turns_members_away_witness :
  handleJoinByCode "R" (read_room "R" full_room) = shows "Room full"
  /\ handleJoin (Some "A") (Some "R") true
                (read_room "R" full_room) (read_membership "R" "A" full_room)
     = navigates "R"
  /\ join_room 9 "R" "A" (Some "phone") None full_room
     = Returned (Rejoined, rejoined_ledger 9 "R" "A" (Some "phone") full_room).
Proof.
  destruct (dashboard_turns_members_away full_room "A" "R"
              (rooms.mk "R" "room" "theme" None 0 "host" 5 5 "active"
                 "ABCDEF" false 5)) as (H1 & H2 & H3).
  - unfold rooms_pkey. vm_compute. repeat constructor. intros [].
  - unfold participants_unique. solve_nodup.
  - discriminate.
  - reflexivity.
  - reflexivity.
  - vm_compute. discriminate.
  - reflexivity.
  - split; [exact H1|]. split; [exact H2|].
    apply H3. vm_compute. discriminate.
Defined.

(** ** The multi-device warning of the Room page *)

(** The caller's rows among the participants the hook fetched. *)
Lemma own_active_rows room user s :
  filter (fun p => String.eqb (room_participants.user_id p) user)
         (fetchParticipants room s)
  = filter (fun p => Bool.eqb (room_participants.is_active p) true)
           (filter (participant_is room user) (t_room_participants s)).
Proof.
  unfold fetchParticipants, participant_is.
  induction (t_room_participants s) as [|p t IH]; [reflexivity|].
  cbn [filter].
  destruct (String.eqb (room_participants.room_id p) room);
    destruct (Bool.eqb (room_participants.is_active p) true) eqn:Ea;
    destruct (String.eqb (room_participants.user_id p) user) eqn:Eu;
    cbn [andb filter]; rewrite ?Ea, ?Eu; rewrite IH; reflexivity.
Qed.

Lemma unique_filter room user ps :
  NoDup (map room_participants.key ps) ->
  existsb (participant_is room user) ps = true ->
  exists p0, filter (participant_is room user) ps = [p0].
Proof.
  induction ps as [|p ps IH]; [discriminate|].
  intros Hnd. cbn [existsb filter].
  destruct (participant_is room user p) eqn:E; cbn [orb].
  - intros _. exists p. rewrite filter_none; [reflexivity|].
    intros q Hq. exact (unique_head_only _ _ _ _ Hnd E q Hq).
  - apply IH. cbn [map] in Hnd. now inversion Hnd.
Qed.

Lemma filter_reactivated now room user device ps :
  filter (participant_is room user)
         (UPDATE_room_participants (participant_is room user)
            (reactivate now device) ps)
  = map (reactivate now device) (filter (participant_is room user) ps).
Proof.
  unfold UPDATE_room_participants.
  induction ps as [|p ps IH]; [reflexivity|].
  cbn [map filter]. destruct (participant_is room user p) eqn:E.
  - replace (participant_is room user (reactivate now device p)) with true
      by (symmetry; exact E).
    cbn [map]. now rewrite IH.
  - rewrite E. exact IH.
Qed.

(** X24.  After a successful [join_room] from a device, the Room page of a
    browser warns of several devices exactly when the id it has stored
    differs from that device's: the unique key leaves the user one row in
    the room, and the join writes the joining device into it.  So the
    warning is off in the browser that joined last and on in every other
    browser of the user. *)
Theorem multi_device_warning_follows_last_join now room user d code s j s'
    stored warning :
  participants_unique s ->
  join_room now room user (Some d) code s = Returned (j, s') ->
  jsonb_get "success" j = Some (jbool true) ->
  multiDeviceWarning (Some user) (fetchParticipants room s') stored warning
  = differs (Some d) stored.
Proof.
  intros Hu E Hs.
  assert (Hown : filter (fun p => String.eqb (room_participants.user_id p) user)
                        (fetchParticipants room s')
                 = [room_participants.mk room user
                      (room_participants.joined_at
                         (hd (new_participant now room user (Some d))
                             (filter (participant_is room user)
                                     (t_room_participants s'))))
                      (Some d) true now
                      (room_participants.room_role
                         (hd (new_participant now room user (Some d))
                             (filter (participant_is room user)
                                     (t_room_participants s'))))]).
  { rewrite own_active_rows.
    destruct (join_room_cases _ _ _ _ _ _ _ _ E)
      as [(Hf & _)|[(_ & -> & Hx)|(_ & -> & Hx)]]; [congruence| |].
    - unfold rejoined_ledger. cbn [t_room_participants].
      rewrite filter_reactivated.
      destruct (unique_filter _ _ _ Hu Hx) as (p0 & Hp0). rewrite Hp0.
      assert (Hin : In p0 (filter (participant_is room user)
                                  (t_room_participants s)))
        by (rewrite Hp0; now left).
      apply filter_In in Hin. destruct Hin as [_ Hk].
      unfold participant_is in Hk. apply Bool.andb_true_iff in Hk.
      destruct Hk as [Hr Hk]. apply String.eqb_eq in Hr, Hk.
      cbn [map hd filter reactivate COALESCE room_participants.is_active
           room_participants.joined_at room_participants.room_role Bool.eqb].
      unfold reactivate. cbn [COALESCE]. rewrite Hr, Hk. reflexivity.
    - unfold joined_ledger. cbn [t_room_participants].
      rewrite filter_app,
        (filter_none (participant_is room user) (t_room_participants s)).
      2:{ intros p Hp. destruct (participant_is room user p) eqn:Ep;
            [|reflexivity].
          rewrite <- Hx. symmetry. apply existsb_exists. now exists p. }
      cbn [app filter]. unfold participant_is at 1 2 3.
      cbn [new_participant room_participants.room_id room_participants.user_id].
      rewrite !String.eqb_refl. reflexivity. }
  unfold multiDeviceWarning. rewrite Hown.
  destruct (fetchParticipants room s') as [|q qs]; [discriminate Hown|].
  reflexivity.
Qed.

Lemma multi_device_warning_follows_last_join_witness :
  multiDeviceWarning (Some "A")
    (fetchParticipants "R"
       (rejoined_ledger 9 "R" "A" (Some "phone") two_rooms))
    (Some "device") false
  = true.
Proof.
  refine (multi_device_warning_follows_last_join 9 "R" "A" "phone" None
            two_rooms Rejoined
            (rejoined_ledger 9 "R" "A" (Some "phone") two_rooms)
            (Some "device") false _ _ _).
  - unfold participants_unique. solve_nodup.
  - reflexivity.
  - reflexivity.
Defined.

(** ** Room roles of the rows the coordinator writes *)

Lemma UPDATE_room_participants_members cond upd t :
  (forall p, room_participants.room_role (upd p) = room_participants.room_role p) ->
  Forall (fun p => room_participants.room_role p = RoomRole.member) t ->
  Forall (fun p => room_participants.room_role p = RoomRole.member)
         (UPDATE_room_participants cond upd t).
Proof.
  intros Hupd H. unfold UPDATE_room_participants.
  induction H as [|p t Hp Ht IH]; cbn [map]; constructor; [|exact IH].
  destruct (cond p); [rewrite Hupd|]; exact Hp.
Qed.

Lemma step_all_members s o : all_members s -> all_members (step s o).
Proof.
  unfold all_members. intros H. destruct o; cbn [step].
  - unfold join_room. destruct (find _ _); [|exact H].
    destruct (negb _); [exact H|]. destruct (existsb _ _) eqn:Hex.
    + unfold bind. destruct (UPDATE_rooms _ _ _); [|exact H].
      cbn [commit t_room_participants].
      now apply UPDATE_room_participants_members.
    + destruct (_ && _ && _); [exact H|]. destruct (_ <=? _); [exact H|].
      rewrite INSERT_room_participants_new by exact Hex. unfold bind.
      destruct (UPDATE_rooms _ _ _); [|exact H].
      cbn [commit t_room_participants]. apply Forall_app. split; [exact H|].
      constructor; [reflexivity|constructor].
  - unfold leave_room. destruct (negb _); [exact H|].
    unfold bind. destruct (UPDATE_rooms _ _ _); [|exact H].
    cbn [commit t_room_participants].
    now apply UPDATE_room_participants_members.
  - rewrite room_heartbeat_outcome.
    destruct (has_active_row _ _ _);
      cbn [commit heartbeat_ledger t_room_participants];
      now apply UPDATE_room_participants_members.
  - rewrite cleanup_outcome. unfold bind.
    destruct (UPDATE_rooms _ _ _); [|exact H].
    cbn [commit swept_ledger t_room_participants].
    now apply UPDATE_room_participants_members.
  - unfold regenerate_join_code. destruct (find _ _); [|exact H].
    destruct (negb _); [exact H|]. destruct (existsb _ _); [exact H|].
    unfold bind. destruct (UPDATE_rooms _ _ _); exact H.
Qed.

(** X25.  The coordinator never writes a room role: whatever calls are made
    on a ledger whose participant rows are all ['member'] rows (an empty
    table, for one), every row is a ['member'] row afterwards.  The room
    roles ['organizer'] and ['judge'] are never stored by these functions. *)
Theorem coordinator_rows_are_members ops s :
  all_members s -> all_members (run ops s).
Proof.
  revert s. unfold run. induction ops as [|o ops IH]; intros s H; [exact H|].
  cbn [fold_left]. apply IH. now apply step_all_members.
Qed.

Lemma coordinator_rows_are_members_witness :
  all_members
    (run [joins 1 "A"; Leave 2 "R" "A"; joins 3 "A"; Sweep 200000000]
         (one_room 5)).
Proof.
  apply (coordinator_rows_are_members
           [joins 1 "A"; Leave 2 "R" "A"; joins 3 "A"; Sweep 200000000]
           (one_room 5)).
  constructor.
Defined.





(** ** Organizer comments *)

Lemma filter_all {A} (f : A -> bool) l :
  (forall x, In x l -> f x = true) -> filter f l = l.
Proof.
  intros H. induction l as [|x l IH]; [reflexivity|].
  cbn [filter]. rewrite (H x (or_introl eq_refl)). f_equal.
  apply IH. intros y Hy. apply H. now right.
Qed.

Lemma is_uid_iff auth_uid user_id :
  is_uid auth_uid user_id = true <-> auth_uid = Some user_id.
Proof.
  destruct auth_uid as [u|]; cbn [is_uid].
  - rewrite String.eqb_eq. split; congruence.
  - split; discriminate.
Qed.

(** X27.  [handleDelete] removes a comment only for its author, and only
    while the author holds the organizer role: the rows left are those of the
    table except the rows with the given id that the caller wrote as an
    organizer.  For anybody else the statement removes nothing, and the
    handler shows no error either way. *)
Theorem comments_are_deleted_only_by_their_author user commentId roles t :
  let '(t', toast) := handleDelete user commentId roles t in
  toast = None
  /\ (forall r, In r t' <->
                In r t /\ ~ (organizer_comments.id r = commentId
                             /\ has_role user AppRole.organizer roles = true
                             /\ user = Some (organizer_comments.user_id r)))
  /\ (has_role user AppRole.organizer roles = false -> t' = t)
  /\ (forall r, In r t -> user <> Some (organizer_comments.user_id r) ->
                In r t').
Proof.
  cbn [handleDelete]. split; [reflexivity|].
  assert (Hin : forall r,
            In r (delete_comment user roles commentId t) <->
            In r t /\ ~ (organizer_comments.id r = commentId
                         /\ has_role user AppRole.organizer roles = true
                         /\ user = Some (organizer_comments.user_id r))).
  { intros r. unfold delete_comment. rewrite filter_In.
    rewrite Bool.negb_true_iff, Bool.andb_false_iff, Bool.andb_false_iff.
    rewrite <- String.eqb_eq, <- is_uid_iff.
    destruct (String.eqb (organizer_comments.id r) commentId);
      destruct (has_role user AppRole.organizer roles);
      destruct (is_uid user (organizer_comments.user_id r));
      intuition congruence. }
  split; [exact Hin|]. split.
  - intros Hno. unfold delete_comment. rewrite Hno.
    apply filter_all. intros r _. cbn [andb].
    now rewrite Bool.andb_false_r.
  - intros r Hr Hne. apply Hin. split; [exact Hr|]. tauto.
Qed.

(** X28.  A comment an organizer submits is stored under their own id, and
    they can take it back: [handleSubmit] appends the row and reports
    "Comment added", [handleDelete] by the same user with the new id leaves
    the table as it was, and the same call by any other user, organizer or
    not, leaves the comment in place. *)
Theorem comment_submit_then_delete user trimmed roomId new_id now roles t :
  trimmed <> "" ->
  has_role (Some user) AppRole.organizer roles = true ->
  (forall r, In r t -> organizer_comments.id r <> new_id) ->
  let row := organizer_comments.mk new_id roomId user trimmed now in
  handleSubmit (Some user) (isOrganizer (useRoles (Some user) roles)) trimmed
               roomId new_id now roles t
  = (t ++ [row], Some "Comment added")
  /\ handleDelete (Some user) new_id roles (t ++ [row]) = (t, None)
  /\ forall other, other <> user ->
       handleDelete (Some other) new_id roles (t ++ [row]) = (t ++ [row], None).
Proof.
  intros Htrim Horg Hfresh row.
  assert (Hkeep : forall who,
            filter (fun r => negb (String.eqb (organizer_comments.id r) new_id
                                   && (has_role who AppRole.organizer roles
                                       && is_uid who
                                            (organizer_comments.user_id r))))
                   t = t).
  { intros who. apply filter_all. intros r Hr.
    apply Hfresh in Hr. apply String.eqb_neq in Hr. now rewrite Hr. }
  split; [|split].
  - unfold handleSubmit. apply String.eqb_neq in Htrim. rewrite Htrim.
    cbn [useRoles isOrganizer]. rewrite includes_fetchRoles, Horg.
    cbn [negb orb]. unfold insert_comment. now rewrite Horg.
  - unfold handleDelete, delete_comment. rewrite filter_app, Hkeep.
    cbn [filter row organizer_comments.id organizer_comments.user_id is_uid].
    rewrite Horg, !String.eqb_refl. cbn [andb negb]. now rewrite app_nil_r.
  - intros other Hother. unfold handleDelete, delete_comment.
    rewrite filter_app, Hkeep.
    cbn [filter row organizer_comments.id organizer_comments.user_id is_uid].
    apply String.eqb_neq in Hother. rewrite Hother.
    now rewrite !Bool.andb_false_r.
Qed.

Lemma comment_submit_then_delete_witness :
  handleDelete (Some "boss") "c2" [user_roles.mk "boss" AppRole.organizer 1]
    [organizer_comments.mk "c1" "R" "boss" "Welcome" 2;
     organizer_comments.mk "c2" "R" "boss" "Pitch at five" 3]
  = ([organizer_comments.mk "c1" "R" "boss" "Welcome" 2], None).
Proof.
  refine (proj1 (proj2
            (comment_submit_then_delete "boss" "Pitch at five" "R" "c2" 3
               [user_roles.mk "boss" AppRole.organizer 1]
               [organizer_comments.mk "c1" "R" "boss" "Welcome" 2] _ _ _))).
  - discriminate.
  - reflexivity.
  - intros r [<-|[]]. discriminate.
Defined.

(** ** The debouncer *)

(** What holds of a debouncer whatever has been called and has expired. *)
Lemma debouncer_invariant {A} delay first_handle (events : list (timer_event A)) :
  first_handle <> 0%nat ->
  let d := fold_left (timer_step delay) events (createDebouncer first_handle) in
  next_handle (timers d) <> 0%nat
  /\ (pending (timers d) = []
      \/ exists t, pending (timers d) = [t]
                   /\ timeoutId d = Some (handle t)
                   /\ handle t <> 0%nat
                   /\ timer_delay t = delay).
Proof.
  intros Hfirst.
  assert (Hinit : next_handle (timers (@createDebouncer A first_handle)) <> 0%nat
                  /\ (pending (timers (@createDebouncer A first_handle)) = []
                      \/ exists t,
                           pending (timers (@createDebouncer A first_handle)) = [t]
                           /\ timeoutId (@createDebouncer A first_handle)
                              = Some (handle t)
                           /\ handle t <> 0%nat
                           /\ timer_delay t = delay))
    by (split; [exact Hfirst|now left]).
  revert Hinit. generalize (@createDebouncer A first_handle).
  induction events as [|e events IH]; intros d Hd; [exact Hd|].
  cbn [fold_left]. apply IH. destruct Hd as [Hn Hp].
  destruct e as [fn|h]; cbn [timer_step].
  - unfold debounced, setTimeout. split.
    + destruct (timeoutId d) as [h|]; [destruct (h =? 0)%nat|];
        cbn [timers next_handle clearTimeout]; discriminate.
    + right.
      assert (Hcleared :
                pending (match timeoutId d with
                         | Some h => if (h =? 0)%nat then timers d
                                     else clearTimeout h (timers d)
                         | None => timers d
                         end) = []
                /\ next_handle (match timeoutId d with
                                | Some h => if (h =? 0)%nat then timers d
                                            else clearTimeout h (timers d)
                                | None => timers d
                                end) = next_handle (timers d)).
      { destruct Hp as [Hp|(t & Hp & Hid & Hh & Hdl)].
        - destruct (timeoutId d) as [h|]; [destruct (h =? 0)%nat|];
            cbn [clearTimeout pending next_handle]; rewrite ?Hp; split; reflexivity.
        - rewrite Hid. apply Nat.eqb_neq in Hh. rewrite Hh.
          cbn [clearTimeout pending next_handle]. rewrite Hp.
          cbn [filter]. rewrite Nat.eqb_refl. split; reflexivity. }
      destruct Hcleared as [Hc Hnh].
      cbn [timers pending timeoutId]. rewrite Hc, Hnh. cbn [app].
      eexists. split; [reflexivity|]. cbn [handle timer_delay]. auto.
  - unfold expire. cbn [timers timeoutId clearTimeout next_handle pending].
    split; [exact Hn|].
    destruct Hp as [Hp|(t & Hp & Hid & Hh & Hdl)]; rewrite Hp; cbn [filter].
    + now left.
    + destruct (handle t =? h)%nat; cbn [negb]; [now left|].
      right. exists t. auto.
Qed.

(** X29.  A debouncer holds at most one pending callback, and after every
    call it is the one just passed, with the debouncer's delay, whatever was
    called or has expired before: a call cancels the callback of the call
    before it unless that one has already run. *)
Theorem debouncer_keeps_the_last_call {A} delay first_handle
    (events : list (timer_event A)) :
  first_handle <> 0%nat ->
  let d := fold_left (timer_step delay) events (createDebouncer first_handle) in
  (List.length (pending (timers d)) <= 1)%nat
  /\ (forall t, In t (pending (timers d)) ->
                timeoutId d = Some (handle t) /\ timer_delay t = delay)
  /\ (forall fn,
        pending (timers (debounced delay fn d))
        = [mkTimer (next_handle (timers d)) delay fn])
  /\ (forall fn h,
        ran (expire h (debounced delay fn d))
        = ran d ++ (if (next_handle (timers d) =? h)%nat then [fn] else [])).
Proof.
  intros Hfirst d.
  destruct (debouncer_invariant delay first_handle events Hfirst) as [Hn Hp].
  fold d in Hn, Hp.
  assert (Hcall : forall fn,
            pending (timers (debounced delay fn d))
            = [mkTimer (next_handle (timers d)) delay fn]).
  { intros fn. unfold debounced, setTimeout.
    destruct Hp as [Hp|(t & Hp & Hid & Hh & Hdl)].
    - destruct (timeoutId d) as [h|]; [destruct (h =? 0)%nat|];
        cbn [timers clearTimeout pending next_handle]; rewrite ?Hp; reflexivity.
    - rewrite Hid. apply Nat.eqb_neq in Hh. rewrite Hh.
      cbn [timers clearTimeout pending next_handle]. rewrite Hp.
      cbn [filter]. rewrite Nat.eqb_refl. reflexivity. }
  split; [|split; [|split]].
  - destruct Hp as [Hp|(t & Hp & _)]; rewrite Hp; cbn [List.length]; lia.
  - intros t Ht. destruct Hp as [Hp|(t' & Hp & Hid & _ & Hdl)];
      rewrite Hp in Ht; [destruct Ht|].
    destruct Ht as [<-|[]]. split; assumption.
  - exact Hcall.
  - intros fn h. unfold expire. cbn [ran]. rewrite Hcall.
    cbn [filter handle].
    assert (Hran : ran (debounced delay fn d) = ran d).
    { unfold debounced. destruct (setTimeout _ _ _). reflexivity. }
    rewrite Hran. destruct (next_handle (timers d) =? h)%nat; reflexivity.
Qed.

Lemma debouncer_keeps_the_last_call_witness :
  pending (timers
    (debounced 100 "fetchParticipants"
       (fold_left (timer_step 100)
          [Called "fetchRoom"; Called "fetchRoom"; Expired 2%nat;
           Called "fetchRoom"]
          (createDebouncer 1%nat))))
  = [mkTimer 4%nat 100 "fetchParticipants"].
Proof.
  refine (proj1 (proj2 (proj2
            (debouncer_keeps_the_last_call 100 1%nat
               [Called "fetchRoom"; Called "fetchRoom"; Expired 2%nat;
                Called "fetchRoom"] _))) "fetchParticipants").
  discriminate.
Defined.
